(** * SmartFit AI: the rule-based fitness estimation engine of [app.py]

    A shallow embedding of the helper functions and button handlers of
    [app.py] (calorie estimate, BMI, weight projection, archetype rules,
    diet and workout tables, weekly schedule), followed by the properties
    of the written specification that were checked against it.

    Python [float] is IEEE-754 binary64; it is modelled with the executable
    specification of the Standard Library ([SpecFloat], precision 53,
    [emax] 1024, round to nearest even), so every value below is the
    double that CPython computes, bit for bit.  Python [int] is [Z],
    [str] is [string], a [dict] is a [gmap]. *)

From Stdlib Require Import ZArith Lia List Bool SpecFloat.
From stdpp Require Import gmap strings list fin_maps.

Local Open Scope string_scope.
Local Open Scope Z_scope.

(** ** Binary64 arithmetic *)

Module F64.

Definition prec : Z := 53.
Definition emax : Z := 1024.

Definition float : Type := spec_float.

Definition mul : float -> float -> float := SFmul prec emax.
Definition add : float -> float -> float := SFadd prec emax.
Definition sub : float -> float -> float := SFsub prec emax.
Definition div : float -> float -> float := SFdiv prec emax.
Definition ltb : float -> float -> bool := SFltb.
Definition leb : float -> float -> bool := SFleb.
Definition eqb : float -> float -> bool := SFeqb.

Definition nan : float := S754_nan.
Definition pinf : float := S754_infinity false.

(** The double nearest to the integer [n], ties to even: exact whenever
    [|n| <= 2^53], an infinity beyond the range of doubles.  This is the
    value of an int literal such as [200] or [7700] in float arithmetic;
    the conversion of an int that comes from an input is [py_float]
    below, which raises where this function yields an infinity. *)
Definition of_Z (n : Z) : float := binary_normalize prec emax n 0 false.

(** [1.0] *)
Definition one : float := S754_finite false 4503599627370496 (-52).

(** The double nearest to the fraction [a / b], ties to even.  The
    division core works on any pair of positive integers, so no
    intermediate rounding of [a] or [b] takes place. *)
Definition nearest_quot (s : bool) (a b : positive) : float :=
  SFdiv prec emax (S754_finite s a 0) (S754_finite false b 0).

(** A decimal literal [n / 10^k], read the way Python reads [3.5] or
    [1.1]: the nearest double. *)
Definition of_dec (n : Z) (k : nat) : float :=
  match n with
  | Z0 => S754_zero false
  | Zpos p => nearest_quot false p (Z.to_pos (10 ^ Z.of_nat k))
  | Zneg p => nearest_quot true p (Z.to_pos (10 ^ Z.of_nat k))
  end.

Definition is_finite (x : float) : bool :=
  match x with
  | S754_zero _ | S754_finite _ _ _ => true
  | _ => false
  end.

Definition is_zero (x : float) : bool :=
  match x with
  | S754_zero _ => true
  | _ => false
  end.

(** A positive finite double: sign bit clear, mantissa and exponent in
    the canonical form of the format. *)
Definition positive_finite (x : float) : bool :=
  match x with
  | S754_finite false m e => bounded prec emax m e
  | _ => false
  end.

(** Integer division rounding to the nearest integer, ties to even. *)
Definition div_half_even (a b : Z) : Z :=
  let q := a / b in
  let r := a mod b in
  match 2 * r ?= b with
  | Lt => q
  | Gt => q + 1
  | Eq => if Z.even q then q else q + 1
  end.

(** The integer nearest to [100 * m * 2^e], ties to even: the digits
    that the decimal conversion of [round(x, 2)] produces. *)
Definition hundredths (m : positive) (e : Z) : Z :=
  match e with
  | Zneg p => div_half_even (100 * Zpos m) (Z.pow 2 (Zpos p))
  | _ => 100 * Zpos m * Z.pow 2 e
  end.

(** Python's [round(x, 2)] on a float.  CPython prints [x] to two
    decimals correctly rounded (ties to even on the exact binary
    value) and reads the decimal back as the nearest double; NaN and
    the infinities round to themselves, and a result of zero keeps the
    sign of [x]. *)
Definition round2 (x : float) : float :=
  match x with
  | S754_finite s m e =>
      match hundredths m e with
      | Zpos q => nearest_quot s q 100
      | _ => S754_zero s
      end
  | _ => x
  end.

End F64.

Abbreviation float := F64.float.

Declare Scope f64_scope.
Delimit Scope f64_scope with f64.
Infix "*" := F64.mul : f64_scope.
Infix "+" := F64.add : f64_scope.
Infix "-" := F64.sub : f64_scope.
Infix "/" := F64.div : f64_scope.

(** ** Python dictionaries *)

(** A dict display [{k1: v1, ...}] inserts the items from left to right. *)
Definition py_dict {V : Type} `{Countable K} (items : list (K * V)) : gmap K V :=
  foldl (fun m kv => <[kv.1 := kv.2]> m) ∅ items.

(** [d.get(k, dflt)] *)
Definition py_get {V : Type} `{Countable K} (d : gmap K V) (k : K) (dflt : V) : V :=
  default dflt (d !! k).

(** ** Helper functions of [app.py] *)

(** [calculate_calories_burned(duration, intensity, weight, age)] on
    float arguments.  An int argument is converted by the multiplication
    that meets it, the weight before the duration; the handlers below
    make these conversions, in that order, before the call. *)
Definition met_values : gmap string float :=
  py_dict [("Low", F64.of_dec 35 1); ("Medium", F64.of_dec 60 1);
           ("High", F64.of_dec 85 1); ("Very High", F64.of_dec 105 1)].

Definition calculate_calories_burned
    (duration : float) (intensity : string) (weight : float) (age : Z) : float :=
  let met := py_get met_values intensity (F64.of_dec 60 1) in
  let calories := ((met * F64.of_dec 35 1 * weight / F64.of_Z 200) * duration)%f64 in
  F64.round2 calories.

Definition workout_factors : gmap string float :=
  py_dict [("Cardio", F64.of_dec 12 1); ("Strength", F64.of_dec 9 1);
           ("HIIT", F64.of_dec 15 1); ("Yoga", F64.of_dec 6 1);
           ("Sports", F64.of_dec 13 1)].

(** ** Python exceptions *)

Inductive exn : Type :=
  | KeyError
  | IndexError
  | ZeroDivisionError
  | OverflowError.

Inductive result (A : Type) : Type :=
  | Ok (a : A)
  | Raise (e : exn).

Arguments Ok {A} a.
Arguments Raise {A} e.

#[export] Instance result_ret : MRet result := fun A a => Ok a.
#[export] Instance result_bind : MBind result := fun A B f r =>
  match r with
  | Ok a => f a
  | Raise e => Raise e
  end.

(** ** Python numbers *)

(** An int or a float.  The sliders and the integer number inputs hand
    ints to the handlers; [min] and [max] hand back one of their
    arguments as it is. *)
Inductive number : Type :=
  | Int (n : Z)
  | Float (x : float).

(** The least positive int without a double, half an ulp above the
    largest double. *)
Definition double_limit : Z := 2 ^ 1024 - 2 ^ 970.

(** Whether an int has a double: the ints whose nearest double is
    finite, those below [double_limit] in absolute value. *)
Definition fits_double (n : Z) : bool := F64.is_finite (F64.of_Z n).

(** The conversion of an int operand in float arithmetic: the nearest
    double, or [OverflowError] for an int too large to convert. *)
Definition py_float (n : Z) : result float :=
  if fits_double n then Ok (F64.of_Z n) else Raise OverflowError.

Definition as_float (v : number) : result float :=
  match v with
  | Int n => py_float n
  | Float x => Ok x
  end.

(** The handler of the "Calculate Calories Burned" button: the value of
    [calories] after the gender and workout-type factors are applied.
    The sliders supply [duration] and [weight] as ints. *)
Definition predict_calories
    (duration : Z) (intensity : string) (weight age : Z)
    (gender workout_type : string) : result float :=
  weight_f ← py_float weight;
  duration_f ← py_float duration;
  let calories := calculate_calories_burned duration_f intensity weight_f age in
  let gender_factor :=
    if String.eqb gender "Male" then F64.of_dec 11 1 else F64.of_dec 10 1 in
  Ok (calories * gender_factor * py_get workout_factors workout_type (F64.of_dec 10 1))%f64.

(** [d[k]] on a dict *)
Definition py_index {V : Type} `{Countable K} (d : gmap K V) (k : K) : result V :=
  match d !! k with
  | Some v => Ok v
  | None => Raise KeyError
  end.

(** [a % b] on ints: the sign of the result follows the divisor, as
    [Z.modulo] does. *)
Definition py_mod (a b : Z) : result Z :=
  if b =? 0 then Raise ZeroDivisionError else Ok (a mod b).

(** [l[i]] on a list; a negative index counts from the end. *)
Definition py_item {A : Type} (l : list A) (i : Z) : result A :=
  let j := if i <? 0 then i + Z.of_nat (length l) else i in
  if j <? 0 then Raise IndexError
  else match l !! Z.to_nat j with
       | Some a => Ok a
       | None => Raise IndexError
       end.

(** The bound of a slice, clipped to the list as Python does. *)
Definition slice_bound {A : Type} (l : list A) (n : Z) : nat :=
  Z.to_nat (if n <? 0 then Z.max 0 (n + Z.of_nat (length l)) else n).

(** [l[:n]] and [l[n:]] *)
Definition py_slice_to {A : Type} (l : list A) (n : Z) : list A :=
  take (slice_bound l n) l.

Definition py_slice_from {A : Type} (l : list A) (n : Z) : list A :=
  drop (slice_bound l n) l.

(** [list(range(start, stop, step))] for a positive [step] (the only
    use in [app.py]; a step of zero raises in Python and is never
    passed).  The length is computed as CPython does. *)
Definition range_len (start stop step : Z) : nat :=
  if start <? stop then Z.to_nat ((stop - start - 1) / step + 1) else 0%nat.

Definition py_range (start stop step : Z) : list Z :=
  map (fun i : nat => start + Z.of_nat i * step) (seq 0 (range_len start stop step)).

(** ** The C library *)

(** CPython computes [x ** y] on floats with the [pow] of the platform's
    C library.  That function is accurate but not correctly rounded
    ([1.4437 ** 2] is not the double nearest to the square), and
    libraries differ, so its result is a parameter of the model:
    [pow_two a] stands for [pow(a, 2.0)] at a positive finite [a]. *)
Class Libm : Type := { pow_two : float → float }.

(** The library whose squares are correctly rounded. *)
Definition rounding_libm : Libm := {| pow_two := fun a => (a * a)%f64 |}.

(** [a ** 2.0] at a positive finite [a]: [1.0] is answered without the
    library. *)
Definition libm_square `{Libm} (a : float) : float :=
  if F64.eqb a F64.one then F64.one else pow_two a.

(** [x ** 2] on a float.  CPython answers NaN, the infinities and zero
    itself, takes the absolute value of a negative base (the exponent is
    even), and turns an infinite result of the library into
    [OverflowError]; an underflow to zero is returned as [0.0]. *)
Definition py_square `{Libm} (x : float) : result float :=
  match x with
  | S754_nan => Ok F64.nan
  | S754_infinity _ => Ok F64.pinf
  | S754_zero _ => Ok (S754_zero false)
  | S754_finite _ m e =>
      match libm_square (S754_finite false m e) with
      | S754_infinity _ => Raise OverflowError
      | r => Ok r
      end
  end.

(** [a / b] with a float divisor: an int dividend is converted, then a
    zero divisor raises. *)
Definition py_truediv (a : number) (b : float) : result float :=
  x ← as_float a;
  if F64.is_zero b then Raise ZeroDivisionError else Ok (x / b)%f64.

(** [calculate_bmi(weight_kg, height_m)]: the right operand of the
    division, the square, is evaluated before the division itself. *)
Definition calculate_bmi `{Libm} (weight_kg : number) (height_m : float) : result float :=
  h2 ← py_square height_m;
  py_truediv weight_kg h2.

(** ** The "Predict Progress" handler *)

Definition weekly_deficits : gmap string Z :=
  py_dict [("Weight Loss", -500); ("Maintenance", 0); ("Muscle Gain", 300)].

Record projection : Type := {
  weekly_cal_burn : float;
  net_weekly : float;
  weight_change_per_week : float;
  projected_weight : float
}.

(** The projection model: the dict subscript raises [KeyError] on an
    unknown goal; the burn is always computed at intensity ["Medium"]
    and age [30].  The four inputs are ints, converted where the float
    arithmetic meets them: the weight and the duration inside
    [calculate_calories_burned], the workouts at the product, the weeks
    at the last product (the weight is converted once more by the last
    sum, to the same double). *)
Definition project_weight
    (current_weight weekly_workouts workout_duration_avg : Z)
    (diet_goal : string) (weeks : Z) : result projection :=
  weekly_deficit ← py_index weekly_deficits diet_goal;
  weight_f ← py_float current_weight;
  duration_f ← py_float workout_duration_avg;
  workouts_f ← py_float weekly_workouts;
  let burn := (calculate_calories_burned duration_f "Medium" weight_f 30 * workouts_f)%f64 in
  deficit_f ← py_float (weekly_deficit * 7);
  let net := (burn + deficit_f)%f64 in
  let change := (net / F64.of_Z 7700)%f64 in
  weeks_f ← py_float weeks;
  Ok {| weekly_cal_burn := burn;
        net_weekly := net;
        weight_change_per_week := change;
        projected_weight := (weight_f + change * weeks_f)%f64 |}.

(** The progress chart: [timeline] and [weights], a list comprehension
    that converts the week and the weight at every point. *)
Definition timeline (weeks : Z) : list Z :=
  py_range 0 (weeks + 1) (Z.max 1 (weeks / 10)).

Definition chart_point (current_weight : Z) (change : float) (w : Z) : result float :=
  w_f ← py_float w;
  weight_f ← py_float current_weight;
  Ok (weight_f + change * w_f)%f64.

Definition chart_weights (current_weight : Z) (change : float) (weeks : Z)
    : result (list float) :=
  mapM (chart_point current_weight change) (timeline weeks).

(** ** The "Find My Fitness Profile" rules *)

Definition assign_cluster
    (bmi : float) (user_bpm : Z) (user_experience : string)
    (user_duration user_frequency : Z) (user_intensity : string) : Z :=
  if bool_decide (175 < user_bpm ∧ user_experience = "Elite" ∧ 60 < user_duration) then 0
  else if bool_decide (user_experience ∈ ["Advanced"; "Elite"]
                       ∧ user_intensity ∈ ["High"; "Very High"]) then 1
  else if bool_decide (user_experience = "Intermediate" ∧ 3 <= user_frequency) then 2
  else if bool_decide (user_experience = "Beginner" ∨ user_frequency <= 2) then 3
  else if F64.ltb (F64.of_Z 30) bmi then 4 else 2.

Definition find_fitness_profile `{Libm}
    (user_weight : Z) (user_height : float) (user_bpm : Z) (user_experience : string)
    (user_duration user_frequency : Z) (user_intensity : string) : result Z :=
  bmi ← calculate_bmi (Int user_weight) user_height;
  Ok (assign_cluster bmi user_bpm user_experience user_duration user_frequency user_intensity).

(** ** Workout and diet tables *)

Definition workouts : gmap Z (gmap string (list string)) :=
  py_dict [
    (0, py_dict [
      ("High", ["HIIT Training (45 min)"; "Marathon Running (90 min)";
                "CrossFit WOD (60 min)"; "Olympic Lifting (75 min)"]);
      ("Medium", ["Tempo Running (60 min)"; "Circuit Training (45 min)"; "Swimming (60 min)"]);
      ("Low", ["Easy Run (30 min)"; "Yoga (45 min)"; "Stretching (20 min)"])]);
    (1, py_dict [
      ("High", ["Heavy Compound Lifts (75 min)"; "Powerlifting Session (90 min)";
                "Strongman Training (60 min)"]);
      ("Medium", ["Hypertrophy Training (60 min)"; "Push/Pull Workout (45 min)";
                  "Functional Training (50 min)"]);
      ("Low", ["Light Weight Training (30 min)"; "Mobility Work (25 min)";
               "Core Strength (20 min)"])]);
    (2, py_dict [
      ("High", ["Interval Training (40 min)"; "Full Body Circuit (45 min)"; "Spin Class (50 min)"]);
      ("Medium", ["Jogging (35 min)"; "Bodyweight Exercises (30 min)"; "Pilates (40 min)"]);
      ("Low", ["Walking (25 min)"; "Gentle Yoga (30 min)"; "Stretching (20 min)"])]);
    (3, py_dict [
      ("High", ["Beginner HIIT (25 min)"; "Light Circuit (30 min)";
                "Brisk Walking Hills (30 min)"]);
      ("Medium", ["Beginner Strength (30 min)"; "Low-Impact Cardio (25 min)";
                  "Basic Yoga (30 min)"]);
      ("Low", ["Gentle Walking (20 min)"; "Chair Exercises (15 min)";
               "Breathing Exercises (10 min)"])]);
    (4, py_dict [
      ("High", ["Water Aerobics (30 min)"; "Recumbent Bike (25 min)"; "Resistance Bands (20 min)"]);
      ("Medium", ["Gentle Walking (20 min)"; "Chair Yoga (25 min)"; "Balance Training (20 min)"]);
      ("Low", ["Stretching (15 min)"; "Seated Exercises (15 min)"; "Meditation (10 min)"])])
  ].

(** [get_workout_recommendations(cluster_id, difficulty)].  Python
    evaluates the arguments of a call before the call: [workouts[2]]
    before the outer [get], and [workouts[cluster_id]['Medium']] before
    the inner one. *)
Definition get_workout_recommendations
    (cluster_id : Z) (difficulty : string) : result (list string) :=
  fallback ← py_index workouts 2;
  let by_difficulty := py_get workouts cluster_id fallback in
  own ← py_index workouts cluster_id;
  dflt ← py_index own "Medium";
  Ok (py_get by_difficulty difficulty dflt).

Record diet_plan : Type := {
  calories : string;
  protein : string;
  carbs : string;
  fats : string;
  meals : list string
}.

Definition diet_weight_loss : diet_plan :=
  {| calories := "1500-1800 kcal/day";
     protein := "1.8-2.2g/kg bodyweight";
     carbs := "100-150g/day";
     fats := "40-60g/day";
     meals := ["Breakfast: Oatmeal with berries"; "Lunch: Grilled chicken salad";
               "Dinner: Salmon with vegetables"; "Snacks: Greek yogurt, almonds"] |}.

Definition diet_muscle_gain : diet_plan :=
  {| calories := "2500-3200 kcal/day";
     protein := "2.0-2.5g/kg bodyweight";
     carbs := "300-450g/day";
     fats := "70-100g/day";
     meals := ["Breakfast: Eggs, whole grain toast, avocado"; "Lunch: Rice, chicken, vegetables";
               "Dinner: Steak, sweet potato, broccoli"; "Snacks: Protein shake, nuts, banana"] |}.

Definition diet_maintenance : diet_plan :=
  {| calories := "2000-2400 kcal/day";
     protein := "1.5-1.8g/kg bodyweight";
     carbs := "200-280g/day";
     fats := "55-75g/day";
     meals := ["Breakfast: Smoothie bowl with granola"; "Lunch: Turkey wrap with vegetables";
               "Dinner: Pasta with lean meat sauce"; "Snacks: Fruit, trail mix"] |}.

Definition diet_endurance : diet_plan :=
  {| calories := "2800-3500 kcal/day";
     protein := "1.4-1.8g/kg bodyweight";
     carbs := "400-600g/day";
     fats := "60-90g/day";
     meals := ["Breakfast: Pancakes with maple syrup"; "Lunch: Quinoa bowl with chicken";
               "Dinner: Pasta with vegetables"; "Snacks: Energy bars, dried fruit, sports drinks"] |}.

Definition diets : gmap string diet_plan :=
  py_dict [("Weight Loss", diet_weight_loss); ("Muscle Gain", diet_muscle_gain);
           ("Maintenance", diet_maintenance); ("Endurance", diet_endurance)].

(** [get_diet_plan(cluster_id, goal)]; the subscript [diets['Maintenance']]
    is evaluated before the [get]. *)
Definition get_diet_plan (cluster_id : Z) (goal : string) : result diet_plan :=
  dflt ← py_index diets "Maintenance";
  Ok (py_get diets goal dflt).

(** ** The "Generate Workout Plan" handler *)

Definition exp_to_cluster : gmap string Z :=
  py_dict [("Beginner", 3); ("Intermediate", 2); ("Advanced", 1); ("Elite", 0)].

Definition days : list string :=
  ["Monday"; "Tuesday"; "Wednesday"; "Thursday"; "Friday"; "Saturday"; "Sunday"].

Definition rest_day : string := "Rest Day 😴".

(** [workout_schedule] is a dict filled by assignment: an existing key
    keeps its place, a new one goes to the end. *)
Fixpoint dict_set (d : list (string * string)) (k v : string) : list (string * string) :=
  match d with
  | [] => [(k, v)]
  | (k', v') :: rest =>
      if String.eqb k' k then (k', v) :: rest else (k', v') :: dict_set rest k v
  end.

Fixpoint dict_lookup (d : list (string * string)) (k : string) : option string :=
  match d with
  | [] => None
  | (k', v) :: rest => if String.eqb k' k then Some v else dict_lookup rest k
  end.

(** The list index chosen for day number [i]. *)
Definition pick_index (i len : Z) : result Z :=
  if i mod 2 =? 0 then py_mod i len else py_mod (i + 1) len.

(** The first loop, over [enumerate(days[:workout_days])], from day
    number [i] on. *)
Fixpoint assign_workouts (workouts : list string) (i : Z) (ds : list string)
    (schedule : list (string * string)) : result (list (string * string)) :=
  match ds with
  | [] => Ok schedule
  | day :: rest =>
      j ← pick_index i (Z.of_nat (length workouts));
      w ← py_item workouts j;
      assign_workouts workouts (i + 1) rest (dict_set schedule day w)
  end.

(** The second loop, over [days[workout_days:]]. *)
Definition assign_rest (ds : list string) (schedule : list (string * string))
    : list (string * string) :=
  foldl (fun s day => dict_set s day rest_day) schedule ds.

Definition weekly_schedule (workouts : list string) (workout_days : Z)
    : result (list (string * string)) :=
  schedule ← assign_workouts workouts 0 (py_slice_to days workout_days) [];
  Ok (assign_rest (py_slice_from days workout_days) schedule).

Definition generate_workout_plan
    (workout_experience difficulty_pref : string) (workout_days : Z)
    : result (list (string * string)) :=
  cluster ← py_index exp_to_cluster workout_experience;
  workouts ← get_workout_recommendations cluster difficulty_pref;
  weekly_schedule workouts workout_days.

(** [needle in s] on strings, as in the display test ["Rest" in workout]. *)
Definition py_in_str (needle s : string) : bool :=
  match String.index 0 needle s with
  | Some _ => true
  | None => false
  end.

Definition workout_days_of (schedule : list (string * string)) : nat :=
  length (filter (fun kv => py_in_str "Rest" kv.2 = false) schedule).

(** Whether the entries of a list are all different. *)
Fixpoint distinct (l : list string) : bool :=
  match l with
  | [] => true
  | w :: rest => forallb (fun w' => negb (String.eqb w w')) rest && distinct rest
  end.

Definition rest_days_of (schedule : list (string * string)) : nat :=
  length (filter (fun kv => py_in_str "Rest" kv.2 = true) schedule).

(** ** More of [app.py] *)

(** ** Archetype profiles *)

Record cluster_profile : Type := {
  name : string;
  desc : string;
  traits : list string
}.

Definition profiles : gmap Z cluster_profile :=
  py_dict [
    (0, {| name := "🏃 Elite Athletes";
           desc := "High intensity workouts, excellent cardiovascular health, low body fat";
           traits := ["Max BPM: 170-190"; "BMI: 18-23"; "Fat %: 8-15%";
                      "Workout Duration: 60-90 min"] |});
    (1, {| name := "💪 Strength Builders";
           desc := "Focus on resistance training, moderate cardio, muscle building phase";
           traits := ["Max BPM: 150-170"; "BMI: 24-27"; "Fat %: 15-22%";
                      "Workout Duration: 45-75 min"] |});
    (2, {| name := "🎯 Fitness Enthusiasts";
           desc := "Balanced workout routine, maintaining healthy lifestyle";
           traits := ["Max BPM: 140-165"; "BMI: 22-26"; "Fat %: 18-25%";
                      "Workout Duration: 30-60 min"] |});
    (3, {| name := "🌱 Beginners";
           desc := "Starting fitness journey, building foundational strength";
           traits := ["Max BPM: 130-150"; "BMI: 25-30"; "Fat %: 22-32%";
                      "Workout Duration: 20-45 min"] |});
    (4, {| name := "🏥 Health Focus";
           desc := "Medical considerations, low-impact activities, gradual progression";
           traits := ["Max BPM: 110-140"; "BMI: 28-35+"; "Fat %: 28-40%+";
                      "Workout Duration: 15-30 min"] |})
  ].

(** [get_fitness_cluster_profile(cluster_id)]; the default [profiles[2]]
    is evaluated before the [get]. *)
Definition get_fitness_cluster_profile (cluster_id : Z) : result cluster_profile :=
  dflt ← py_index profiles 2;
  Ok (py_get profiles cluster_id dflt).

(** The radar chart of the "Find My Fitness Profile" handler. *)
Definition attributes : list string :=
  ["Strength"; "Endurance"; "Flexibility"; "Power"; "Recovery"].

Definition cluster_scores : gmap Z (list Z) :=
  py_dict [(0, [85; 95; 70; 90; 80]); (1, [95; 70; 65; 85; 75]);
           (2, [70; 75; 75; 70; 80]); (3, [50; 55; 60; 50; 65]);
           (4, [45; 50; 55; 45; 60])].

(** The whole handler: the cluster, its profile and its scores. *)
Definition fitness_profile_page `{Libm}
    (user_weight : Z) (user_height : float) (user_bpm : Z) (user_experience : string)
    (user_duration user_frequency : Z) (user_intensity : string)
    : result (Z * cluster_profile * list Z) :=
  cluster ← find_fitness_profile user_weight user_height user_bpm user_experience
              user_duration user_frequency user_intensity;
  profile ← get_fitness_cluster_profile cluster;
  scores ← py_index cluster_scores cluster;
  Ok (cluster, profile, scores).

(** ** The "Analyze Body Composition" handler *)

(** The value of a number as a double, exact for the ints [5] and [50]
    that the clamp of the handler can yield besides the float in
    between. *)
Definition to_float (v : number) : float :=
  match v with
  | Int n => F64.of_Z n
  | Float x => x
  end.

(** [a < b] on numbers.  Python compares an int with a float by exact
    value; [F64.of_Z] is exact up to [2^53], far above the [5] and [50]
    compared here. *)
Definition num_ltb (a b : number) : bool :=
  match a, b with
  | Int m, Int n => m <? n
  | _, _ => F64.ltb (to_float a) (to_float b)
  end.

(** [min(a, b)] and [max(a, b)]: the first argument is kept unless the
    second is strictly smaller (greater); a NaN never is. *)
Definition py_min (a b : number) : number := if num_ltb b a then b else a.
Definition py_max (a b : number) : number := if num_ltb a b then b else a.

(** The body-fat estimate before the clamp; the age is an int,
    converted by its product with [0.23]. *)
Definition body_fat_formula (bmi : float) (age_bmi : Z) (gender_bmi : string)
    : result float :=
  if String.eqb gender_bmi "Male"
  then age_f ← py_float age_bmi;
       Ok ((F64.of_dec 120 2 * bmi) + (F64.of_dec 23 2 * age_f) - F64.of_dec 162 1)%f64
  else age_f ← py_float age_bmi;
       Ok ((F64.of_dec 120 2 * bmi) + (F64.of_dec 23 2 * age_f) - F64.of_dec 54 1)%f64.

(** [max(5, min(50, body_fat))] *)
Definition clamp_body_fat (body_fat : float) : number :=
  py_max (Int 5) (py_min (Int 50) (Float body_fat)).

(** The category ladder, with the colour of the label. *)
Definition bmi_category (bmi : float) : string * string :=
  if F64.ltb bmi (F64.of_dec 185 1) then ("Underweight", "blue")
  else if F64.ltb bmi (F64.of_Z 25) then ("Normal Weight", "green")
  else if F64.ltb bmi (F64.of_Z 30) then ("Overweight", "orange")
  else ("Obese", "red").

Record body_composition : Type := {
  bmi_shown : float;
  body_fat : number;
  category : string;
  color : string
}.

Definition analyze_body_composition `{Libm}
    (weight_bmi : Z) (height_m : float) (age_bmi : Z) (gender_bmi : string)
    : result body_composition :=
  bmi ← calculate_bmi (Int weight_bmi) height_m;
  estimate ← body_fat_formula bmi age_bmi gender_bmi;
  let fat := clamp_body_fat estimate in
  let label := bmi_category bmi in
  Ok {| bmi_shown := bmi; body_fat := fat; category := label.1; color := label.2 |}.

(** ** The "Generate Diet Plan" handler *)

Definition diet_cluster (bmi : float) (diet_goal : string) : Z :=
  if F64.ltb bmi (F64.of_Z 22) && String.eqb diet_goal "Muscle Gain" then 1
  else if String.eqb diet_goal "Endurance" then 0
  else if F64.ltb (F64.of_Z 28) bmi && String.eqb diet_goal "Weight Loss" then 4
  else 2.

Definition generate_diet_plan `{Libm}
    (diet_weight : Z) (diet_height : float) (diet_goal : string) : result diet_plan :=
  bmi ← calculate_bmi (Int diet_weight) diet_height;
  get_diet_plan (diet_cluster bmi diet_goal) diet_goal.

(** The rung of a category label on the ladder, lowest first. *)
Definition category_rank (label : string) : Z :=
  if decide (label = "Underweight") then 0
  else if decide (label = "Normal Weight") then 1
  else if decide (label = "Overweight") then 2
  else 3.

(** The widget of the workout recommender offers these experiences. *)
Definition experiences : list string := ["Beginner"; "Intermediate"; "Advanced"; "Elite"].

(** ** Non-negative doubles *)

(** A double that is [+0.0], positive and finite, or [+inf]: the values
    that the calorie arithmetic produces from positive inputs. *)
Definition nonnegative (x : float) : bool :=
  match x with
  | S754_zero false | S754_infinity false => true
  | S754_finite false m e => bounded F64.prec F64.emax m e
  | _ => false
  end.

(** ** The tables and formulas in the words of the specification *)

Module Spec.

(** The MET table, with [6.0] for any other intensity. *)
Definition met (intensity : string) : float :=
  if decide (intensity = "Low") then F64.of_dec 35 1
  else if decide (intensity = "Medium") then F64.of_dec 60 1
  else if decide (intensity = "High") then F64.of_dec 85 1
  else if decide (intensity = "Very High") then F64.of_dec 105 1
  else F64.of_dec 60 1.

(** Male [1.1], Female [1.0]. *)
Definition gender_factor (gender : string) : float :=
  if decide (gender = "Male") then F64.of_dec 11 1 else F64.of_dec 10 1.

(** The workout-type table, with [1.0] for any other type. *)
Definition type_factor (workout_type : string) : float :=
  if decide (workout_type = "Cardio") then F64.of_dec 12 1
  else if decide (workout_type = "Strength") then F64.of_dec 9 1
  else if decide (workout_type = "HIIT") then F64.of_dec 15 1
  else if decide (workout_type = "Yoga") then F64.of_dec 6 1
  else if decide (workout_type = "Sports") then F64.of_dec 13 1
  else F64.of_dec 10 1.

(** [round((MET * 3.5 * weight / 200) * duration, 2)] *)
Definition base_calories (duration : float) (intensity : string) (weight : float) : float :=
  F64.round2 ((met intensity * F64.of_dec 35 1 * weight / F64.of_Z 200) * duration)%f64.

(** Daily calorie delta of a diet goal. *)
Definition diet_delta (goal : string) : Z :=
  if decide (goal = "Weight Loss") then -500
  else if decide (goal = "Muscle Gain") then 300
  else 0.

(** The four conditions of the profile rules. *)
Definition rule1 (bpm : Z) (experience : string) (duration : Z) : Prop :=
  175 < bpm ∧ experience = "Elite" ∧ 60 < duration.

Definition rule2 (experience intensity : string) : Prop :=
  (experience = "Advanced" ∨ experience = "Elite")
  ∧ (intensity = "High" ∨ intensity = "Very High").

Definition rule3 (experience : string) (frequency : Z) : Prop :=
  experience = "Intermediate" ∧ 3 <= frequency.

Definition rule4 (experience : string) (frequency : Z) : Prop :=
  experience = "Beginner" ∨ frequency <= 2.

(** The entry of the workout list for day number [i]: [list[i % len]]
    on an even day, [list[(i + 1) % len]] on an odd one. *)
Definition choice (workouts : list string) (i : Z) : option string :=
  if Z.even i
  then workouts !! Z.to_nat (i mod Z.of_nat (length workouts))
  else workouts !! Z.to_nat ((i + 1) mod Z.of_nat (length workouts)).

End Spec.

(** ** The statements under test *)

(** The evaluation of the specification's worked example. *)
Definition example_base : float :=
  calculate_calories_burned (F64.of_Z 45) "Medium" (F64.of_Z 70) 30.

Definition example_calories : result float :=
  predict_calories 45 "Medium" 70 30 "Male" "Cardio".

(** C5 as the specification states it: base [66.15], result [87.32]. *)
Definition worked_example_as_stated : Prop :=
  example_base = F64.of_dec 6615 2 ∧ example_calories = Ok (F64.of_dec 8732 2).

(** C6 as the specification states it: the range, at most ten points
    besides week 0, and the final week as last entry. *)
Definition timeline_as_stated (weeks : Z) : Prop :=
  timeline weeks = py_range 0 (weeks + 1) (Z.max 1 (weeks / 10))
  ∧ (length (timeline weeks) <= 1 + 10)%nat
  ∧ last (timeline weeks) = Some weeks.

(** C7's remark on the offset, as the specification states it: two
    adjacent training days receive different workouts when the list
    permits it, that is, when it has two entries or more, all
    different. *)
Definition adjacent_days_differ_as_stated : Prop :=
  ∀ (archetype : Z) (difficulty : string) (days_per_week : Z)
    (ws : list string) (schedule : list (string * string))
    (i : nat) (day next : string),
    0 <= archetype <= 4 → 1 <= days_per_week <= 7 →
    get_workout_recommendations archetype difficulty = Ok ws →
    (2 <= length ws)%nat → NoDup ws →
    weekly_schedule ws days_per_week = Ok schedule →
    days !! i = Some day → days !! S i = Some next →
    Z.of_nat (S i) < days_per_week →
    dict_lookup schedule day ≠ dict_lookup schedule next.

(** ** The weekly schedule in closed form *)

(** The schedule that the two loops build when day number [i] is
    given the entry [pick i]. *)
Fixpoint fill (pick : Z → string) (i : Z) (ds : list string)
    (schedule : list (string * string)) : list (string * string) :=
  match ds with
  | [] => schedule
  | day :: rest => fill pick (i + 1) rest (dict_set schedule day (pick i))
  end.

Definition filled_week (pick : Z → string) (workout_days : Z) : list (string * string) :=
  assign_rest (py_slice_from days workout_days)
    (fill pick 0 (py_slice_to days workout_days) []).

(** ** Body mass index: the statement under test and the widget inputs *)

Module Bmi.

(** [x > 0] on floats. *)
Definition positive (x : float) : Prop := F64.ltb (S754_zero false) x = true.

(** [v > 0] on a number, and [v < w] on two numbers of one kind. *)
Definition positive_number (v : number) : Prop :=
  match v with
  | Int n => 0 < n
  | Float x => positive x
  end.

Definition below (v w : number) : Prop :=
  match v, w with
  | Int n, Int m => n < m
  | Float x, Float y => F64.ltb x y = true
  | _, _ => False
  end.

(** C8 as the specification states it, in three parts, for a given C
    library: for positive arguments the call returns the quotient of
    the weight by [height ** 2]; the result grows strictly with the
    weight; and it falls strictly with the height. *)
Definition returns_quotient `{Libm} : Prop :=
  ∀ (w : number) (h : float), positive_number w → positive h →
    ∃ x s : float,
      as_float w = Ok x ∧ py_square h = Ok s ∧ calculate_bmi w h = Ok (x / s)%f64.

Definition strictly_increasing_in_weight `{Libm} : Prop :=
  ∀ (w1 w2 : number) (h b1 b2 : float),
    positive_number w1 → positive h → below w1 w2 →
    calculate_bmi w1 h = Ok b1 → calculate_bmi w2 h = Ok b2 →
    F64.ltb b1 b2 = true.

Definition strictly_decreasing_in_height `{Libm} : Prop :=
  ∀ (w : number) (h1 h2 b1 b2 : float),
    positive_number w → positive h1 → F64.ltb h1 h2 = true →
    calculate_bmi w h1 = Ok b1 → calculate_bmi w h2 = Ok b2 →
    F64.ltb b2 b1 = true.

Definition as_stated `{Libm} : Prop :=
  returns_quotient ∧ strictly_increasing_in_weight ∧ strictly_decreasing_in_height.

(** The inputs of the widgets: a weight in whole kilograms from 40 to
    200, a height in whole centimetres from 140 to 220 entered as a
    decimal number of metres. *)
Definition weight_kg (w : Z) : float := F64.of_Z w.
Definition height_m (cm : Z) : float := F64.of_dec cm 2.

(** The weights [40 + j] and the rounded squares of the heights
    [140 + i], and the table of their quotients, one row per height. *)
Definition weights : list float :=
  map (fun j : nat => weight_kg (40 + Z.of_nat j)) (seq 0 161).

Definition square (i : nat) : float :=
  let h := height_m (140 + Z.of_nat i) in (h * h)%f64.

Definition squares : list float := map square (seq 0 81).

Definition table : list (list float) :=
  map (fun h2 => map (fun w => (w / h2)%f64) weights) squares.

Definition entry (t : list (list float)) (i j : nat) : float :=
  nth j (nth i t []) F64.nan.

(** [f 0 < f 1 < ... < f n], checked link by link. *)
Fixpoint ascending (f : nat → float) (n : nat) : bool :=
  match n with
  | O => true
  | S n' => ascending f n' && F64.ltb (f n') (f n)
  end.

Fixpoint descending (f : nat → float) (n : nat) : bool :=
  match n with
  | O => true
  | S n' => descending f n' && F64.ltb (f n) (f n')
  end.

(** The height is a positive finite number other than [1.0] and its
    rounded square is a positive finite number. *)
Definition square_is_regular (h : float) : bool :=
  match h, (h * h)%f64 with
  | S754_finite false _ _, S754_finite _ _ _ =>
      negb (F64.eqb h F64.one) && F64.positive_finite h && F64.positive_finite (h * h)%f64
  | _, _ => false
  end.

(** A C library whose squares of the 81 heights of the widget are
    correctly rounded. *)
Definition grid_squares `{Libm} : Prop :=
  ∀ cm : Z, 140 <= cm <= 220 →
    pow_two (height_m cm) = (height_m cm * height_m cm)%f64.

(** A C library whose squares of the 81 heights are positive finite
    doubles. *)
Definition grid_positive `{Libm} : Prop :=
  ∀ cm : Z, 140 <= cm <= 220 → F64.positive_finite (pow_two (height_m cm)) = true.

End Bmi.

(** ** Rounding to nearest even, on fractions

    The operations of [SpecFloat] round a quotient or a product through
    [binary_round_aux].  The definitions below describe that rounding on
    a fraction [N / D] scaled by [2^e]. *)

(** The exponent of the format for a number of magnitude [e]. *)
Definition fexp (e : Z) : Z := SpecFloat.fexp F64.prec F64.emax e.

(** The position of [N / D] between two integers, against the half. *)
Definition loc_of (N D : Z) : location :=
  if N mod D =? 0 then loc_Exact else loc_Inexact (2 * (N mod D) ?= D).

(** The truncated fraction with its round and sticky bits. *)
Definition frac_record (N D : Z) : shr_record :=
  shr_record_of_loc (N / D) (loc_of N D).

(** The fraction rounded to the nearest integer, ties to even. *)
Definition rne (N D : Z) : Z := round_nearest_even (N / D) (loc_of N D).

(** The double nearest to [(N / D) * 2^e]. *)
Definition rnd (N D e : Z) : float :=
  binary_round_aux F64.prec F64.emax false (N / D) e (loc_of N D).

(** The double with mantissa [m] and exponent [E], infinite on overflow. *)
Definition pack (m E : Z) : float :=
  match m with
  | Z0 => S754_zero false
  | Zpos p => if E <=? F64.emax - F64.prec then S754_finite false p E else S754_infinity false
  | Zneg _ => S754_nan
  end.

(** The same after the carry of a mantissa of [2^53] into the next binade. *)
Definition norm_pack (m E : Z) : float :=
  if m =? 2 ^ 53 then pack (2 ^ 52) (E + 1) else pack m E.

(** The exponent at which the division core truncates the quotient. *)
Definition div_exp (mx : positive) (ex : Z) (my : positive) (ey : Z) : Z :=
  Z.min (fexp (Zdigits2 (Zpos mx) + ex - (Zdigits2 (Zpos my) + ey))) (ex - ey).

(** ** Lookups in dict displays *)

(** Reduces the lookup of a key in a dict display to a chain of key
    comparisons. *)
Ltac dict_lookup :=
  unfold py_get, py_index, py_dict; cbn [foldl fst snd];
  repeat rewrite lookup_insert; rewrite ?lookup_empty;
  repeat case_decide; subst; try congruence; try lia.

Lemma met_values_get (intensity : string) :
  py_get met_values intensity (F64.of_dec 60 1) = Spec.met intensity.
Proof.
  unfold met_values, Spec.met.
  repeat (case_decide; [subst; vm_compute; reflexivity|]).
  dict_lookup; reflexivity.
Qed.

Lemma workout_factors_get (workout_type : string) :
  py_get workout_factors workout_type (F64.of_dec 10 1) = Spec.type_factor workout_type.
Proof.
  unfold workout_factors, Spec.type_factor.
  repeat (case_decide; [subst; vm_compute; reflexivity|]).
  dict_lookup; reflexivity.
Qed.

Lemma gender_factor_eq (gender : string) :
  (if String.eqb gender "Male" then F64.of_dec 11 1 else F64.of_dec 10 1)
  = Spec.gender_factor gender.
Proof.
  unfold Spec.gender_factor.
  destruct (String.eqb_spec gender "Male"); case_decide; congruence.
Qed.

Lemma calories_burned_base (duration : float) (intensity : string) (weight : float) (age : Z) :
  calculate_calories_burned duration intensity weight age
  = Spec.base_calories duration intensity weight.
Proof.
  unfold calculate_calories_burned, Spec.base_calories.
  now rewrite met_values_get.
Qed.

(** ** Calorie estimate *)

(** The table values and the two defaults, spelled out. *)
Lemma calorie_tables :
  Spec.met "Low" = F64.of_dec 35 1 ∧ Spec.met "Medium" = F64.of_dec 60 1
  ∧ Spec.met "High" = F64.of_dec 85 1 ∧ Spec.met "Very High" = F64.of_dec 105 1
  ∧ (∀ intensity, intensity ∉ ["Low"; "Medium"; "High"; "Very High"] →
       Spec.met intensity = F64.of_dec 60 1)
  ∧ (∀ workout_type, workout_type ∉ ["Cardio"; "Strength"; "HIIT"; "Yoga"; "Sports"] →
       Spec.type_factor workout_type = F64.of_dec 10 1).
Proof.
  repeat split; try reflexivity.
  - intros intensity Hn. unfold Spec.met.
    repeat case_decide; subst; try reflexivity; exfalso; apply Hn; repeat constructor.
  - intros workout_type Hn. unfold Spec.type_factor.
    repeat case_decide; subst; try reflexivity; exfalso; apply Hn; repeat constructor.
Qed.

(** An intensity outside the table is treated as Medium. *)
Lemma calories_burned_unknown_intensity (duration weight : float) (intensity : string) (age : Z) :
  intensity ∉ ["Low"; "Medium"; "High"; "Very High"] →
  calculate_calories_burned duration intensity weight age
  = calculate_calories_burned duration "Medium" weight age.
Proof.
  intros Hn. rewrite !calories_burned_base. unfold Spec.base_calories.
  replace (Spec.met intensity) with (Spec.met "Medium"); [reflexivity|].
  unfold Spec.met. repeat case_decide; subst; try reflexivity; try congruence;
    exfalso; apply Hn; repeat constructor.
Qed.

(** C10: the calorie estimate does not depend on its [age] argument, and
    neither does the value that the button handler derives from it. *)
Theorem calories_burned_age_independent
    (duration : float) (intensity : string) (weight : float) (a1 a2 : Z) :
  calculate_calories_burned duration intensity weight a1
  = calculate_calories_burned duration intensity weight a2
  ∧ ∀ (slider_duration slider_weight : Z) (gender workout_type : string),
      predict_calories slider_duration intensity slider_weight a1 gender workout_type
      = predict_calories slider_duration intensity slider_weight a2 gender workout_type.
Proof.
  split.
  - now rewrite !calories_burned_base.
  - intros. unfold predict_calories.
    destruct (py_float slider_weight); [|reflexivity].
    destruct (py_float slider_duration); [|reflexivity].
    cbn [mbind result_bind]. now rewrite !calories_burned_base.
Qed.

(** C5, refuted: neither number is what the code computes, exactly or
    after rounding to two decimals. *)
Lemma worked_example_refuted :
  ¬ worked_example_as_stated
  ∧ example_base ≠ F64.of_dec 6615 2
  ∧ example_calories ≠ Ok (F64.of_dec 8732 2)
  ∧ (calories ← example_calories; Ok (F64.round2 calories)) ≠ Ok (F64.of_dec 8732 2).
Proof.
  assert (Hb : example_base ≠ F64.of_dec 6615 2) by (vm_compute; discriminate).
  assert (Hc : example_calories ≠ Ok (F64.of_dec 8732 2)) by (vm_compute; discriminate).
  repeat split; try assumption.
  - intros [H _]. exact (Hb H).
  - vm_compute. discriminate.
Qed.

(** C5, amended: [(6.0 * 3.5 * 70 / 200) * 45] is [330.75], which two-decimal
    rounding leaves unchanged; times [1.1] and [1.2] the handler returns the
    double [436.59000000000003], the successor of the double [436.59], which
    is [436.59] to two decimals. *)
Theorem worked_example_value :
  example_base = F64.of_dec 33075 2
  ∧ example_calories = Ok (S754_finite false 7680572505131582 (-44))
  ∧ example_calories = Ok (F64.of_dec 33075 2 * F64.of_dec 11 1 * F64.of_dec 12 1)%f64
  ∧ F64.of_dec 43659 2 = S754_finite false 7680572505131581 (-44)
  ∧ (calories ← example_calories; Ok (F64.round2 calories)) = Ok (F64.of_dec 43659 2).
Proof. repeat split; vm_compute; reflexivity. Qed.

(** ** Diet plans *)

Lemma diets_get (goal : string) :
  py_get diets goal diet_maintenance =
  if decide (goal = "Weight Loss") then diet_weight_loss
  else if decide (goal = "Muscle Gain") then diet_muscle_gain
  else if decide (goal = "Endurance") then diet_endurance
  else diet_maintenance.
Proof. unfold diets. dict_lookup; reflexivity. Qed.

Lemma get_diet_plan_eq (cluster_id : Z) (goal : string) :
  get_diet_plan cluster_id goal = Ok (py_get diets goal diet_maintenance).
Proof. reflexivity. Qed.

(** C4: the diet plan depends on the goal alone: any two cluster ids give
    the same plan, and a goal outside the four table keys gives the
    Maintenance plan. *)
Theorem diet_plan_ignores_cluster (c1 c2 : Z) (goal : string) :
  get_diet_plan c1 goal = get_diet_plan c2 goal
  ∧ (goal ∉ ["Weight Loss"; "Muscle Gain"; "Maintenance"; "Endurance"] →
     get_diet_plan c1 goal = Ok diet_maintenance).
Proof.
  split; [reflexivity|].
  intros Hn. rewrite get_diet_plan_eq, diets_get.
  repeat case_decide; subst; try reflexivity; exfalso; apply Hn; repeat constructor.
Qed.

Lemma diet_plan_ignores_cluster_witness :
  get_diet_plan 0 "Keto" = get_diet_plan 4 "Keto"
  ∧ get_diet_plan 0 "Keto" = Ok diet_maintenance.
Proof.
  split.
  - exact (proj1 (diet_plan_ignores_cluster 0 4 "Keto")).
  - apply (proj2 (diet_plan_ignores_cluster 0 4 "Keto")).
    intros H. repeat (apply elem_of_cons in H as [H|H]; [discriminate H|]).
    now apply elem_of_nil in H.
Defined.

(** The goals in the table get their own plan. *)
Lemma diet_plan_known_goals (c : Z) :
  get_diet_plan c "Weight Loss" = Ok diet_weight_loss
  ∧ get_diet_plan c "Muscle Gain" = Ok diet_muscle_gain
  ∧ get_diet_plan c "Maintenance" = Ok diet_maintenance
  ∧ get_diet_plan c "Endurance" = Ok diet_endurance.
Proof. repeat split. Qed.

(** ** Workout recommendations *)

Lemma workouts_lookup_outside (cluster_id : Z) :
  ¬ (0 <= cluster_id <= 4) → workouts !! cluster_id = None.
Proof.
  intros Hc. unfold workouts. unfold py_dict at 1. cbn [foldl fst snd].
  repeat (rewrite lookup_insert; case_decide; [lia|]).
  apply lookup_empty.
Qed.

(** Looks a literal cluster id up in [workouts], leaving the row as
    the dict display it was written as. *)
Ltac workouts_row :=
  unfold workouts; unfold py_dict at 1; cbn [foldl fst snd];
  repeat (rewrite lookup_insert;
          case_decide; [try (exfalso; discriminate) | try (exfalso; congruence)]);
  try reflexivity.

Lemma workouts_lookup_inside (cluster_id : Z) :
  0 <= cluster_id <= 4 →
  ∃ high medium low,
    workouts !! cluster_id = Some (py_dict [("High", high); ("Medium", medium); ("Low", low)])
    ∧ high ≠ [] ∧ medium ≠ [] ∧ low ≠ [].
Proof.
  intros Hc.
  assert (cluster_id = 0 ∨ cluster_id = 1 ∨ cluster_id = 2 ∨ cluster_id = 3 ∨ cluster_id = 4)
    as [->|[->|[->|[->| ->]]]] by lia;
    do 3 eexists; (split; [workouts_row|]); repeat split; discriminate.
Qed.

Lemma difficulty_get (high medium low dflt : list string) (difficulty : string) :
  py_get (py_dict [("High", high); ("Medium", medium); ("Low", low)]) difficulty dflt =
  if decide (difficulty = "High") then high
  else if decide (difficulty = "Medium") then medium
  else if decide (difficulty = "Low") then low
  else dflt.
Proof. dict_lookup; reflexivity. Qed.

Lemma py_index_Some {V : Type} `{Countable K} (d : gmap K V) (k : K) (v : V) :
  d !! k = Some v → py_index d k = Ok v.
Proof. intros E. unfold py_index. now rewrite E. Qed.

Lemma py_index_None {V : Type} `{Countable K} (d : gmap K V) (k : K) :
  d !! k = None → py_index d k = Raise KeyError.
Proof. intros E. unfold py_index. now rewrite E. Qed.

Lemma py_get_Some {V : Type} `{Countable K} (d : gmap K V) (k : K) (v dflt : V) :
  d !! k = Some v → py_get d k dflt = v.
Proof. intros E. unfold py_get. now rewrite E. Qed.

Lemma workouts_fallback : ∃ enthusiast, workouts !! 2 = Some enthusiast.
Proof. eexists. workouts_row. Qed.

(** Inside the table the call succeeds with one of the cluster's three
    lists, the Medium one for an unknown difficulty. *)
Lemma recommendations_inside (cluster_id : Z) (difficulty : string) :
  0 <= cluster_id <= 4 →
  ∃ high medium low,
    workouts !! cluster_id = Some (py_dict [("High", high); ("Medium", medium); ("Low", low)])
    ∧ high ≠ [] ∧ medium ≠ [] ∧ low ≠ []
    ∧ get_workout_recommendations cluster_id difficulty
      = Ok (if decide (difficulty = "High") then high
            else if decide (difficulty = "Medium") then medium
            else if decide (difficulty = "Low") then low
            else medium).
Proof.
  intros Hc.
  destruct workouts_fallback as [enthusiast Hfb].
  destruct (workouts_lookup_inside _ Hc) as (high & medium & low & Hown & Hh & Hm & Hl).
  exists high, medium, low. repeat (split; [assumption|]).
  assert (Hmed : py_dict [("High", high); ("Medium", medium); ("Low", low)] !! "Medium"
                 = Some medium) by dict_lookup.
  unfold get_workout_recommendations.
  rewrite (py_index_Some _ _ _ Hfb). cbn [mbind result_bind].
  rewrite (py_index_Some _ _ _ Hown). cbn [mbind result_bind].
  rewrite (py_index_Some _ _ _ Hmed). cbn [mbind result_bind].
  now rewrite (py_get_Some _ _ _ _ Hown), difficulty_get.
Qed.

(** C9: outside [{0,...,4}] the call raises [KeyError] whatever the
    difficulty, because the default [workouts[cluster_id]['Medium']] is
    evaluated before the inner [get] runs; inside, an unknown difficulty
    yields the cluster's own Medium list. *)
Theorem workout_recommendations_key_error (cluster_id : Z) (difficulty : string) :
  (¬ (0 <= cluster_id <= 4) →
   get_workout_recommendations cluster_id difficulty = Raise KeyError)
  ∧ (0 <= cluster_id <= 4 → difficulty ∉ ["High"; "Medium"; "Low"] →
     ∃ own medium,
       workouts !! cluster_id = Some own
       ∧ own !! "Medium" = Some medium
       ∧ get_workout_recommendations cluster_id difficulty = Ok medium).
Proof.
  split.
  - intros Hc. destruct workouts_fallback as [enthusiast Hfb].
    unfold get_workout_recommendations.
    rewrite (py_index_Some _ _ _ Hfb). cbn [mbind result_bind].
    now rewrite (py_index_None _ _ (workouts_lookup_outside _ Hc)).
  - intros Hc Hd.
    destruct (recommendations_inside _ difficulty Hc)
      as (high & medium & low & Hown & _ & _ & _ & Hget).
    eexists _, medium. split; [exact Hown|]. split; [dict_lookup|].
    rewrite Hget. f_equal.
    repeat case_decide; subst; try reflexivity; exfalso; apply Hd; repeat constructor.
Qed.

Lemma workout_recommendations_key_error_witness :
  get_workout_recommendations 5 "High" = Raise KeyError
  ∧ ∃ own medium,
      workouts !! 3 = Some own
      ∧ own !! "Medium" = Some medium
      ∧ get_workout_recommendations 3 "Extreme" = Ok medium.
Proof.
  split.
  - apply (proj1 (workout_recommendations_key_error 5 "High")). lia.
  - apply (proj2 (workout_recommendations_key_error 3 "Extreme")).
    + lia.
    + intros H. repeat (apply elem_of_cons in H as [H|H]; [discriminate H|]).
      now apply elem_of_nil in H.
Defined.

(** ** Profile rules *)

(** The [in] tests of rule 2, as disjunctions. *)
Lemma rule2_membership (experience intensity : string) :
  (experience ∈ ["Advanced"; "Elite"] ∧ intensity ∈ ["High"; "Very High"])
  ↔ Spec.rule2 experience intensity.
Proof.
  unfold Spec.rule2. rewrite !elem_of_cons, !elem_of_nil. tauto.
Qed.

(** The if/elif chain, one branch per line. *)
Lemma assign_cluster_cases
    (bmi : float) (bpm : Z) (experience : string)
    (duration frequency : Z) (intensity : string) :
  let cluster := assign_cluster bmi bpm experience duration frequency intensity in
  let r1 := Spec.rule1 bpm experience duration in
  let r2 := Spec.rule2 experience intensity in
  let r3 := Spec.rule3 experience frequency in
  let r4 := Spec.rule4 experience frequency in
  (r1 ∧ cluster = 0)
  ∨ (¬ r1 ∧ r2 ∧ cluster = 1)
  ∨ (¬ r1 ∧ ¬ r2 ∧ r3 ∧ cluster = 2)
  ∨ (¬ r1 ∧ ¬ r2 ∧ ¬ r3 ∧ r4 ∧ cluster = 3)
  ∨ (¬ r1 ∧ ¬ r2 ∧ ¬ r3 ∧ ¬ r4 ∧ F64.ltb (F64.of_Z 30) bmi = true ∧ cluster = 4)
  ∨ (¬ r1 ∧ ¬ r2 ∧ ¬ r3 ∧ ¬ r4 ∧ F64.ltb (F64.of_Z 30) bmi = false ∧ cluster = 2).
Proof.
  intros cluster r1 r2 r3 r4.
  pose proof (rule2_membership experience intensity) as Hm. fold r2 in Hm.
  unfold cluster, assign_cluster, r1, r3, r4, Spec.rule1, Spec.rule3, Spec.rule4 in *.
  clearbody r2.
  case_bool_decide as H1; [tauto|].
  case_bool_decide as H2; [tauto|].
  case_bool_decide as H3; [tauto|].
  case_bool_decide as H4; [tauto|].
  destruct (F64.ltb (F64.of_Z 30) bmi); tauto.
Qed.

(** C2: the rules are tried in order and the first match wins.  When
    rule 1 holds the result is archetype 0, also when rule 2 holds as
    well; rule [k] yields its archetype exactly when the earlier
    conditions fail and its own holds; after four failures the result is
    4 for a BMI above 30 and 2 otherwise; and the result is always one of
    0, 1, 2, 3, 4. *)
Theorem assign_cluster_first_match
    (bmi : float) (bpm : Z) (experience : string)
    (duration frequency : Z) (intensity : string) :
  let cluster := assign_cluster bmi bpm experience duration frequency intensity in
  let r1 := Spec.rule1 bpm experience duration in
  let r2 := Spec.rule2 experience intensity in
  let r3 := Spec.rule3 experience frequency in
  let r4 := Spec.rule4 experience frequency in
  (r1 → cluster = 0)
  ∧ (r1 ∧ r2 → cluster = 0)
  ∧ (¬ r1 → r2 → cluster = 1)
  ∧ (¬ r1 → ¬ r2 → r3 → cluster = 2)
  ∧ (¬ r1 → ¬ r2 → ¬ r3 → r4 → cluster = 3)
  ∧ (¬ r1 → ¬ r2 → ¬ r3 → ¬ r4 →
     cluster = if F64.ltb (F64.of_Z 30) bmi then 4 else 2)
  ∧ (cluster = 0 → r1)
  ∧ (cluster = 1 → ¬ r1 ∧ r2)
  ∧ (cluster = 3 → ¬ r1 ∧ ¬ r2 ∧ ¬ r3 ∧ r4)
  ∧ (cluster = 4 → ¬ r1 ∧ ¬ r2 ∧ ¬ r3 ∧ ¬ r4 ∧ F64.ltb (F64.of_Z 30) bmi = true)
  ∧ (cluster = 2 → ¬ r1 ∧ ¬ r2 ∧ (r3 ∨ (¬ r4 ∧ F64.ltb (F64.of_Z 30) bmi = false)))
  ∧ cluster ∈ [0; 1; 2; 3; 4].
Proof.
  intros cluster r1 r2 r3 r4.
  pose proof (assign_cluster_cases bmi bpm experience duration frequency intensity) as Hc.
  cbv zeta in Hc. fold cluster r1 r2 r3 r4 in Hc.
  clearbody cluster r1 r2 r3 r4.
  destruct Hc
    as [(?&E)|[(?&?&E)|[(?&?&?&E)|[(?&?&?&?&E)|[(?&?&?&?&Hb&E)|(?&?&?&?&Hb&E)]]]]];
    rewrite E; try rewrite Hb;
    repeat match goal with |- _ ∧ _ => split end;
    try (intros; first [tauto | lia | discriminate]);
    repeat constructor.
Qed.

Lemma assign_cluster_first_match_witness :
  assign_cluster (F64.of_Z 22) 180 "Elite" 75 5 "High" = 0.
Proof.
  apply (proj1 (proj2 (assign_cluster_first_match (F64.of_Z 22) 180 "Elite" 75 5 "High"))).
  unfold Spec.rule1, Spec.rule2. repeat split; try lia; [right | left]; reflexivity.
Defined.

(** ** Weight projection *)

Lemma weekly_deficits_lookup (goal : string) :
  goal ∈ ["Weight Loss"; "Maintenance"; "Muscle Gain"] →
  weekly_deficits !! goal = Some (Spec.diet_delta goal).
Proof.
  rewrite !elem_of_cons, elem_of_nil.
  intros [->|[->|[->|[]]]]; vm_compute; reflexivity.
Qed.

(** The example's numbers: burn [1417.52], net [-2082.48], final weight
    [71.75457662337662]. *)
Lemma project_weight_example :
  project_weight 75 4 45 "Weight Loss" 12
  = Ok {| weekly_cal_burn := F64.of_dec 141752 2;
          net_weekly := F64.of_dec (-208248) 2;
          weight_change_per_week := S754_finite true 4872029169873512 (-54);
          projected_weight := F64.of_dec 7175457662337662 14 |}.
Proof. vm_compute. reflexivity. Qed.

(** A goal outside the table raises. *)
Lemma project_weight_unknown_goal (cw ww dur : Z) (goal : string) (weeks : Z) :
  goal ∉ ["Weight Loss"; "Maintenance"; "Muscle Gain"] →
  project_weight cw ww dur goal weeks = Raise KeyError.
Proof.
  intros Hn. unfold project_weight.
  rewrite py_index_None; [reflexivity|].
  unfold weekly_deficits. dict_lookup; exfalso; apply Hn; repeat constructor.
Qed.

(** ** Progress timeline *)

Lemma timeline_step_pos (weeks : Z) : 0 < Z.max 1 (weeks / 10).
Proof. lia. Qed.

Lemma timeline_eq (weeks : Z) :
  0 <= weeks →
  timeline weeks
  = map (fun i : nat => Z.of_nat i * Z.max 1 (weeks / 10))
        (seq 0 (S (Z.to_nat (weeks / Z.max 1 (weeks / 10))))).
Proof.
  intros Hw. unfold timeline, py_range, range_len.
  pose proof (timeline_step_pos weeks) as Hs.
  destruct (Z.ltb_spec 0 (weeks + 1)); [|lia].
  replace (weeks + 1 - 0 - 1) with weeks by lia.
  assert (0 <= weeks / Z.max 1 (weeks / 10)) by (apply Z.div_pos; lia).
  replace (Z.to_nat (weeks / Z.max 1 (weeks / 10) + 1))
    with (S (Z.to_nat (weeks / Z.max 1 (weeks / 10)))) by lia.
  apply map_ext. intros i. lia.
Qed.

Lemma timeline_negative (weeks : Z) : weeks < 0 → timeline weeks = [].
Proof.
  intros Hw. unfold timeline, py_range, range_len.
  destruct (Z.ltb_spec 0 (weeks + 1)); [lia|reflexivity].
Qed.

Lemma timeline_points_bound (weeks : Z) :
  0 <= weeks → weeks / Z.max 1 (weeks / 10) <= 19.
Proof.
  intros Hw.
  destruct (Z.lt_ge_cases weeks 20) as [Hlt|Hge].
  - assert (weeks / 10 <= 1) by (apply Z.lt_succ_r, Z.div_lt_upper_bound; lia).
    replace (Z.max 1 (weeks / 10)) with 1 by lia.
    rewrite Z.div_1_r. lia.
  - assert (2 <= weeks / 10) by (apply Z.div_le_lower_bound; lia).
    replace (Z.max 1 (weeks / 10)) with (weeks / 10) by lia.
    pose proof (Z.mul_div_le weeks 10 ltac:(lia)).
    pose proof (Z.mod_pos_bound weeks 10 ltac:(lia)).
    pose proof (Z.div_mod weeks 10 ltac:(lia)).
    apply Z.lt_succ_r, Z.div_lt_upper_bound; lia.
Qed.

(** C6, refuted at 25 weeks: the step is 2, the series has 13 entries
    and stops at week 24.  (At the slider's default of 12 weeks the step
    is 1 and the series has 13 entries as well; at 19 weeks it has 20.) *)
Lemma timeline_refuted :
  ¬ timeline_as_stated 25
  ∧ length (timeline 25) = 13%nat
  ∧ last (timeline 25) = Some 24
  ∧ length (timeline 12) = 13%nat
  ∧ length (timeline 19) = 20%nat.
Proof.
  repeat split; try reflexivity.
  intros (_ & Hlen & _). vm_compute in Hlen. lia.
Qed.

(** C6, amended: for [weeks >= 0] the series is [0, step, 2*step, ...]
    with [step = max(1, weeks // 10)], up to the largest multiple of the
    step that does not exceed [weeks]; it starts at week 0, has at most 19
    points besides week 0, and ends at the final week exactly when the step
    divides [weeks]. *)
Theorem timeline_shape (weeks : Z) :
  0 <= weeks →
  let step := Z.max 1 (weeks / 10) in
  timeline weeks = py_range 0 (weeks + 1) step
  ∧ timeline weeks = map (fun i : nat => Z.of_nat i * step) (seq 0 (S (Z.to_nat (weeks / step))))
  ∧ head (timeline weeks) = Some 0
  ∧ length (timeline weeks) = S (Z.to_nat (weeks / step))
  ∧ (length (timeline weeks) <= 1 + 19)%nat
  ∧ last (timeline weeks) = Some (weeks - weeks mod step)
  ∧ (last (timeline weeks) = Some weeks ↔ weeks mod step = 0).
Proof.
  intros Hw step.
  pose proof (timeline_step_pos weeks) as Hs.
  pose proof (timeline_points_bound weeks Hw) as Hb.
  pose proof (timeline_eq weeks Hw) as Heq.
  change (Z.max 1 (weeks / 10)) with step in Hs, Hb, Heq.
  assert (Hq : 0 <= weeks / step) by (apply Z.div_pos; lia).
  pose proof (Z.div_mod weeks step ltac:(lia)) as Hdm.
  assert (Hlast : last (timeline weeks) = Some (weeks - weeks mod step)).
  { rewrite Heq, seq_S, map_app, last_app. cbn [map last plus].
    f_equal. rewrite Z2Nat.id by lia. lia. }
  split; [reflexivity|].
  split; [exact Heq|].
  split; [now rewrite Heq|].
  assert (Hlen : length (timeline weeks) = S (Z.to_nat (weeks / step)))
    by (now rewrite Heq, length_map, length_seq).
  split; [exact Hlen|].
  split; [rewrite Hlen; lia|].
  split; [exact Hlast|].
  rewrite Hlast. split; [intros [= E]; lia|intros E; f_equal; lia].
Qed.

Lemma timeline_shape_witness :
  last (timeline 52) = Some (52 - 52 mod Z.max 1 (52 / 10))
  ∧ (length (timeline 52) <= 1 + 19)%nat.
Proof.
  pose proof (timeline_shape 52 ltac:(lia)) as H. cbv zeta in H.
  destruct H as (_ & _ & _ & _ & Hlen & Hlast & _).
  split; [exact Hlast|exact Hlen].
Defined.

(** ** Weekly schedule *)

Section Fill.

Variable pick : Z → string.

Lemma filled_week_days (workout_days : Z) :
  1 <= workout_days <= 7 →
  map fst (filled_week pick workout_days) = days.
Proof.
  intros Hd.
  assert (workout_days = 1 ∨ workout_days = 2 ∨ workout_days = 3 ∨ workout_days = 4
          ∨ workout_days = 5 ∨ workout_days = 6 ∨ workout_days = 7)
    as [->|[->|[->|[->|[->|[->| ->]]]]]] by lia; reflexivity.
Qed.

Lemma filled_week_lookup (workout_days : Z) (i : nat) (day : string) :
  1 <= workout_days <= 7 →
  days !! i = Some day →
  dict_lookup (filled_week pick workout_days) day
  = Some (if Z.of_nat i <? workout_days then pick (Z.of_nat i) else rest_day).
Proof.
  intros Hd Hday.
  assert (workout_days = 1 ∨ workout_days = 2 ∨ workout_days = 3 ∨ workout_days = 4
          ∨ workout_days = 5 ∨ workout_days = 6 ∨ workout_days = 7)
    as [->|[->|[->|[->|[->|[->| ->]]]]]] by lia;
    do 7 (destruct i as [|i]; [injection Hday as <-; reflexivity|]);
    discriminate Hday.
Qed.

End Fill.

Lemma even_mod2 (i : Z) : (i mod 2 =? 0) = Z.even i.
Proof. rewrite Zmod_even. now destruct (Z.even i). Qed.

Lemma choice_defined (ws : list string) (i : Z) :
  ws ≠ [] → 0 <= i → is_Some (Spec.choice ws i).
Proof.
  intros Hne Hi. unfold Spec.choice.
  assert (0 < Z.of_nat (length ws)) by (destruct ws; [congruence|cbn; lia]).
  destruct (Z.even i); apply lookup_lt_is_Some.
  - pose proof (Z.mod_pos_bound i (Z.of_nat (length ws))). lia.
  - pose proof (Z.mod_pos_bound (i + 1) (Z.of_nat (length ws))). lia.
Qed.

Lemma py_item_nonneg {A : Type} (l : list A) (j : Z) (a : A) :
  0 <= j → l !! Z.to_nat j = Some a → py_item l j = Ok a.
Proof.
  intros Hj Ha. unfold py_item.
  destruct (Z.ltb_spec j 0); [lia|].
  destruct (Z.ltb_spec j 0); [lia|].
  now rewrite Ha.
Qed.

(** One round of the first loop picks [Spec.choice]. *)
Lemma pick_item (ws : list string) (i : Z) (w : string) :
  0 <= i → Spec.choice ws i = Some w →
  pick_index i (Z.of_nat (length ws)) ≫= py_item ws = Ok w.
Proof.
  intros Hi Hw. unfold pick_index, py_mod, Spec.choice in *.
  rewrite even_mod2.
  destruct (Z.eqb_spec (Z.of_nat (length ws)) 0) as [E|E].
  { destruct ws; [|cbn in E; lia]. destruct (Z.even i); discriminate Hw. }
  assert (0 < Z.of_nat (length ws)) by lia.
  destruct (Z.even i); cbn [mbind result_bind]; apply py_item_nonneg; try exact Hw.
  - pose proof (Z.mod_pos_bound i (Z.of_nat (length ws))). lia.
  - pose proof (Z.mod_pos_bound (i + 1) (Z.of_nat (length ws))). lia.
Qed.

Lemma assign_workouts_fill (ws : list string) :
  ws ≠ [] →
  ∀ (ds : list string) (i : Z) (schedule : list (string * string)),
    0 <= i →
    assign_workouts ws i ds schedule
    = Ok (fill (fun i => default "" (Spec.choice ws i)) i ds schedule).
Proof.
  intros Hne. induction ds as [|day rest IH]; intros i schedule Hi; [reflexivity|].
  destruct (choice_defined ws i Hne Hi) as [w Hw].
  cbn [assign_workouts fill].
  change (pick_index i (Z.of_nat (length ws)) ≫= (fun j => py_item ws j ≫= _))
    with (pick_index i (Z.of_nat (length ws)) ≫= (fun j => py_item ws j ≫=
            fun w => assign_workouts ws (i + 1) rest (dict_set schedule day w))).
  pose proof (pick_item ws i w Hi Hw) as Hp.
  destruct (pick_index i (Z.of_nat (length ws))) as [j|e]; [|discriminate Hp].
  cbn [mbind result_bind] in *. rewrite Hp. cbn [mbind result_bind].
  rewrite Hw. cbn [default]. apply IH. lia.
Qed.

Lemma weekly_schedule_filled (ws : list string) (workout_days : Z) :
  ws ≠ [] →
  weekly_schedule ws workout_days
  = Ok (filled_week (fun i => default "" (Spec.choice ws i)) workout_days).
Proof.
  intros Hne. unfold weekly_schedule.
  now rewrite (assign_workouts_fill ws Hne) by lia.
Qed.

(** An empty workout list makes the first round divide by zero. *)
Lemma weekly_schedule_empty_list (workout_days : Z) :
  1 <= workout_days <= 7 → weekly_schedule [] workout_days = Raise ZeroDivisionError.
Proof.
  intros Hd.
  assert (workout_days = 1 ∨ workout_days = 2 ∨ workout_days = 3 ∨ workout_days = 4
          ∨ workout_days = 5 ∨ workout_days = 6 ∨ workout_days = 7)
    as [->|[->|[->|[->|[->|[->| ->]]]]]] by lia; reflexivity.
Qed.

(** Days 1 and 2 (Tuesday and Wednesday) always receive the same entry:
    the odd day [i] and the even day [i + 1] both pick [(i + 1) % len]. *)
Lemma odd_day_repeats (ws : list string) (i : Z) :
  Z.odd i = true → Spec.choice ws i = Spec.choice ws (i + 1).
Proof.
  intros Ho. unfold Spec.choice.
  rewrite Z.even_add, <- !Z.negb_odd, Ho. reflexivity.
Qed.

(** An even day [i] and the odd day [i + 1] pick the positions [i % len]
    and [(i + 2) % len], different entries of a list of three or more
    different entries. *)
Lemma even_day_differs (ws : list string) (i : Z) :
  (3 <= length ws)%nat → NoDup ws → 0 <= i → Z.even i = true →
  Spec.choice ws i ≠ Spec.choice ws (i + 1).
Proof.
  intros Hlen Hnd Hi He.
  assert (Hne : ws ≠ []) by (destruct ws; [cbn in Hlen; lia|discriminate]).
  destruct (choice_defined ws i Hne Hi) as [w Hw].
  rewrite Hw. intros Hw'. symmetry in Hw'. revert Hw Hw'.
  unfold Spec.choice. rewrite Z.even_add, He. cbn [Z.even Bool.eqb].
  replace (i + 1 + 1) with (i + 2) by lia.
  set (len := Z.of_nat (length ws)). assert (Hl : 3 <= len) by (unfold len; lia).
  pose proof (Z.mod_pos_bound i len ltac:(lia)) as B1.
  pose proof (Z.mod_pos_bound (i + 2) len ltac:(lia)) as B2.
  intros Hw Hw'.
  pose proof (NoDup_lookup _ _ _ _ Hnd Hw Hw') as E.
  assert (E' : i mod len = (i + 2) mod len) by lia.
  pose proof (Z.div_mod i len ltac:(lia)) as D1.
  pose proof (Z.div_mod (i + 2) len ltac:(lia)) as D2.
  rewrite <- E' in D2.
  assert (D : len * ((i + 2) / len - i / len) = 2) by lia.
  set (k := (i + 2) / len - i / len) in *. clearbody k.
  assert (k <= 0 ∨ 1 <= k) as [Hk|Hk] by lia; nia.
Qed.

(** The three lists of an archetype and the list returned for each
    difficulty. *)
Lemma recommendations_rows (cluster_id : Z) :
  0 <= cluster_id <= 4 →
  ∃ high medium low,
    workouts !! cluster_id = Some (py_dict [("High", high); ("Medium", medium); ("Low", low)])
    ∧ high ≠ [] ∧ medium ≠ [] ∧ low ≠ []
    ∧ ∀ difficulty,
        get_workout_recommendations cluster_id difficulty
        = Ok (if decide (difficulty = "High") then high
              else if decide (difficulty = "Medium") then medium
              else if decide (difficulty = "Low") then low
              else medium).
Proof.
  intros Hc.
  destruct workouts_fallback as [enthusiast Hfb].
  destruct (workouts_lookup_inside _ Hc) as (high & medium & low & Hown & Hh & Hm & Hl).
  exists high, medium, low. repeat (split; [assumption|]).
  intros difficulty.
  assert (Hmed : py_dict [("High", high); ("Medium", medium); ("Low", low)] !! "Medium"
                 = Some medium) by dict_lookup.
  unfold get_workout_recommendations.
  rewrite (py_index_Some _ _ _ Hfb). cbn [mbind result_bind].
  rewrite (py_index_Some _ _ _ Hown). cbn [mbind result_bind].
  rewrite (py_index_Some _ _ _ Hmed). cbn [mbind result_bind].
  now rewrite (py_get_Some _ _ _ _ Hown), difficulty_get.
Qed.

(** The table lists have three entries or more, all different. *)
Lemma table_lists_distinct :
  forallb (fun c =>
    forallb (fun d =>
      match get_workout_recommendations c d with
      | Ok ws => (3 <=? length ws)%nat && distinct ws
      | Raise _ => false
      end) ["High"; "Medium"; "Low"]) [0; 1; 2; 3; 4] = true.
Proof. vm_compute. reflexivity. Qed.

Lemma distinct_NoDup (l : list string) : distinct l = true → NoDup l.
Proof.
  induction l as [|w rest IH]; [constructor|].
  cbn [distinct]. intros H. apply andb_true_iff in H as [Hw Hrest].
  constructor; [|now apply IH].
  intros Hin. apply list_elem_of_In in Hin.
  apply (proj1 (forallb_forall _ _) Hw) in Hin.
  now rewrite String.eqb_refl in Hin.
Qed.

(** C7, refuted in its remark on the offset: the Medium list of
    archetype 2 has three different entries, and with three training
    days Tuesday and Wednesday both receive the third. *)
Lemma adjacent_days_repeat :
  ¬ adjacent_days_differ_as_stated
  ∧ ∃ ws schedule,
      get_workout_recommendations 2 "Medium" = Ok ws
      ∧ ws = ["Jogging (35 min)"; "Bodyweight Exercises (30 min)"; "Pilates (40 min)"]
      ∧ weekly_schedule ws 3 = Ok schedule
      ∧ dict_lookup schedule "Monday" = Some "Jogging (35 min)"
      ∧ dict_lookup schedule "Tuesday" = Some "Pilates (40 min)"
      ∧ dict_lookup schedule "Wednesday" = Some "Pilates (40 min)".
Proof.
  assert (Hget : get_workout_recommendations 2 "Medium"
                 = Ok ["Jogging (35 min)"; "Bodyweight Exercises (30 min)"; "Pilates (40 min)"])
    by (vm_compute; reflexivity).
  split.
  - intros H.
    refine (H 2 "Medium" 3 _ _ 1%nat "Tuesday" "Wednesday" _ _ Hget _ _ eq_refl eq_refl eq_refl _ _);
      [lia|lia|cbn; lia|apply distinct_NoDup; reflexivity|lia|reflexivity].
  - eexists _, _. split; [exact Hget|]. repeat split; reflexivity.
Qed.

(** C7, amended: for an archetype in [0,4], any difficulty and 1 to 7
    training days, the list is the archetype's own entry of the table
    for that difficulty, its Medium list for an unknown difficulty, and
    has three entries or more, all different; the schedule maps the seven
    day names, in order, to: for day number [i] below [daysPerWeek],
    [list[i % len]] when [i] is even and [list[(i + 1) % len]] when [i] is
    odd, always an entry of the list; and the rest-day marker for every
    later day.  The offset does not make adjacent training days differ:
    an odd day and the day after it always receive the same entry
    (Tuesday and Wednesday, Thursday and Friday, Saturday and Sunday),
    while an even day and the day after it receive different ones.  With
    a four-entry list and five training days the week has five workout
    days and two rest days. *)
Theorem weekly_schedule_assignment (archetype : Z) (difficulty : string) (days_per_week : Z) :
  0 <= archetype <= 4 →
  1 <= days_per_week <= 7 →
  (∃ own medium ws schedule,
     workouts !! archetype = Some own
     ∧ own !! "Medium" = Some medium
     ∧ ws = py_get own difficulty medium
     ∧ (3 <= length ws)%nat ∧ NoDup ws
     ∧ get_workout_recommendations archetype difficulty = Ok ws
     ∧ weekly_schedule ws days_per_week = Ok schedule
     ∧ map fst schedule = days
     ∧ (∀ (i : nat) (day : string),
          days !! i = Some day →
          if Z.of_nat i <? days_per_week
          then ∃ w, dict_lookup schedule day = Some w
                    ∧ Spec.choice ws (Z.of_nat i) = Some w
                    ∧ w ∈ ws
          else dict_lookup schedule day = Some rest_day)
     ∧ (∀ (i : nat) (day next : string),
          days !! i = Some day → days !! S i = Some next →
          Z.of_nat (S i) < days_per_week →
          if Z.odd (Z.of_nat i)
          then dict_lookup schedule day = dict_lookup schedule next
          else dict_lookup schedule day ≠ dict_lookup schedule next))
  ∧ (∀ a b c d : string,
       weekly_schedule [a; b; c; d] 5
       = Ok [("Monday", a); ("Tuesday", c); ("Wednesday", c); ("Thursday", a);
             ("Friday", a); ("Saturday", rest_day); ("Sunday", rest_day)])
  ∧ (∃ ws schedule,
       get_workout_recommendations 0 "High" = Ok ws
       ∧ length ws = 4%nat
       ∧ weekly_schedule ws 5 = Ok schedule
       ∧ workout_days_of schedule = 5%nat
       ∧ rest_days_of schedule = 2%nat).
Proof.
  intros Hc Hd. split; [|split].
  - destruct (recommendations_rows _ Hc)
      as (high & medium & low & Hown & Hh & Hm & Hl & Hall).
    pose proof (Hall difficulty) as Hget.
    pose proof (Hall "Medium") as Hmed.
    rewrite decide_False, decide_True in Hmed by (reflexivity || discriminate).
    assert (Hrow : ∀ d, In d ["High"; "Medium"; "Low"] →
              ∀ ws, get_workout_recommendations archetype d = Ok ws →
                    (3 <= length ws)%nat ∧ NoDup ws).
    { intros d Hin ws E.
      assert (Hin' : In archetype [0; 1; 2; 3; 4]) by (cbn; lia).
      pose proof (proj1 (forallb_forall _ _) table_lists_distinct _ Hin') as R.
      cbv beta in R. pose proof (proj1 (forallb_forall _ _) R _ Hin) as R'.
      cbv beta in R'. rewrite E in R'. apply andb_true_iff in R' as [R1 R2].
      split; [now apply Nat.leb_le|now apply distinct_NoDup]. }
    set (ws := if decide (difficulty = "High") then high
               else if decide (difficulty = "Medium") then medium
               else if decide (difficulty = "Low") then low
               else medium) in Hget.
    assert (Hne : ws ≠ []) by (unfold ws; repeat case_decide; assumption).
    assert (Hws : (3 <= length ws)%nat ∧ NoDup ws).
    { destruct (decide (difficulty = "High")) as [->|N1];
        [apply (Hrow "High"); [cbn; tauto|exact Hget]|].
      destruct (decide (difficulty = "Medium")) as [->|N2];
        [apply (Hrow "Medium"); [cbn; tauto|exact Hget]|].
      destruct (decide (difficulty = "Low")) as [->|N3];
        [apply (Hrow "Low"); [cbn; tauto|exact Hget]|].
      apply (Hrow "Medium"); [cbn; tauto|].
      rewrite Hmed. unfold ws. repeat case_decide; congruence. }
    assert (Hpy : ws = py_get (py_dict [("High", high); ("Medium", medium); ("Low", low)])
                         difficulty medium) by (now rewrite difficulty_get).
    clearbody ws. destruct Hws as [Hlen Hnd].
    exists (py_dict [("High", high); ("Medium", medium); ("Low", low)]), medium, ws,
      (filled_week (fun i => default "" (Spec.choice ws i)) days_per_week).
    split; [exact Hown|]. split; [dict_lookup|]. split; [exact Hpy|].
    split; [exact Hlen|]. split; [exact Hnd|].
    split; [exact Hget|].
    split; [exact (weekly_schedule_filled ws days_per_week Hne)|].
    split; [exact (filled_week_days _ _ Hd)|]. split.
    + intros i day Hday.
      rewrite (filled_week_lookup _ _ _ _ Hd Hday).
      destruct (Z.of_nat i <? days_per_week); [|reflexivity].
      destruct (choice_defined ws (Z.of_nat i) Hne ltac:(lia)) as [w Hw].
      exists w. rewrite Hw. split; [reflexivity|]. split; [reflexivity|].
      unfold Spec.choice in Hw.
      destruct (Z.even (Z.of_nat i)); eapply list_elem_of_lookup_2; exact Hw.
    + intros i day next Hday Hnext Hlt.
      rewrite (filled_week_lookup _ _ _ _ Hd Hday), (filled_week_lookup _ _ _ _ Hd Hnext).
      destruct (Z.ltb_spec (Z.of_nat i) days_per_week); [|lia].
      destruct (Z.ltb_spec (Z.of_nat (S i)) days_per_week); [|lia].
      replace (Z.of_nat (S i)) with (Z.of_nat i + 1) by lia.
      destruct (choice_defined ws (Z.of_nat i) Hne ltac:(lia)) as [w Hw].
      destruct (choice_defined ws (Z.of_nat i + 1) Hne ltac:(lia)) as [w' Hw'].
      destruct (Z.odd (Z.of_nat i)) eqn:Ho.
      * now rewrite (odd_day_repeats ws _ Ho).
      * pose proof (even_day_differs ws (Z.of_nat i) Hlen Hnd ltac:(lia)
                      ltac:(now rewrite <- Z.negb_odd, Ho)) as Hdiff.
        rewrite Hw, Hw' in *. intros E. apply Hdiff.
        change (Some w = Some w') in E. exact E.
  - intros a b c d. reflexivity.
  - eexists _, _. split; [vm_compute; reflexivity|].
    split; [reflexivity|]. split; [vm_compute; reflexivity|].
    split; vm_compute; reflexivity.
Qed.

(** Archetype 2 at Medium with three training days: Tuesday and Wednesday
    are an odd day and the day after it. *)
Lemma weekly_schedule_assignment_witness :
  ∃ own medium ws schedule,
    workouts !! 2 = Some own
    ∧ own !! "Medium" = Some medium
    ∧ ws = py_get own "Medium" medium
    ∧ (3 <= length ws)%nat ∧ NoDup ws
    ∧ get_workout_recommendations 2 "Medium" = Ok ws
    ∧ weekly_schedule ws 3 = Ok schedule
    ∧ map fst schedule = days
    ∧ (∀ (i : nat) (day : string),
         days !! i = Some day →
         if Z.of_nat i <? 3
         then ∃ w, dict_lookup schedule day = Some w
                   ∧ Spec.choice ws (Z.of_nat i) = Some w
                   ∧ w ∈ ws
         else dict_lookup schedule day = Some rest_day)
    ∧ (∀ (i : nat) (day next : string),
         days !! i = Some day → days !! S i = Some next →
         Z.of_nat (S i) < 3 →
         if Z.odd (Z.of_nat i)
         then dict_lookup schedule day = dict_lookup schedule next
         else dict_lookup schedule day ≠ dict_lookup schedule next).
Proof.
  apply (proj1 (weekly_schedule_assignment 2 "Medium" 3 ltac:(lia) ltac:(lia))).
Defined.

(** ** Rounding is monotone

    [F64.div] and [F64.mul] on positive finite doubles are roundings of
    a fraction to the nearest double; the rounding depends on the value
    of the fraction only and is monotone in it. *)

(** *** Powers of two, digits and the exponent function *)

Lemma pow2_pos (k : Z) : 0 <= k → 0 < 2 ^ k.
Proof. intros. apply Z.pow_pos_nonneg; lia. Qed.

Lemma pow2_split (a b : Z) : 0 <= a → 0 <= b → 2 ^ (a + b) = 2 ^ a * 2 ^ b.
Proof. intros. apply Z.pow_add_r; lia. Qed.

Lemma pow2_ge_2 (k : Z) : 1 <= k → 2 <= 2 ^ k.
Proof.
  intros Hk. replace k with (1 + (k - 1)) by lia. rewrite pow2_split by lia.
  pose proof (pow2_pos (k - 1) ltac:(lia)). change (2 ^ 1) with 2. lia.
Qed.

Lemma pow2_xO (p : positive) : 2 ^ Z.pos p~0 = 2 ^ Z.pos p * 2 ^ Z.pos p.
Proof.
  rewrite (Pos2Z.inj_xO p). replace (2 * Z.pos p) with (Z.pos p + Z.pos p) by lia.
  apply Z.pow_add_r; lia.
Qed.

Lemma pow2_xI (p : positive) : 2 ^ Z.pos p~1 = 2 * (2 ^ Z.pos p * 2 ^ Z.pos p).
Proof.
  rewrite (Pos2Z.inj_xI p). replace (2 * Z.pos p + 1) with (1 + (Z.pos p + Z.pos p)) by lia.
  rewrite !Z.pow_add_r by lia. reflexivity.
Qed.

Lemma fexp_eq (e : Z) : fexp e = Z.max (e - 53) (-1074).
Proof. reflexivity. Qed.

Lemma fexp_mono (a b : Z) : a <= b → fexp a <= fexp b.
Proof. rewrite !fexp_eq. lia. Qed.

Lemma fexp_ge (a : Z) : -1074 <= fexp a.
Proof. rewrite fexp_eq. lia. Qed.

Lemma digits2_size (p : positive) : digits2_pos p = Pos.size p.
Proof. induction p; cbn; congruence. Qed.

Lemma Zdigits2_bounds (m : Z) :
  0 < m → 2 ^ (Zdigits2 m - 1) <= m < 2 ^ Zdigits2 m.
Proof.
  destruct m as [|p|p]; try lia. intros _. cbn [Zdigits2]. rewrite digits2_size.
  pose proof (Pos.size_gt p) as Hgt. pose proof (Pos.size_le p) as Hle.
  split.
  - apply Pos2Z.pos_le_pos in Hle. rewrite Pos2Z.inj_pow in Hle.
    replace (Z.pos (Pos.size p)) with (Z.pos (Pos.size p) - 1 + 1) in Hle by lia.
    rewrite Z.pow_add_r in Hle by lia. change (Z.pos p~0) with (2 * Z.pos p) in Hle. lia.
  - apply Pos2Z.pos_lt_pos in Hgt. now rewrite Pos2Z.inj_pow in Hgt.
Qed.

Lemma Zdigits2_nonneg (m : Z) : 0 <= Zdigits2 m.
Proof. destruct m; cbn; lia. Qed.

Lemma Zdigits2_unique (m d : Z) :
  0 < m → 2 ^ (d - 1) <= m < 2 ^ d → Zdigits2 m = d.
Proof.
  intros Hm [Hlo Hhi]. destruct (Zdigits2_bounds m Hm) as [Hlo' Hhi'].
  pose proof (Zdigits2_nonneg m).
  assert (0 <= d) by (destruct (Z.ltb_spec d 0); [rewrite Z.pow_neg_r in Hhi; lia|lia]).
  destruct (Z.lt_trichotomy (Zdigits2 m) d) as [Hlt|[Heq|Hgt]]; [|assumption|].
  - assert (2 ^ Zdigits2 m <= 2 ^ (d - 1)) by (apply Z.pow_le_mono_r; lia). lia.
  - assert (2 ^ d <= 2 ^ (Zdigits2 m - 1)) by (apply Z.pow_le_mono_r; lia). lia.
Qed.

Lemma Zdigits2_mono (a b : Z) : 0 <= a <= b → Zdigits2 a <= Zdigits2 b.
Proof.
  intros [Ha Hab]. destruct (Z.eq_dec a 0) as [->|Hna]; [apply Zdigits2_nonneg|].
  destruct (Zdigits2_bounds a ltac:(lia)) as [Hlo _].
  destruct (Zdigits2_bounds b ltac:(lia)) as [_ Hhi].
  destruct (Z.le_gt_cases (Zdigits2 a) (Zdigits2 b)) as [|Hgt]; [assumption|].
  assert (2 ^ Zdigits2 b <= 2 ^ (Zdigits2 a - 1)) by (apply Z.pow_le_mono_r; pose proof (Zdigits2_nonneg b); lia).
  lia.
Qed.

Lemma Zdigits2_lt_pow (m d : Z) : 0 <= m → 0 <= d → m < 2 ^ d → Zdigits2 m <= d.
Proof.
  intros Hm Hd Hlt. destruct (Z.eq_dec m 0) as [->|Hn]; [cbn; lia|].
  destruct (Zdigits2_bounds m ltac:(lia)) as [Hlo _].
  destruct (Z.le_gt_cases (Zdigits2 m) d) as [|Hgt]; [assumption|].
  assert (2 ^ d <= 2 ^ (Zdigits2 m - 1)) by (apply Z.pow_le_mono_r; lia). lia.
Qed.

Lemma Zdigits2_ge_pow (m d : Z) : 0 <= d → 2 ^ d <= m → d + 1 <= Zdigits2 m.
Proof.
  intros Hd Hle. assert (0 < m) by (pose proof (Z.pow_pos_nonneg 2 d); lia).
  destruct (Zdigits2_bounds m ltac:(lia)) as [_ Hhi].
  destruct (Z.le_gt_cases (d + 1) (Zdigits2 m)) as [|Hgt]; [assumption|].
  assert (2 ^ Zdigits2 m <= 2 ^ d) by (apply Z.pow_le_mono_r; pose proof (Zdigits2_nonneg m); lia). lia.
Qed.

(** *** Fractions under right shifts *)

Lemma shr_record_of_loc_m (m : Z) (l : location) : shr_m (shr_record_of_loc m l) = m.
Proof. now destruct l as [|[]]. Qed.

Lemma loc_of_shr_record_of_loc (m : Z) (l : location) :
  loc_of_shr_record (shr_record_of_loc m l) = l.
Proof. now destruct l as [|[]]. Qed.

Lemma shr_1_spec (m : Z) (r s : bool) :
  0 <= m →
  shr_1 (Build_shr_record m r s) = Build_shr_record (m / 2) (Z.odd m) (r || s).
Proof.
  intros Hm. rewrite <- Z.div2_div.
  destruct m as [|[p|p|]|p]; try lia; reflexivity.
Qed.

Lemma frac_record_bits (N D : Z) :
  0 < D →
  frac_record N D
  = Build_shr_record (N / D) (D <=? 2 * (N mod D))
      (negb (N mod D =? 0) && negb (2 * (N mod D) =? D)).
Proof.
  intros HD. unfold frac_record, loc_of.
  pose proof (Z.mod_pos_bound N D HD) as Hr.
  destruct (Z.eqb_spec (N mod D) 0) as [E|E].
  - rewrite E. cbn [shr_record_of_loc negb andb]. f_equal.
    symmetry. apply Z.leb_gt. lia.
  - destruct (Z.compare_spec (2 * (N mod D)) D) as [C|C|C]; cbn [shr_record_of_loc negb andb].
    + rewrite C, Z.leb_refl, Z.eqb_refl. reflexivity.
    + f_equal; [symmetry; apply Z.leb_gt; lia|].
      destruct (Z.eqb_spec (2 * (N mod D)) D); [lia|reflexivity].
    + f_equal; [symmetry; apply Z.leb_le; lia|].
      destruct (Z.eqb_spec (2 * (N mod D)) D); [lia|reflexivity].
Qed.

Lemma shr_1_frac (N D : Z) :
  0 <= N → 0 < D → shr_1 (frac_record N D) = frac_record N (2 * D).
Proof.
  intros HN HD.
  rewrite !frac_record_bits by lia.
  rewrite shr_1_spec by (apply Z.div_pos; lia).
  pose proof (Z.mod_pos_bound N D HD) as Hr.
  assert (Hq : N / (2 * D) = N / D / 2).
  { rewrite (Z.mul_comm 2 D). symmetry. apply Z.div_div; lia. }
  assert (Hm : N mod (2 * D) = N mod D + D * ((N / D) mod 2)).
  { rewrite (Z.mul_comm 2 D). apply Z.rem_mul_r; lia. }
  rewrite Hq, Hm.
  pose proof (Zmod_odd (N / D)) as Hodd.
  destruct (Z.odd (N / D)); rewrite Hodd; f_equal.
  - symmetry. apply Z.leb_le. lia.
  - destruct (Z.leb_spec D (2 * (N mod D))), (Z.eqb_spec (N mod D) 0),
      (Z.eqb_spec (2 * (N mod D)) D),
      (Z.eqb_spec (N mod D + D * 1) 0),
      (Z.eqb_spec (2 * (N mod D + D * 1)) (2 * D)); cbn; try reflexivity; lia.
  - symmetry. apply Z.leb_gt. lia.
  - destruct (Z.leb_spec D (2 * (N mod D))), (Z.eqb_spec (N mod D) 0),
      (Z.eqb_spec (2 * (N mod D)) D),
      (Z.eqb_spec (N mod D + D * 0) 0),
      (Z.eqb_spec (2 * (N mod D + D * 0)) (2 * D)); cbn; try reflexivity; lia.
Qed.

Lemma iter_pos_shr_frac (p : positive) :
  ∀ N D : Z, 0 <= N → 0 < D →
    SpecFloat.iter_pos shr_1 p (frac_record N D) = frac_record N (2 ^ Zpos p * D).
Proof.
  induction p as [p IH|p IH|]; intros N D HN HD; cbn [SpecFloat.iter_pos].
  - assert (0 < 2 ^ Z.pos p) by (apply Z.pow_pos_nonneg; lia).
    rewrite shr_1_frac, IH, IH by nia. f_equal. rewrite pow2_xI. ring.
  - assert (0 < 2 ^ Z.pos p) by (apply Z.pow_pos_nonneg; lia).
    rewrite IH, IH by nia. f_equal. rewrite pow2_xO. ring.
  - rewrite shr_1_frac by lia. reflexivity.
Qed.

(** Shifting a fraction right by [n >= 0] places multiplies its denominator. *)
Lemma shr_frac (N D e n : Z) :
  0 <= N → 0 < D → 0 <= n →
  shr (frac_record N D) e n = (frac_record N (2 ^ n * D), e + n).
Proof.
  intros HN HD Hn. unfold shr. destruct n as [|p|p]; try lia.
  - rewrite Z.add_0_r. f_equal. f_equal. change (2 ^ 0) with 1. lia.
  - now rewrite iter_pos_shr_frac.
Qed.

Lemma frac_record_scale (k N D : Z) :
  0 < k → 0 < D → frac_record (k * N) (k * D) = frac_record N D.
Proof.
  intros Hk HD. rewrite !frac_record_bits by lia.
  rewrite Z.div_mul_cancel_l by lia.
  rewrite Zmult_mod_distr_l.
  pose proof (Z.mod_pos_bound N D HD).
  f_equal.
  - destruct (Z.leb_spec (k * D) (2 * (k * (N mod D)))), (Z.leb_spec D (2 * (N mod D)));
      try reflexivity; nia.
  - destruct (Z.eqb_spec (k * (N mod D)) 0), (Z.eqb_spec (N mod D) 0),
      (Z.eqb_spec (2 * (k * (N mod D))) (k * D)), (Z.eqb_spec (2 * (N mod D)) D);
      cbn; try reflexivity; nia.
Qed.

(** *** Rounding a fraction to an integer *)

Lemma rne_bounds (N D : Z) :
  0 < D → N / D <= rne N D <= N / D + 1.
Proof.
  intros HD. unfold rne, loc_of, round_nearest_even.
  destruct (N mod D =? 0); [lia|].
  destruct (2 * (N mod D) ?= D); try lia.
  destruct (Z.even (N / D)); lia.
Qed.

Lemma rne_exact (N D : Z) : N mod D = 0 → rne N D = N / D.
Proof. intros E. unfold rne, loc_of. now rewrite E. Qed.

Lemma rne_mono (N1 N2 D : Z) :
  0 < D → N1 <= N2 → rne N1 D <= rne N2 D.
Proof.
  intros HD HN.
  assert (Hq : N1 / D <= N2 / D) by (apply Z.div_le_mono; lia).
  pose proof (rne_bounds N1 D HD). pose proof (rne_bounds N2 D HD).
  destruct (Z.eq_dec (N1 / D) (N2 / D)) as [E|E]; [|lia].
  assert (Hr : N1 mod D <= N2 mod D).
  { pose proof (Z.div_mod N1 D ltac:(lia)). pose proof (Z.div_mod N2 D ltac:(lia)). nia. }
  pose proof (Z.mod_pos_bound N1 D HD). pose proof (Z.mod_pos_bound N2 D HD).
  unfold rne, loc_of, round_nearest_even. rewrite E.
  destruct (Z.eqb_spec (N1 mod D) 0), (Z.eqb_spec (N2 mod D) 0);
    destruct (Z.compare_spec (2 * (N1 mod D)) D), (Z.compare_spec (2 * (N2 mod D)) D);
    destruct (Z.even (N2 / D)); lia.
Qed.

Lemma rne_frac (N D : Z) :
  rne N D = round_nearest_even (shr_m (frac_record N D)) (loc_of_shr_record (frac_record N D)).
Proof.
  unfold frac_record. now rewrite shr_record_of_loc_m, loc_of_shr_record_of_loc.
Qed.

Lemma rne_scale (k N D : Z) : 0 < k → 0 < D → rne (k * N) (k * D) = rne N D.
Proof. intros Hk HD. now rewrite !rne_frac, frac_record_scale. Qed.

Lemma exact_record (m : Z) : shr_record_of_loc m loc_Exact = frac_record m 1.
Proof.
  unfold frac_record, loc_of. now rewrite Z.mod_1_r, Z.div_1_r.
Qed.

(** *** [binary_round_aux] on a fraction *)

(** The first truncation of [binary_round_aux] on a fraction. *)
Lemma shr_fexp_frac (N D e : Z) :
  0 <= N → 0 < D → e <= fexp (Zdigits2 (N / D) + e) →
  shr_fexp F64.prec F64.emax (N / D) e (loc_of N D)
  = (frac_record N (2 ^ (fexp (Zdigits2 (N / D) + e) - e) * D), fexp (Zdigits2 (N / D) + e)).
Proof.
  intros HN HD He. unfold shr_fexp.
  change (shr_record_of_loc (N / D) (loc_of N D)) with (frac_record N D).
  change (SpecFloat.fexp F64.prec F64.emax) with fexp.
  rewrite shr_frac by lia. f_equal. lia.
Qed.

(** The truncated mantissa has at most [prec] digits. *)
Lemma truncated_bound (N D e : Z) :
  0 <= N → 0 < D → e <= fexp (Zdigits2 (N / D) + e) →
  N / (2 ^ (fexp (Zdigits2 (N / D) + e) - e) * D) < 2 ^ 53.
Proof.
  intros HN HD He.
  set (q := N / D) in *. set (n := fexp (Zdigits2 q + e) - e).
  assert (Hn : 0 <= n) by (unfold n; lia).
  pose proof (pow2_pos n Hn) as Hp.
  assert (Hq0 : 0 <= q) by (apply Z.div_pos; lia).
  replace (N / (2 ^ n * D)) with (q / 2 ^ n)
    by (unfold q; rewrite (Z.mul_comm (2 ^ n) D); apply Z.div_div; lia).
  apply Z.div_lt_upper_bound; [lia|].
  rewrite <- Z.pow_add_r by lia.
  destruct (Z.eq_dec q 0) as [->|Hq]; [apply pow2_pos; lia|].
  destruct (Zdigits2_bounds q ltac:(lia)) as [_ Hhi].
  assert (Zdigits2 q <= n + 53) by (unfold n; rewrite fexp_eq; lia).
  assert (2 ^ Zdigits2 q <= 2 ^ (n + 53)) by (apply Z.pow_le_mono_r; lia).
  lia.
Qed.

Lemma second_shr_fexp (m E : Z) :
  0 <= m <= 2 ^ 53 → -1074 <= E →
  shr_fexp F64.prec F64.emax m E loc_Exact
  = if m =? 2 ^ 53 then (frac_record m 2, E + 1) else (frac_record m 1, E).
Proof.
  intros Hm HE. unfold shr_fexp. rewrite exact_record.
  change (SpecFloat.fexp F64.prec F64.emax) with fexp. rewrite fexp_eq.
  destruct (Z.eqb_spec m (2 ^ 53)) as [->|Hne].
  - change (Zdigits2 (2 ^ 53)) with 54.
    replace (Z.max (54 + E - 53) (-1074) - E) with 1 by lia.
    rewrite shr_frac by lia. reflexivity.
  - assert (Hd : Zdigits2 m <= 53) by (apply Zdigits2_lt_pow; lia).
    pose proof (Zdigits2_nonneg m).
    unfold shr. destruct (Z.max (Zdigits2 m + E - 53) (-1074) - E) eqn:En; try reflexivity.
    lia.
Qed.

Lemma frac_record_m (N D : Z) : shr_m (frac_record N D) = N / D.
Proof. apply shr_record_of_loc_m. Qed.

Lemma rnd_pack (N D e : Z) :
  0 <= N → 0 < D → e <= fexp (Zdigits2 (N / D) + e) →
  let E := fexp (Zdigits2 (N / D) + e) in
  let m := rne N (2 ^ (E - e) * D) in
  rnd N D e = if m =? 2 ^ 53 then pack (2 ^ 52) (E + 1) else pack m E.
Proof.
  intros HN HD He E m. unfold rnd, binary_round_aux.
  rewrite shr_fexp_frac by assumption. fold E.
  rewrite <- rne_frac. fold m.
  assert (HpD : 0 < 2 ^ (E - e) * D).
  { apply Z.mul_pos_pos; [apply pow2_pos; unfold E; lia|assumption]. }
  assert (Hm : 0 <= m <= 2 ^ 53).
  { pose proof (rne_bounds N (2 ^ (E - e) * D) HpD) as Hb. fold m in Hb.
    pose proof (truncated_bound N D e HN HD He) as Ht. fold E in Ht.
    assert (0 <= N / (2 ^ (E - e) * D)) by (apply Z.div_pos; lia). lia. }
  assert (HE : -1074 <= E) by (unfold E; rewrite fexp_eq; lia).
  rewrite second_shr_fexp by assumption.
  destruct (Z.eqb_spec m (2 ^ 53)) as [Em|Em].
  - rewrite frac_record_m, Em. reflexivity.
  - rewrite frac_record_m, Z.div_1_r. unfold pack.
    destruct m; reflexivity.
Qed.

(** *** Monotonicity and invariance of the rounding *)

Lemma pack_leb (m1 E1 m2 E2 : Z) :
  0 <= m1 → 0 < m2 →
  (E1 = E2 ∧ m1 <= m2) ∨ E1 < E2 →
  F64.leb (pack m1 E1) (pack m2 E2) = true.
Proof.
  intros H1 H2 Hord. unfold pack.
  destruct m1 as [|p1|p1]; try lia; destruct m2 as [|p2|p2]; try lia.
  - destruct (E2 <=? F64.emax - F64.prec); reflexivity.
  - destruct (Z.leb_spec E1 (F64.emax - F64.prec)), (Z.leb_spec E2 (F64.emax - F64.prec));
      try reflexivity; try lia.
    unfold F64.leb, SFleb, SFcompare.
    destruct (Z.compare_spec E1 E2); try reflexivity; try lia.
    change (Pos.compare_cont Eq p1 p2) with (p1 ?= p2)%positive.
    destruct (Pos.compare_spec p1 p2); try reflexivity. lia.
Qed.

Lemma norm_pack_leb (m1 E1 m2 E2 : Z) :
  0 <= m1 <= 2 ^ 53 → 0 <= m2 <= 2 ^ 53 →
  (E1 = E2 ∧ m1 <= m2) ∨ (E1 < E2 ∧ 2 ^ 52 <= m2) →
  F64.leb (norm_pack m1 E1) (norm_pack m2 E2) = true.
Proof.
  intros H1 H2 Hord. unfold norm_pack.
  destruct (Z.eqb_spec m1 (2 ^ 53)) as [->|N1], (Z.eqb_spec m2 (2 ^ 53)) as [->|N2].
  - apply pack_leb; lia.
  - apply pack_leb; try lia.
  - apply pack_leb; lia.
  - destruct (Z.eq_dec m2 0) as [->|Hz].
    + assert (m1 = 0) as -> by lia. reflexivity.
    + apply pack_leb; lia.
Qed.

(** In a normal binade the rounded mantissa has its top bit set. *)
Lemma rne_normal (N D e : Z) :
  0 <= N → 0 < D → e <= fexp (Zdigits2 (N / D) + e) →
  -1074 < fexp (Zdigits2 (N / D) + e) →
  2 ^ 52 <= rne N (2 ^ (fexp (Zdigits2 (N / D) + e) - e) * D).
Proof.
  intros HN HD He Hnorm.
  set (q := N / D) in *. set (E := fexp (Zdigits2 q + e)) in *.
  assert (HE : E = Zdigits2 q + e - 53) by (unfold E in *; rewrite fexp_eq in *; lia).
  assert (Hn : 0 <= E - e) by lia.
  pose proof (pow2_pos _ Hn) as Hp.
  assert (HpD : 0 < 2 ^ (E - e) * D) by (apply Z.mul_pos_pos; lia).
  pose proof (rne_bounds N _ HpD) as Hb.
  assert (Hq0 : 0 <= q) by (apply Z.div_pos; lia).
  assert (Hqpos : 0 < q).
  { destruct (Z.eq_dec q 0) as [Hz|]; [|lia]. rewrite Hz in HE. cbn in HE. lia. }
  destruct (Zdigits2_bounds q Hqpos) as [Hlo _].
  replace (N / (2 ^ (E - e) * D)) with (q / 2 ^ (E - e)) in Hb
    by (unfold q; rewrite (Z.mul_comm (2 ^ (E - e)) D); apply Z.div_div; lia).
  assert (2 ^ 52 <= q / 2 ^ (E - e)); [|lia].
  apply Z.div_le_lower_bound; [lia|].
  rewrite <- Z.pow_add_r by lia.
  replace (E - e + 52) with (Zdigits2 q - 1) by lia. exact Hlo.
Qed.

Lemma rne_range (N D e : Z) :
  0 <= N → 0 < D → e <= fexp (Zdigits2 (N / D) + e) →
  0 <= rne N (2 ^ (fexp (Zdigits2 (N / D) + e) - e) * D) <= 2 ^ 53.
Proof.
  intros HN HD He.
  assert (HpD : 0 < 2 ^ (fexp (Zdigits2 (N / D) + e) - e) * D).
  { apply Z.mul_pos_pos; [apply pow2_pos; lia|assumption]. }
  pose proof (rne_bounds N _ HpD) as Hb.
  pose proof (truncated_bound N D e HN HD He) as Ht.
  assert (0 <= N / (2 ^ (fexp (Zdigits2 (N / D) + e) - e) * D)) by (apply Z.div_pos; lia).
  lia.
Qed.

Lemma rnd_norm_pack (N D e : Z) :
  0 <= N → 0 < D → e <= fexp (Zdigits2 (N / D) + e) →
  rnd N D e
  = norm_pack (rne N (2 ^ (fexp (Zdigits2 (N / D) + e) - e) * D))
      (fexp (Zdigits2 (N / D) + e)).
Proof. intros HN HD He. exact (rnd_pack N D e HN HD He). Qed.

(** Rounding is monotone: fractions over a common denominator and a
    common exponent. *)
Lemma rnd_mono (N1 N2 D e : Z) :
  0 <= N1 <= N2 → 0 < D →
  e <= fexp (Zdigits2 (N1 / D) + e) →
  e <= fexp (Zdigits2 (N2 / D) + e) →
  F64.leb (rnd N1 D e) (rnd N2 D e) = true.
Proof.
  intros HN HD He1 He2.
  rewrite !rnd_norm_pack by lia.
  assert (Hq : 0 <= N1 / D <= N2 / D)
    by (split; [apply Z.div_pos; lia|apply Z.div_le_mono; lia]).
  pose proof (Zdigits2_mono _ _ Hq) as Hd.
  pose proof (fexp_mono (Zdigits2 (N1 / D) + e) (Zdigits2 (N2 / D) + e) ltac:(lia)) as HE.
  apply norm_pack_leb; try (apply rne_range; lia).
  destruct (Z.eq_dec (fexp (Zdigits2 (N1 / D) + e)) (fexp (Zdigits2 (N2 / D) + e))) as [E|E].
  - left. split; [assumption|]. rewrite E. apply rne_mono; [|lia].
    apply Z.mul_pos_pos; [apply pow2_pos; lia|assumption].
  - right. split; [lia|]. apply rne_normal; try lia.
    pose proof (fexp_ge (Zdigits2 (N1 / D) + e)). lia.
Qed.

(** Rounding depends on the value only: a finer starting exponent. *)
Lemma digits_scale (k q' q : Z) :
  0 <= k → 0 < q → 2 ^ k * q <= q' < 2 ^ k * (q + 1) → Zdigits2 q' = Zdigits2 q + k.
Proof.
  intros Hk Hq [Hlo Hhi].
  destruct (Zdigits2_bounds q Hq) as [Hl Hh].
  pose proof (pow2_pos k Hk) as Hp.
  pose proof (Zdigits2_nonneg q).
  assert (1 <= Zdigits2 q) by (destruct q; try lia; cbn; lia).
  apply Zdigits2_unique; [nia|].
  replace (Zdigits2 q + k - 1) with (k + (Zdigits2 q - 1)) by lia.
  rewrite (Z.add_comm (Zdigits2 q) k), !Z.pow_add_r by lia. nia.
Qed.

Lemma scaled_quotient (k N D : Z) :
  0 <= k → 0 <= N → 0 < D →
  2 ^ k * (N / D) <= (2 ^ k * N) / D < 2 ^ k * (N / D + 1).
Proof.
  intros Hk HN HD. pose proof (pow2_pos k Hk) as Hp.
  pose proof (Z.div_mod N D ltac:(lia)) as Hdm.
  pose proof (Z.mod_pos_bound N D HD) as Hr.
  split.
  - apply Z.div_le_lower_bound; [lia|]. nia.
  - apply Z.div_lt_upper_bound; [lia|]. nia.
Qed.

Lemma rnd_scale_exp (k N D e : Z) :
  0 <= k → 0 <= N → 0 < D → e <= fexp (Zdigits2 (N / D) + e) →
  e - k <= fexp (Zdigits2 ((2 ^ k * N) / D) + (e - k))
  ∧ rnd (2 ^ k * N) D (e - k) = rnd N D e.
Proof.
  intros Hk HN HD He. pose proof (pow2_pos k Hk) as Hp.
  pose proof (scaled_quotient k N D Hk HN HD) as Hsq.
  assert (HE : fexp (Zdigits2 ((2 ^ k * N) / D) + (e - k)) = fexp (Zdigits2 (N / D) + e)).
  { destruct (Z.eq_dec (N / D) 0) as [Hz|Hnz].
    - rewrite Hz in *. cbn [Zdigits2] in *. rewrite fexp_eq in He.
      assert (Zdigits2 (2 ^ k * N / D) <= k) by (apply Zdigits2_lt_pow; lia).
      rewrite !fexp_eq. lia.
    - assert (0 < N / D) by (pose proof (Z.div_pos N D); lia).
      rewrite (digits_scale k _ (N / D)) by (try lia; assumption).
      f_equal. lia. }
  split; [lia|].
  rewrite !rnd_norm_pack by lia. rewrite HE. f_equal.
  replace (fexp (Zdigits2 (N / D) + e) - (e - k)) with (k + (fexp (Zdigits2 (N / D) + e) - e)) by lia.
  rewrite Z.pow_add_r by lia. rewrite <- Z.mul_assoc.
  apply rne_scale; [lia|]. apply Z.mul_pos_pos; [apply pow2_pos; lia|lia].
Qed.

Lemma loc_of_scale (k N D : Z) : 0 < k → 0 < D → loc_of (k * N) (k * D) = loc_of N D.
Proof.
  intros Hk HD. pose proof (frac_record_scale k N D Hk HD) as H.
  apply (f_equal loc_of_shr_record) in H. unfold frac_record in H.
  now rewrite !loc_of_shr_record_of_loc in H.
Qed.

(** Rounding depends on the value only: a common factor. *)
Lemma rnd_scale_frac (k N D e : Z) :
  0 < k → 0 < D → rnd (k * N) (k * D) e = rnd N D e.
Proof.
  intros Hk HD. unfold rnd.
  now rewrite loc_of_scale, Z.div_mul_cancel_l by lia.
Qed.

(** *** Division and multiplication of positive finite doubles *)

Lemma new_location_loc (N D : Z) :
  0 < D → new_location D (N mod D) = loc_of N D.
Proof.
  intros HD. pose proof (Z.mod_pos_bound N D HD) as Hr.
  unfold new_location, loc_of.
  destruct (Z.even D) eqn:Ev; unfold new_location_even, new_location_odd;
    destruct (Z.eqb_spec (N mod D) 0) as [E|E]; try reflexivity.
  f_equal.
  assert (Hodd : Z.odd D = true) by (rewrite <- Z.negb_even, Ev; reflexivity).
  apply Z.odd_spec in Hodd as [c Hc].
  destruct (Z.compare_spec (2 * (N mod D) + 1) D), (Z.compare_spec (2 * (N mod D)) D);
    try reflexivity; lia.
Qed.

Lemma div_eucl_div_mod (a b : Z) : Z.div_eucl a b = (a / b, a mod b).
Proof. unfold Z.div, Z.modulo. now destruct (Z.div_eucl a b). Qed.

Lemma div_exp_le (mx : positive) (ex : Z) (my : positive) (ey : Z) :
  div_exp mx ex my ey <= ex - ey
  ∧ div_exp mx ex my ey <= fexp (Zdigits2 (Zpos mx) + ex - (Zdigits2 (Zpos my) + ey)).
Proof. unfold div_exp. lia. Qed.

Lemma div_core (mx : positive) (ex : Z) (my : positive) (ey : Z) :
  SFdiv_core_binary F64.prec F64.emax (Zpos mx) ex (Zpos my) ey
  = ((Zpos mx * 2 ^ (ex - ey - div_exp mx ex my ey)) / Zpos my,
     div_exp mx ex my ey,
     loc_of (Zpos mx * 2 ^ (ex - ey - div_exp mx ex my ey)) (Zpos my)).
Proof.
  unfold SFdiv_core_binary.
  change (SpecFloat.fexp F64.prec F64.emax) with fexp. fold (div_exp mx ex my ey).
  destruct (div_exp_le mx ex my ey) as [Hle _].
  remember (div_exp mx ex my ey) as e' eqn:He'. clear He'.
  assert (Hm : match ex - ey - e' with
               | Z0 => Zpos mx
               | Zpos _ => Z.shiftl (Zpos mx) (ex - ey - e')
               | Zneg _ => 0
               end = Zpos mx * 2 ^ (ex - ey - e')).
  { destruct (ex - ey - e') eqn:Es; try lia.
    now rewrite Z.shiftl_mul_pow2 by lia. }
  rewrite Hm, div_eucl_div_mod, new_location_loc by lia. reflexivity.
Qed.

Lemma div_precondition (mx : positive) (ex : Z) (my : positive) (ey : Z) :
  div_exp mx ex my ey
  <= fexp (Zdigits2 ((Zpos mx * 2 ^ (ex - ey - div_exp mx ex my ey)) / Zpos my)
           + div_exp mx ex my ey).
Proof.
  destruct (div_exp_le mx ex my ey) as [He2 He1].
  remember (div_exp mx ex my ey) as e' eqn:He'. clear He'.
  remember (Zpos mx * 2 ^ (ex - ey - e')) as N eqn:HN.
  remember (Zdigits2 (Zpos mx)) as d1 eqn:Hd1e.
  remember (Zdigits2 (Zpos my)) as d2 eqn:Hd2e.
  remember (d1 + ex - (d2 + ey)) as g eqn:Hg.
  destruct (Z.le_gt_cases g e') as [Hsmall|Hbig].
  - rewrite fexp_eq in He1. pose proof (fexp_ge (Zdigits2 (N / Z.pos my) + e')). lia.
  - assert (Hs : 0 <= ex - ey - e') by lia.
    pose proof (pow2_pos _ Hs) as Hp.
    destruct (Zdigits2_bounds (Zpos mx) ltac:(lia)) as [Hlo1 _].
    destruct (Zdigits2_bounds (Zpos my) ltac:(lia)) as [_ Hhi2].
    rewrite <- Hd1e in Hlo1. rewrite <- Hd2e in Hhi2.
    assert (Hd1 : 1 <= d1) by (subst d1; cbn; lia).
    assert (Hd2 : 1 <= d2) by (subst d2; cbn; lia).
    assert (Hk : 0 <= g - e' - 1) by lia.
    assert (Hq : 2 ^ (g - e' - 1) <= N / Zpos my).
    { apply Z.div_le_lower_bound; [lia|].
      assert (Hpow : 2 ^ (g - e' - 1) * 2 ^ d2 = 2 ^ (d1 - 1) * 2 ^ (ex - ey - e')).
      { rewrite <- !Z.pow_add_r by lia. f_equal. lia. }
      pose proof (pow2_pos _ Hk).
      subst N. nia. }
    pose proof (Zdigits2_ge_pow _ _ Hk Hq) as Hdq.
    pose proof (fexp_mono g (Zdigits2 (N / Z.pos my) + e') ltac:(lia)). lia.
Qed.

(** Division of positive finite floats is the rounding of a fraction. *)
Lemma F64_div_rnd (mx : positive) (ex : Z) (my : positive) (ey : Z) :
  F64.div (S754_finite false mx ex) (S754_finite false my ey)
  = rnd (Zpos mx * 2 ^ (ex - ey - div_exp mx ex my ey)) (Zpos my) (div_exp mx ex my ey).
Proof.
  unfold F64.div, SFdiv. rewrite div_core. reflexivity.
Qed.

(** The same division, started at any finer exponent [e0]. *)
Lemma F64_div_rnd_at (e0 : Z) (mx : positive) (ex : Z) (my : positive) (ey : Z) :
  e0 <= div_exp mx ex my ey →
  e0 <= fexp (Zdigits2 ((Zpos mx * 2 ^ (ex - ey - e0)) / Zpos my) + e0)
  ∧ F64.div (S754_finite false mx ex) (S754_finite false my ey)
    = rnd (Zpos mx * 2 ^ (ex - ey - e0)) (Zpos my) e0.
Proof.
  intros He0. rewrite F64_div_rnd.
  pose proof (div_precondition mx ex my ey) as Hpre0.
  destruct (div_exp_le mx ex my ey) as [Hle _].
  remember (div_exp mx ex my ey) as e' eqn:He'. clear He'.
  assert (Hs : 0 <= ex - ey - e') by lia.
  pose proof (pow2_pos _ Hs).
  destruct (rnd_scale_exp (e' - e0) (Zpos mx * 2 ^ (ex - ey - e')) (Zpos my) e')
    as [Hpre Heq]; try lia.
  replace (e' - (e' - e0)) with e0 in * by lia.
  replace (2 ^ (e' - e0) * (Z.pos mx * 2 ^ (ex - ey - e')))
    with (Zpos mx * 2 ^ (ex - ey - e0)) in *.
  - split; [exact Hpre|now rewrite Heq].
  - replace (ex - ey - e0) with ((e' - e0) + (ex - ey - e')) by lia.
    rewrite Z.pow_add_r by lia. ring.
Qed.

(** Mantissa and exponent of a positive finite double. *)
Lemma canonical_facts (m : positive) (e : Z) :
  bounded F64.prec F64.emax m e = true →
  -1074 <= e ∧ Zpos m < 2 ^ 53 ∧ (-1074 < e → 2 ^ 52 <= Zpos m).
Proof.
  unfold bounded, canonical_mantissa. intros H.
  apply andb_true_iff in H as [H _]. apply Z.eqb_eq in H.
  change (SpecFloat.fexp F64.prec F64.emax) with fexp in H.
  change (Z.pos (digits2_pos m)) with (Zdigits2 (Zpos m)) in H.
  rewrite fexp_eq in H.
  destruct (Zdigits2_bounds (Zpos m) ltac:(lia)) as [Hlo Hhi].
  assert (Hd : Zdigits2 (Zpos m) <= 53) by lia.
  assert (1 <= Zdigits2 (Zpos m)) by (cbn; lia).
  split; [lia|]. split.
  - assert (2 ^ Zdigits2 (Zpos m) <= 2 ^ 53) by (apply Z.pow_le_mono_r; lia). lia.
  - intros He. assert (Zdigits2 (Zpos m) = 53) as E by lia. rewrite E in Hlo. exact Hlo.
Qed.

(** The order on canonical positive floats, read on mantissa and exponent. *)
Lemma positive_finite_leb (m1 : positive) (e1 : Z) (m2 : positive) (e2 : Z) :
  F64.positive_finite (S754_finite false m1 e1) = true →
  F64.positive_finite (S754_finite false m2 e2) = true →
  F64.leb (S754_finite false m1 e1) (S754_finite false m2 e2) = true →
  (e1 = e2 ∧ Zpos m1 <= Zpos m2)
  ∨ (e1 < e2 ∧ 2 ^ 52 <= Zpos m2 ∧ Zpos m1 < 2 ^ 53).
Proof.
  cbn [F64.positive_finite]. intros C1 C2 Hle.
  destruct (canonical_facts _ _ C1) as (? & ? & ?).
  destruct (canonical_facts _ _ C2) as (? & ? & ?).
  unfold F64.leb, SFleb, SFcompare in Hle.
  destruct (Z.compare_spec e1 e2); try discriminate.
  - left. split; [assumption|].
    change (Pos.compare_cont Eq m1 m2) with (m1 ?= m2)%positive in Hle.
    destruct (Pos.compare_spec m1 m2); try discriminate; lia.
  - right. lia.
Qed.

Lemma scaled_le_aux (m1 m2 K P : Z) :
  0 < m1 → 2 ^ 52 <= m2 → m1 < 2 ^ 53 → 2 <= K → 0 < P →
  m1 * P <= m2 * (K * P).
Proof.
  intros H1 H2 H3 HK HP.
  change (2 ^ 53) with (2 * 2 ^ 52) in H3.
  apply Z.le_trans with (2 * m2 * P).
  - apply Z.mul_le_mono_nonneg_r; lia.
  - rewrite Z.mul_assoc. apply Z.mul_le_mono_nonneg_r; [lia|]. nia.
Qed.

(** The scaled mantissas of two ordered canonical floats are ordered. *)
Lemma scaled_le (m1 e1 m2 e2 c : Z) :
  0 < m1 → 0 < m2 →
  (e1 = e2 ∧ m1 <= m2) ∨ (e1 < e2 ∧ 2 ^ 52 <= m2 ∧ m1 < 2 ^ 53) →
  c <= e1 → c <= e2 →
  m1 * 2 ^ (e1 - c) <= m2 * 2 ^ (e2 - c).
Proof.
  intros H1 H2 Hord Hc1 Hc2.
  pose proof (pow2_pos (e1 - c) ltac:(lia)) as Hp.
  destruct Hord as [[-> Hm]|(He & Hm2 & Hm1)].
  - apply Z.mul_le_mono_nonneg_r; lia.
  - replace (e2 - c) with ((e2 - e1) + (e1 - c)) by lia.
    rewrite pow2_split by lia.
    apply scaled_le_aux; try assumption. apply pow2_ge_2. lia.
Qed.

(** Division is monotone in the dividend. *)
Lemma F64_div_mono_l (x1 x2 y : float) :
  F64.positive_finite x1 = true → F64.positive_finite x2 = true → F64.positive_finite y = true →
  F64.leb x1 x2 = true →
  F64.leb (F64.div x1 y) (F64.div x2 y) = true.
Proof.
  destruct x1 as [| | |[] m1 e1]; try discriminate.
  destruct x2 as [| | |[] m2 e2]; try discriminate.
  destruct y as [| | |[] my ey]; try discriminate.
  intros P1 P2 Py Hle.
  pose proof (positive_finite_leb _ _ _ _ P1 P2 Hle) as Hord.
  destruct (div_exp_le m1 e1 my ey) as [Hl1 _].
  destruct (div_exp_le m2 e2 my ey) as [Hl2 _].
  set (e0 := Z.min (div_exp m1 e1 my ey) (div_exp m2 e2 my ey)).
  destruct (F64_div_rnd_at e0 m1 e1 my ey ltac:(unfold e0; lia)) as [Hp1 ->].
  destruct (F64_div_rnd_at e0 m2 e2 my ey ltac:(unfold e0; lia)) as [Hp2 ->].
  assert (Hc1 : ey + e0 <= e1) by (unfold e0; lia).
  assert (Hc2 : ey + e0 <= e2) by (unfold e0; lia).
  pose proof (scaled_le (Zpos m1) e1 (Zpos m2) e2 (ey + e0) ltac:(lia) ltac:(lia) Hord Hc1 Hc2)
    as HN.
  replace (e1 - (ey + e0)) with (e1 - ey - e0) in HN by lia.
  replace (e2 - (ey + e0)) with (e2 - ey - e0) in HN by lia.
  apply rnd_mono; [split; [|exact HN]|lia|assumption|assumption].
  apply Z.mul_nonneg_nonneg; [lia|]. apply Z.lt_le_incl, pow2_pos. lia.
Qed.

(** Division is antitone in the divisor. *)
Lemma F64_div_mono_r (x y1 y2 : float) :
  F64.positive_finite x = true → F64.positive_finite y1 = true → F64.positive_finite y2 = true →
  F64.leb y1 y2 = true →
  F64.leb (F64.div x y2) (F64.div x y1) = true.
Proof.
  destruct x as [| | |[] mx ex]; try discriminate.
  destruct y1 as [| | |[] m1 e1]; try discriminate.
  destruct y2 as [| | |[] m2 e2]; try discriminate.
  intros Px P1 P2 Hle.
  pose proof (positive_finite_leb _ _ _ _ P1 P2 Hle) as Hord.
  destruct (div_exp_le mx ex m1 e1) as [Hl1 _].
  destruct (div_exp_le mx ex m2 e2) as [Hl2 _].
  set (e0 := Z.min (div_exp mx ex m1 e1) (div_exp mx ex m2 e2)).
  destruct (F64_div_rnd_at e0 mx ex m1 e1 ltac:(unfold e0; lia)) as [Hp1 ->].
  destruct (F64_div_rnd_at e0 mx ex m2 e2 ltac:(unfold e0; lia)) as [Hp2 ->].
  assert (Hc1 : 0 <= ex - e1 - e0) by (unfold e0; lia).
  assert (Hc2 : 0 <= ex - e2 - e0) by (unfold e0; lia).
  clearbody e0.
  set (A1 := Zpos mx * 2 ^ (ex - e1 - e0)) in *.
  set (A2 := Zpos mx * 2 ^ (ex - e2 - e0)) in *.
  assert (HA1 : 0 <= A1) by (apply Z.mul_nonneg_nonneg; [lia|apply Z.lt_le_incl, pow2_pos; lia]).
  assert (HA2 : 0 <= A2) by (apply Z.mul_nonneg_nonneg; [lia|apply Z.lt_le_incl, pow2_pos; lia]).
  rewrite <- (rnd_scale_frac (Zpos m1) A2 (Zpos m2) e0) by lia.
  rewrite <- (rnd_scale_frac (Zpos m2) A1 (Zpos m1) e0) by lia.
  rewrite (Z.mul_comm (Zpos m2) (Zpos m1)).
  apply rnd_mono.
  - split; [lia|].
    (* m1 * 2^(ex - e2 - e0) <= m2 * 2^(ex - e1 - e0) *)
    assert (Hpow : Zpos m1 * 2 ^ (ex - e2 - e0) <= Zpos m2 * 2 ^ (ex - e1 - e0)).
    { pose proof (pow2_pos _ Hc2) as Hq2. pose proof (pow2_pos _ Hc1) as Hq1.
      destruct Hord as [[-> Hm]|(He & Hm2 & Hm1)].
      - apply Z.mul_le_mono_nonneg_r; lia.
      - replace (ex - e1 - e0) with ((e2 - e1) + (ex - e2 - e0)) by lia.
        rewrite pow2_split by lia.
        apply scaled_le_aux; try assumption; try lia. apply pow2_ge_2. lia. }
    unfold A1, A2.
    replace (Zpos m1 * (Zpos mx * 2 ^ (ex - e2 - e0)))
      with (Zpos mx * (Zpos m1 * 2 ^ (ex - e2 - e0))) by ring.
    replace (Zpos m2 * (Zpos mx * 2 ^ (ex - e1 - e0)))
      with (Zpos mx * (Zpos m2 * 2 ^ (ex - e1 - e0))) by ring.
    apply Z.mul_le_mono_nonneg_l; lia.
  - lia.
  - now rewrite Z.div_mul_cancel_l by lia.
  - rewrite (Z.mul_comm (Zpos m1) (Zpos m2)). now rewrite Z.div_mul_cancel_l by lia.
Qed.

(** Multiplication of positive finite floats is the rounding of the
    product of the mantissas. *)
Lemma F64_mul_rnd (mx : positive) (ex : Z) (my : positive) (ey : Z) :
  F64.mul (S754_finite false mx ex) (S754_finite false my ey)
  = rnd (Zpos mx * Zpos my) 1 (ex + ey).
Proof.
  unfold F64.mul, SFmul, rnd. cbn [xorb]. unfold loc_of.
  now rewrite Z.mod_1_r, Z.div_1_r.
Qed.

Lemma mul_precondition (mx : positive) (ex : Z) (my : positive) (ey : Z) :
  F64.positive_finite (S754_finite false mx ex) = true →
  F64.positive_finite (S754_finite false my ey) = true →
  ex + ey <= fexp (Zdigits2 ((Zpos mx * Zpos my) / 1) + (ex + ey)).
Proof.
  cbn [F64.positive_finite]. intros Cx Cy. rewrite Z.div_1_r.
  destruct (canonical_facts _ _ Cx) as (Hex & Hmx & Hnx).
  destruct (canonical_facts _ _ Cy) as (Hey & Hmy & Hny).
  pose proof (fexp_ge (Zdigits2 (Z.pos mx * Z.pos my) + (ex + ey))) as Hge.
  destruct (Z.eq_dec ex (-1074)) as [Ex|Ex]; [destruct (Z.eq_dec ey (-1074)) as [Ey|Ey]|].
  - lia.
  - specialize (Hny ltac:(lia)).
    assert (53 <= Zdigits2 (Zpos mx * Zpos my)).
    { apply (Zdigits2_ge_pow _ 52); [lia|]. nia. }
    rewrite fexp_eq. lia.
  - specialize (Hnx ltac:(lia)).
    assert (53 <= Zdigits2 (Zpos mx * Zpos my)).
    { apply (Zdigits2_ge_pow _ 52); [lia|]. nia. }
    rewrite fexp_eq. lia.
Qed.

(** Squaring is monotone. *)
Lemma F64_square_mono (h1 h2 : float) :
  F64.positive_finite h1 = true → F64.positive_finite h2 = true →
  F64.leb h1 h2 = true →
  F64.leb (F64.mul h1 h1) (F64.mul h2 h2) = true.
Proof.
  destruct h1 as [| | |[] m1 e1]; try discriminate.
  destruct h2 as [| | |[] m2 e2]; try discriminate.
  intros P1 P2 Hle.
  pose proof (positive_finite_leb _ _ _ _ P1 P2 Hle) as Hord.
  rewrite !F64_mul_rnd.
  pose proof (mul_precondition _ _ _ _ P1 P1) as Hp1.
  pose proof (mul_precondition _ _ _ _ P2 P2) as Hp2.
  set (e0 := Z.min (e1 + e1) (e2 + e2)).
  destruct (rnd_scale_exp (e1 + e1 - e0) (Zpos m1 * Zpos m1) 1 (e1 + e1))
    as [Hq1 <-]; try (unfold e0; lia).
  destruct (rnd_scale_exp (e2 + e2 - e0) (Zpos m2 * Zpos m2) 1 (e2 + e2))
    as [Hq2 <-]; try (unfold e0; lia).
  replace (e1 + e1 - (e1 + e1 - e0)) with e0 in * by lia.
  replace (e2 + e2 - (e2 + e2 - e0)) with e0 in * by lia.
  assert (Hk1 : 0 <= e1 + e1 - e0) by (unfold e0; lia).
  assert (Hk2 : 0 <= e2 + e2 - e0) by (unfold e0; lia).
  apply rnd_mono; try assumption; try lia.
  pose proof (pow2_pos _ Hk1) as Hpw1. pose proof (pow2_pos _ Hk2) as Hpw2.
  split; [nia|].
  destruct Hord as [[-> Hm]|(He & Hm2 & Hm1)].
  - assert (Zpos m1 * Zpos m1 <= Zpos m2 * Zpos m2) by nia. nia.
  - assert (Ee0 : e0 = e1 + e1) by (unfold e0; lia).
    rewrite Ee0 in *. replace (e1 + e1 - (e1 + e1)) with 0 by lia.
    change (2 ^ 0) with 1.
    assert (4 <= 2 ^ (e2 + e2 - (e1 + e1))).
    { replace (e2 + e2 - (e1 + e1)) with (2 + (e2 + e2 - (e1 + e1) - 2)) by lia.
      rewrite pow2_split by lia.
      pose proof (pow2_pos (e2 + e2 - (e1 + e1) - 2) ltac:(lia)).
      change (2 ^ 2) with 4. lia. }
    change (2 ^ 53) with (2 * 2 ^ 52) in Hm1.
    assert (Zpos m1 * Zpos m1 < 4 * (2 ^ 52 * 2 ^ 52)) by nia.
    assert (2 ^ 52 * 2 ^ 52 <= Zpos m2 * Zpos m2) by nia.
    nia.
Qed.

(** A finite result of rounding is a positive finite double. *)
Lemma rnd_positive_finite (N D e : Z) (s : bool) (m : positive) (E : Z) :
  0 <= N → 0 < D → e <= fexp (Zdigits2 (N / D) + e) →
  rnd N D e = S754_finite s m E →
  F64.positive_finite (S754_finite s m E) = true.
Proof.
  intros HN HD He. rewrite rnd_norm_pack by assumption.
  pose proof (rne_range N D e HN HD He) as Hr.
  pose proof (rne_normal N D e HN HD He) as Hn.
  pose proof (fexp_ge (Zdigits2 (N / D) + e)) as Hge.
  remember (rne N (2 ^ (fexp (Zdigits2 (N / D) + e) - e) * D)) as r eqn:Er. clear Er.
  remember (fexp (Zdigits2 (N / D) + e)) as F eqn:EF. clear EF.
  unfold norm_pack, pack.
  destruct (Z.eqb_spec r (2 ^ 53)) as [->|Hne].
  - change (2 ^ 52) with 4503599627370496. cbv beta iota.
    destruct (F + 1 <=? F64.emax - F64.prec) eqn:Hb; [|discriminate].
    intros [= <- <- <-]. cbn [F64.positive_finite]. unfold bounded, canonical_mantissa.
    rewrite Hb, andb_true_r.
    change (Z.pos (digits2_pos 4503599627370496)) with 53.
    apply Z.eqb_eq. change (SpecFloat.fexp F64.prec F64.emax) with fexp.
    rewrite fexp_eq. lia.
  - destruct r as [|p|p]; try discriminate.
    destruct (F <=? F64.emax - F64.prec) eqn:Hb; [|discriminate].
    intros [= <- <- <-]. cbn [F64.positive_finite]. unfold bounded, canonical_mantissa.
    rewrite Hb, andb_true_r.
    apply Z.eqb_eq. change (SpecFloat.fexp F64.prec F64.emax) with fexp.
    change (Z.pos (digits2_pos p)) with (Zdigits2 (Zpos p)).
    assert (Hd : Zdigits2 (Zpos p) <= 53) by (apply Zdigits2_lt_pow; lia).
    rewrite fexp_eq.
    destruct (Z.eq_dec F (-1074)) as [->|HF]; [lia|].
    specialize (Hn ltac:(lia)).
    pose proof (Zdigits2_ge_pow _ 52 ltac:(lia) Hn). lia.
Qed.

Lemma F64_mul_positive_finite (x y : float) :
  F64.positive_finite x = true → F64.positive_finite y = true →
  match F64.mul x y with
  | S754_finite s m e => F64.positive_finite (F64.mul x y) = true
  | _ => True
  end.
Proof.
  destruct x as [| | |[] mx ex]; try discriminate.
  destruct y as [| | |[] my ey]; try discriminate.
  intros Px Py.
  destruct (F64.mul (S754_finite false mx ex) (S754_finite false my ey))
    as [| | |s m e] eqn:E; try exact I.
  rewrite F64_mul_rnd in E.
  apply (rnd_positive_finite (Zpos mx * Zpos my) 1 (ex + ey) s m e); try lia; try assumption.
  apply mul_precondition; assumption.
Qed.

(** ** Order on non-negative doubles *)

Lemma nonnegative_cases (x : float) :
  nonnegative x = true →
  x = S754_zero false ∨ x = S754_infinity false ∨ F64.positive_finite x = true.
Proof.
  destruct x as [[]|[]| |[] m e]; try discriminate; auto.
Qed.

Lemma positive_finite_nonnegative (x : float) :
  F64.positive_finite x = true → nonnegative x = true.
Proof. destruct x as [[]|[]| |[] m e]; try discriminate; auto. Qed.

Lemma F64_leb_trans (x y z : float) :
  F64.leb x y = true → F64.leb y z = true → F64.leb x z = true.
Proof.
  unfold F64.leb, SFleb, SFcompare.
  destruct x as [sx|sx| |sx mx ex], y as [sy|sy| |sy my ey], z as [sz|sz| |sz mz ez];
    repeat match goal with s : bool |- _ => destruct s end;
    try discriminate; try reflexivity;
    change (Pos.compare_cont Eq) with Pos.compare;
    destruct (Z.compare_spec ex ey), (Z.compare_spec ey ez), (Z.compare_spec ex ez);
    try lia; try discriminate; try reflexivity; subst;
    destruct (Pos.compare_spec mx my), (Pos.compare_spec my mz), (Pos.compare_spec mx mz);
    cbn; try lia; try discriminate; try reflexivity.
Qed.

Lemma F64_leb_refl (x : float) : nonnegative x = true → F64.leb x x = true.
Proof.
  destruct x as [[]|[]| |[] m e]; try discriminate; try reflexivity.
  intros _. unfold F64.leb, SFleb, SFcompare.
  rewrite Z.compare_refl. change (Pos.compare_cont Eq m m) with (m ?= m)%positive.
  now rewrite Pos.compare_refl.
Qed.

Lemma F64_leb_zero (x : float) : nonnegative x = true → F64.leb (S754_zero false) x = true.
Proof. destruct x as [[]|[]| |[] m e]; try discriminate; reflexivity. Qed.

Lemma F64_leb_pinf (x : float) : nonnegative x = true → F64.leb x F64.pinf = true.
Proof. destruct x as [[]|[]| |[] m e]; try discriminate; reflexivity. Qed.

(** The result of rounding a non-negative fraction. *)
Lemma rnd_nonnegative (N D e : Z) :
  0 <= N → 0 < D → e <= fexp (Zdigits2 (N / D) + e) →
  nonnegative (rnd N D e) = true.
Proof.
  intros HN HD He.
  destruct (rnd N D e) as [s|s| |s m E] eqn:Ernd.
  - rewrite rnd_norm_pack in Ernd by assumption.
    pose proof (rne_range N D e HN HD He) as Hr.
    remember (rne N (2 ^ (fexp (Zdigits2 (N / D) + e) - e) * D)) as r eqn:Er. clear Er.
    unfold norm_pack, pack in Ernd.
    destruct (r =? 2 ^ 53).
    + change (2 ^ 52) with 4503599627370496 in Ernd. cbv beta iota in Ernd.
      destruct (_ <=? _) in Ernd; discriminate.
    + destruct r as [|p|p]; [now injection Ernd as <-| |lia].
      destruct (_ <=? _) in Ernd; discriminate.
  - rewrite rnd_norm_pack in Ernd by assumption.
    pose proof (rne_range N D e HN HD He) as Hr.
    remember (rne N (2 ^ (fexp (Zdigits2 (N / D) + e) - e) * D)) as r eqn:Er. clear Er.
    unfold norm_pack, pack in Ernd.
    destruct (r =? 2 ^ 53).
    + change (2 ^ 52) with 4503599627370496 in Ernd. cbv beta iota in Ernd.
      destruct (_ <=? _) in Ernd; [discriminate|now injection Ernd as <-].
    + destruct r as [|p|p]; [discriminate| |lia].
      destruct (_ <=? _) in Ernd; [discriminate|now injection Ernd as <-].
  - rewrite rnd_norm_pack in Ernd by assumption.
    pose proof (rne_range N D e HN HD He) as Hr.
    remember (rne N (2 ^ (fexp (Zdigits2 (N / D) + e) - e) * D)) as r eqn:Er. clear Er.
    unfold norm_pack, pack in Ernd.
    destruct (r =? 2 ^ 53).
    + change (2 ^ 52) with 4503599627370496 in Ernd. cbv beta iota in Ernd.
      destruct (_ <=? _) in Ernd; discriminate.
    + destruct r as [|p|p]; [discriminate| |lia].
      destruct (_ <=? _) in Ernd; discriminate.
  - pose proof (rnd_positive_finite N D e s m E HN HD He Ernd) as Hp.
    now apply positive_finite_nonnegative.
Qed.

(** ** Multiplication and division are monotone *)

Lemma F64_mul_comm (x y : float) : F64.mul x y = F64.mul y x.
Proof.
  unfold F64.mul, SFmul.
  destruct x as [sx|sx| |sx mx ex], y as [sy|sy| |sy my ey];
    try reflexivity; try (now rewrite xorb_comm).
  now rewrite xorb_comm, Pos.mul_comm, Z.add_comm.
Qed.

Lemma F64_mul_mono_l (x1 x2 y : float) :
  F64.positive_finite x1 = true → F64.positive_finite x2 = true → F64.positive_finite y = true →
  F64.leb x1 x2 = true →
  F64.leb (F64.mul x1 y) (F64.mul x2 y) = true.
Proof.
  destruct x1 as [| | |[] m1 e1]; try discriminate.
  destruct x2 as [| | |[] m2 e2]; try discriminate.
  destruct y as [| | |[] my ey]; try discriminate.
  intros P1 P2 Py Hle.
  pose proof (positive_finite_leb _ _ _ _ P1 P2 Hle) as Hord.
  rewrite !F64_mul_rnd.
  pose proof (mul_precondition _ _ _ _ P1 Py) as Hp1.
  pose proof (mul_precondition _ _ _ _ P2 Py) as Hp2.
  set (e0 := Z.min e1 e2).
  destruct (rnd_scale_exp (e1 - e0) (Zpos m1 * Zpos my) 1 (e1 + ey))
    as [Hq1 <-]; try (unfold e0; lia).
  destruct (rnd_scale_exp (e2 - e0) (Zpos m2 * Zpos my) 1 (e2 + ey))
    as [Hq2 <-]; try (unfold e0; lia).
  replace (e1 + ey - (e1 - e0)) with (e0 + ey) in * by lia.
  replace (e2 + ey - (e2 - e0)) with (e0 + ey) in * by lia.
  assert (Hk1 : e0 <= e1) by (unfold e0; lia).
  assert (Hk2 : e0 <= e2) by (unfold e0; lia).
  clearbody e0.
  pose proof (scaled_le (Zpos m1) e1 (Zpos m2) e2 e0 ltac:(lia) ltac:(lia) Hord Hk1 Hk2) as HN.
  pose proof (pow2_pos (e1 - e0) ltac:(lia)) as Hpw1.
  apply rnd_mono; try assumption; try lia.
  split; [nia|].
  replace (2 ^ (e1 - e0) * (Zpos m1 * Zpos my)) with (Zpos my * (Zpos m1 * 2 ^ (e1 - e0))) by ring.
  replace (2 ^ (e2 - e0) * (Zpos m2 * Zpos my)) with (Zpos my * (Zpos m2 * 2 ^ (e2 - e0))) by ring.
  apply Z.mul_le_mono_nonneg_l; lia.
Qed.

Lemma F64_mul_nonnegative (x y : float) :
  nonnegative x = true → F64.positive_finite y = true → nonnegative (F64.mul x y) = true.
Proof.
  intros Hx Py.
  destruct (nonnegative_cases x Hx) as [->|[->|Px]].
  - destruct y as [| | |[] my ey]; try discriminate. reflexivity.
  - destruct y as [| | |[] my ey]; try discriminate. reflexivity.
  - destruct x as [| | |[] mx ex]; try discriminate.
    destruct y as [| | |[] my ey]; try discriminate.
    rewrite F64_mul_rnd. apply rnd_nonnegative; try lia.
    now apply mul_precondition.
Qed.

(** The product with a positive finite factor keeps the order of
    non-negative doubles. *)
Lemma F64_mul_nonnegative_mono (x1 x2 y : float) :
  nonnegative x1 = true → nonnegative x2 = true → F64.positive_finite y = true →
  F64.leb x1 x2 = true →
  F64.leb (F64.mul x1 y) (F64.mul x2 y) = true.
Proof.
  intros H1 H2 Py Hle.
  pose proof (F64_mul_nonnegative x1 y H1 Py) as N1.
  pose proof (F64_mul_nonnegative x2 y H2 Py) as N2.
  destruct (nonnegative_cases x1 H1) as [->|[->|P1]];
    destruct (nonnegative_cases x2 H2) as [->|[->|P2]].
  - now apply F64_leb_refl.
  - destruct y as [| | |[] my ey]; try discriminate. reflexivity.
  - destruct y as [| | |[] my ey]; try discriminate.
    change (F64.mul (S754_zero false) (S754_finite false my ey)) with (S754_zero false).
    now apply F64_leb_zero.
  - discriminate Hle.
  - now apply F64_leb_refl.
  - destruct x2 as [| | |[] m2 e2]; discriminate.
  - destruct x1 as [| | |[] m1 e1]; discriminate.
  - destruct y as [| | |[] my ey]; try discriminate.
    change (F64.mul (S754_infinity false) (S754_finite false my ey)) with F64.pinf.
    now apply F64_leb_pinf.
  - now apply F64_mul_mono_l.
Qed.

(** A non-negative factor keeps the order of positive finite doubles. *)
Lemma F64_mul_nonnegative_mono_r (x y1 y2 : float) :
  nonnegative x = true → F64.positive_finite y1 = true → F64.positive_finite y2 = true →
  F64.leb y1 y2 = true →
  F64.leb (F64.mul x y1) (F64.mul x y2) = true.
Proof.
  intros Hx P1 P2 Hle.
  destruct (nonnegative_cases x Hx) as [->|[->|Px]].
  - destruct y1 as [| | |[] m1 e1]; try discriminate.
    destruct y2 as [| | |[] m2 e2]; try discriminate. reflexivity.
  - destruct y1 as [| | |[] m1 e1]; try discriminate.
    destruct y2 as [| | |[] m2 e2]; try discriminate. reflexivity.
  - rewrite (F64_mul_comm x y1), (F64_mul_comm x y2). now apply F64_mul_mono_l.
Qed.

Lemma F64_div_nonnegative (x y : float) :
  nonnegative x = true → F64.positive_finite y = true → nonnegative (F64.div x y) = true.
Proof.
  intros Hx Py.
  destruct (nonnegative_cases x Hx) as [->|[->|Px]].
  - destruct y as [| | |[] my ey]; try discriminate. reflexivity.
  - destruct y as [| | |[] my ey]; try discriminate. reflexivity.
  - destruct x as [| | |[] mx ex]; try discriminate.
    destruct y as [| | |[] my ey]; try discriminate.
    destruct (F64_div_rnd_at (div_exp mx ex my ey) mx ex my ey ltac:(lia)) as [Hpre ->].
    apply rnd_nonnegative; [|lia|exact Hpre].
    destruct (div_exp_le mx ex my ey) as [Hl _].
    apply Z.mul_nonneg_nonneg; [lia|]. apply Z.lt_le_incl, pow2_pos. lia.
Qed.

Lemma F64_div_nonnegative_mono (x1 x2 y : float) :
  nonnegative x1 = true → nonnegative x2 = true → F64.positive_finite y = true →
  F64.leb x1 x2 = true →
  F64.leb (F64.div x1 y) (F64.div x2 y) = true.
Proof.
  intros H1 H2 Py Hle.
  pose proof (F64_div_nonnegative x1 y H1 Py) as N1.
  pose proof (F64_div_nonnegative x2 y H2 Py) as N2.
  destruct (nonnegative_cases x1 H1) as [->|[->|P1]];
    destruct (nonnegative_cases x2 H2) as [->|[->|P2]].
  - now apply F64_leb_refl.
  - destruct y as [| | |[] my ey]; try discriminate. reflexivity.
  - destruct y as [| | |[] my ey]; try discriminate.
    change (F64.div (S754_zero false) (S754_finite false my ey)) with (S754_zero false).
    now apply F64_leb_zero.
  - discriminate Hle.
  - now apply F64_leb_refl.
  - destruct x2 as [| | |[] m2 e2]; discriminate.
  - destruct x1 as [| | |[] m1 e1]; discriminate.
  - destruct y as [| | |[] my ey]; try discriminate.
    change (F64.div (S754_infinity false) (S754_finite false my ey)) with F64.pinf.
    now apply F64_leb_pinf.
  - now apply F64_div_mono_l.
Qed.

(** ** [round(x, 2)] is monotone *)

Lemma div_half_even_rne (a b : Z) : 0 < b → F64.div_half_even a b = rne a b.
Proof.
  intros Hb. unfold F64.div_half_even, rne, loc_of, round_nearest_even.
  pose proof (Z.mod_pos_bound a b Hb).
  destruct (Z.eqb_spec (a mod b) 0) as [E|E].
  - rewrite E. destruct (Z.compare_spec (2 * 0) b); first [reflexivity|lia].
  - destruct (2 * (a mod b) ?= b); reflexivity.
Qed.

(** The hundredths of [m * 2^e], over any common denominator [2^(-c)]. *)
Lemma hundredths_rne (m : positive) (e c : Z) :
  c <= e → c <= 0 →
  F64.hundredths m e = rne (100 * Zpos m * 2 ^ (e - c)) (2 ^ (- c)).
Proof.
  intros Hce Hc0.
  pose proof (pow2_pos (- c) ltac:(lia)) as Hd.
  pose proof (pow2_pos (e - c) ltac:(lia)) as Hn.
  unfold F64.hundredths. destruct e as [|p|p].
  - rewrite rne_exact.
    + replace (0 - c) with (- c) by lia. rewrite Z.div_mul by lia. rewrite Z.pow_0_r. lia.
    + replace (0 - c) with (- c) by lia. apply Z.mod_mul. lia.
  - replace (Z.pos p - c) with (Z.pos p + - c) by lia.
    rewrite pow2_split by lia. rewrite Z.mul_assoc.
    rewrite rne_exact.
    + rewrite Z.div_mul by lia. reflexivity.
    + apply Z.mod_mul. lia.
  - rewrite div_half_even_rne by (apply pow2_pos; lia).
    replace (- c) with ((Z.neg p - c) + Z.pos p) by lia.
    rewrite (pow2_split (Z.neg p - c) (Z.pos p)) by lia.
    rewrite (Z.mul_comm (100 * Z.pos m)).
    apply eq_sym, rne_scale; [apply pow2_pos; lia|apply pow2_pos; lia].
Qed.

Lemma hundredths_nonneg (m : positive) (e : Z) : 0 <= F64.hundredths m e.
Proof.
  rewrite (hundredths_rne m e (Z.min e 0)) by lia.
  pose proof (pow2_pos (- Z.min e 0) ltac:(lia)) as Hd.
  pose proof (pow2_pos (e - Z.min e 0) ltac:(lia)) as Hn.
  pose proof (rne_bounds (100 * Z.pos m * 2 ^ (e - Z.min e 0)) (2 ^ (- Z.min e 0)) Hd).
  assert (0 <= 100 * Z.pos m * 2 ^ (e - Z.min e 0) / 2 ^ (- Z.min e 0))
    by (apply Z.div_pos; lia).
  lia.
Qed.

Lemma hundredths_mono (m1 : positive) (e1 : Z) (m2 : positive) (e2 : Z) :
  F64.positive_finite (S754_finite false m1 e1) = true →
  F64.positive_finite (S754_finite false m2 e2) = true →
  F64.leb (S754_finite false m1 e1) (S754_finite false m2 e2) = true →
  F64.hundredths m1 e1 <= F64.hundredths m2 e2.
Proof.
  intros P1 P2 Hle.
  pose proof (positive_finite_leb _ _ _ _ P1 P2 Hle) as Hord.
  set (c := Z.min (Z.min e1 e2) 0).
  rewrite (hundredths_rne m1 e1 c), (hundredths_rne m2 e2 c) by (unfold c; lia).
  assert (Hc1 : c <= e1) by (unfold c; lia).
  assert (Hc2 : c <= e2) by (unfold c; lia).
  assert (Hc0 : c <= 0) by (unfold c; lia).
  clearbody c.
  apply rne_mono; [apply pow2_pos; lia|].
  pose proof (scaled_le (Zpos m1) e1 (Zpos m2) e2 c ltac:(lia) ltac:(lia) Hord Hc1 Hc2).
  rewrite <- !Z.mul_assoc. apply Z.mul_le_mono_nonneg_l; lia.
Qed.

(** The nearest double of a quotient of positive integers. *)
Lemma nearest_quot_rnd_at (e0 : Z) (a b : positive) :
  e0 <= div_exp a 0 b 0 →
  e0 <= fexp (Zdigits2 ((Zpos a * 2 ^ (- e0)) / Zpos b) + e0)
  ∧ F64.nearest_quot false a b = rnd (Zpos a * 2 ^ (- e0)) (Zpos b) e0.
Proof.
  intros He0. unfold F64.nearest_quot.
  destruct (F64_div_rnd_at e0 a 0 b 0 He0) as [Hpre Heq].
  replace (0 - 0 - e0) with (- e0) in * by lia.
  split; [exact Hpre|exact Heq].
Qed.

Lemma nearest_quot_nonnegative (a b : positive) :
  nonnegative (F64.nearest_quot false a b) = true.
Proof.
  destruct (nearest_quot_rnd_at (div_exp a 0 b 0) a b ltac:(lia)) as [Hpre ->].
  destruct (div_exp_le a 0 b 0) as [Hl _].
  apply rnd_nonnegative; [|lia|exact Hpre].
  apply Z.mul_nonneg_nonneg; [lia|]. apply Z.lt_le_incl, pow2_pos. lia.
Qed.

Lemma nearest_quot_mono (a1 a2 b : positive) :
  (a1 <= a2)%positive →
  F64.leb (F64.nearest_quot false a1 b) (F64.nearest_quot false a2 b) = true.
Proof.
  intros Ha.
  destruct (div_exp_le a1 0 b 0) as [Hl1 _].
  destruct (div_exp_le a2 0 b 0) as [Hl2 _].
  set (e0 := Z.min (div_exp a1 0 b 0) (div_exp a2 0 b 0)).
  destruct (nearest_quot_rnd_at e0 a1 b ltac:(unfold e0; lia)) as [Hp1 ->].
  destruct (nearest_quot_rnd_at e0 a2 b ltac:(unfold e0; lia)) as [Hp2 ->].
  assert (He0 : e0 <= 0) by (unfold e0; lia). clearbody e0.
  pose proof (pow2_pos (- e0) ltac:(lia)) as Hpw.
  apply rnd_mono; [|lia|assumption|assumption].
  split; [lia|]. apply Z.mul_le_mono_nonneg_r; lia.
Qed.

Lemma round2_nonnegative (x : float) :
  nonnegative x = true → nonnegative (F64.round2 x) = true.
Proof.
  intros Hx. destruct (nonnegative_cases x Hx) as [->|[->|Px]]; try reflexivity.
  destruct x as [| | |[] m e]; try discriminate.
  cbn [F64.round2]. pose proof (hundredths_nonneg m e).
  destruct (F64.hundredths m e) as [|q|q]; [reflexivity| |lia].
  apply nearest_quot_nonnegative.
Qed.

Lemma round2_mono (x1 x2 : float) :
  nonnegative x1 = true → nonnegative x2 = true →
  F64.leb x1 x2 = true →
  F64.leb (F64.round2 x1) (F64.round2 x2) = true.
Proof.
  intros H1 H2 Hle.
  pose proof (round2_nonnegative x1 H1) as N1.
  pose proof (round2_nonnegative x2 H2) as N2.
  destruct (nonnegative_cases x1 H1) as [->|[->|P1]];
    destruct (nonnegative_cases x2 H2) as [->|[->|P2]];
    try reflexivity; try discriminate Hle.
  - now apply F64_leb_zero.
  - destruct x2 as [| | |[] m2 e2]; discriminate.
  - destruct x1 as [| | |[] m1 e1]; discriminate.
  - change (F64.round2 (S754_infinity false)) with F64.pinf. now apply F64_leb_pinf.
  - destruct x1 as [| | |[] m1 e1]; try discriminate.
    destruct x2 as [| | |[] m2 e2]; try discriminate.
    pose proof (hundredths_mono m1 e1 m2 e2 P1 P2 Hle) as Hh.
    pose proof (hundredths_nonneg m1 e1).
    cbn [F64.round2] in *.
    destruct (F64.hundredths m1 e1) as [|q1|q1]; [now apply F64_leb_zero| |lia].
    destruct (F64.hundredths m2 e2) as [|q2|q2]; [lia| |lia].
    apply nearest_quot_mono. lia.
Qed.

(** ** Converting an int *)

(** [binary_round] rounds the exact value [p * 2^e], written at the
    exponent where its first shift starts. *)
Lemma binary_round_rnd (p : positive) (e : Z) :
  Z.min e (fexp (Zdigits2 (Zpos p) + e))
  <= fexp (Zdigits2 ((Zpos p * 2 ^ (e - Z.min e (fexp (Zdigits2 (Zpos p) + e)))) / 1)
           + Z.min e (fexp (Zdigits2 (Zpos p) + e)))
  ∧ binary_round F64.prec F64.emax false p e
    = rnd (Zpos p * 2 ^ (e - Z.min e (fexp (Zdigits2 (Zpos p) + e)))) 1
          (Z.min e (fexp (Zdigits2 (Zpos p) + e))).
Proof.
  unfold binary_round, shl_align.
  change (Z.pos (digits2_pos p)) with (Zdigits2 (Zpos p)).
  change (SpecFloat.fexp F64.prec F64.emax) with fexp.
  remember (fexp (Zdigits2 (Zpos p) + e)) as F eqn:EF.
  rewrite Z.div_1_r.
  assert (Hrnd : ∀ N E, rnd N 1 E = binary_round_aux F64.prec F64.emax false N E loc_Exact).
  { intros N E. unfold rnd, loc_of. now rewrite Z.mod_1_r, Z.div_1_r. }
  destruct (F - e) as [|d|d] eqn:Ed.
  - replace (Z.min e F) with e by lia. replace (e - e) with 0 by lia.
    rewrite Z.pow_0_r, Z.mul_1_r. split; [lia|]. now rewrite Hrnd.
  - replace (Z.min e F) with e by lia. replace (e - e) with 0 by lia.
    rewrite Z.pow_0_r, Z.mul_1_r. split; [lia|]. now rewrite Hrnd.
  - replace (Z.min e F) with F by lia.
    assert (Hsh : Zpos (Pos.iter xO p d) = Zpos p * 2 ^ (e - F)).
    { change (Pos.iter xO p d) with (shift_pos d p).
      rewrite shift_pos_correct. replace (e - F) with (Zpos d) by lia.
      change (Z.pow_pos 2 d) with (2 ^ Zpos d). ring. }
    rewrite Hrnd, <- Hsh. split; [|reflexivity].
    rewrite Hsh.
    pose proof (pow2_pos (e - F) ltac:(lia)) as Hpw.
    rewrite (Z.mul_comm (Zpos p)).
    replace (Zdigits2 (2 ^ (e - F) * Z.pos p)) with (Zdigits2 (Zpos p) + (e - F)).
    + replace (Zdigits2 (Z.pos p) + (e - F) + F) with (Zdigits2 (Zpos p) + e) by lia. lia.
    + symmetry. apply Zdigits2_unique; try lia.
      destruct (Zdigits2_bounds (Zpos p) ltac:(lia)) as [Hlo Hhi].
      assert (1 <= Zdigits2 (Zpos p)) by (cbn; lia).
      replace (Zdigits2 (Z.pos p) + (e - F) - 1) with ((e - F) + (Zdigits2 (Zpos p) - 1)) by lia.
      replace (Zdigits2 (Z.pos p) + (e - F)) with ((e - F) + Zdigits2 (Zpos p)) by lia.
      rewrite !pow2_split by lia. split; nia.
Qed.

Lemma of_Z_rnd_at (e0 : Z) (p : positive) :
  e0 <= Z.min 0 (fexp (Zdigits2 (Zpos p))) →
  e0 <= fexp (Zdigits2 ((Zpos p * 2 ^ (- e0)) / 1) + e0)
  ∧ F64.of_Z (Zpos p) = rnd (Zpos p * 2 ^ (- e0)) 1 e0.
Proof.
  intros He0. unfold F64.of_Z, binary_normalize.
  destruct (binary_round_rnd p 0) as [Hpre ->].
  replace (Zdigits2 (Zpos p) + 0) with (Zdigits2 (Zpos p)) in * by lia.
  remember (Z.min 0 (fexp (Zdigits2 (Zpos p)))) as e' eqn:Ee'.
  assert (He' : e' <= 0) by lia. clear Ee'.
  replace (0 - e') with (- e') in * by lia.
  pose proof (pow2_pos (- e') ltac:(lia)) as Hpw.
  destruct (rnd_scale_exp (e' - e0) (Zpos p * 2 ^ (- e')) 1 e') as [Hq Heq]; try lia.
  replace (e' - (e' - e0)) with e0 in * by lia.
  replace (2 ^ (e' - e0) * (Z.pos p * 2 ^ (- e'))) with (Zpos p * 2 ^ (- e0)) in *.
  - split; [exact Hq|now rewrite Heq].
  - replace (- e0) with ((e' - e0) + (- e')) by lia. rewrite pow2_split by lia. ring.
Qed.

Lemma of_Z_nonnegative (n : Z) : 0 <= n → nonnegative (F64.of_Z n) = true.
Proof.
  intros Hn. destruct n as [|p|p]; [reflexivity| |lia].
  destruct (of_Z_rnd_at (Z.min 0 (fexp (Zdigits2 (Zpos p)))) p ltac:(lia)) as [Hpre ->].
  apply rnd_nonnegative; [|lia|exact Hpre].
  apply Z.mul_nonneg_nonneg; [lia|]. apply Z.lt_le_incl, pow2_pos. lia.
Qed.

(** The conversion keeps the order of non-negative ints. *)
Lemma of_Z_mono (n1 n2 : Z) :
  0 <= n1 <= n2 → F64.leb (F64.of_Z n1) (F64.of_Z n2) = true.
Proof.
  intros [H1 H12].
  destruct n1 as [|p1|p1]; [apply F64_leb_zero, of_Z_nonnegative; lia| |lia].
  destruct n2 as [|p2|p2]; [lia| |lia].
  set (e0 := Z.min (Z.min 0 (fexp (Zdigits2 (Zpos p1)))) (Z.min 0 (fexp (Zdigits2 (Zpos p2))))).
  destruct (of_Z_rnd_at e0 p1 ltac:(unfold e0; lia)) as [Hp1 ->].
  destruct (of_Z_rnd_at e0 p2 ltac:(unfold e0; lia)) as [Hp2 ->].
  assert (He0 : e0 <= 0) by (unfold e0; lia). clearbody e0.
  pose proof (pow2_pos (- e0) ltac:(lia)) as Hpw.
  apply rnd_mono; [|lia|assumption|assumption].
  split; [lia|]. apply Z.mul_le_mono_nonneg_r; lia.
Qed.

(** An int below [2^53] converts exactly, to a positive finite double. *)
Lemma of_Z_positive_finite (n : Z) :
  0 < n < 2 ^ 53 → F64.positive_finite (F64.of_Z n) = true.
Proof.
  intros [Hn Hlt]. destruct n as [|p|p]; try lia.
  destruct (Zdigits2_bounds (Zpos p) ltac:(lia)) as [Hlo Hhi].
  assert (Hd1 : 1 <= Zdigits2 (Zpos p)) by (cbn; lia).
  assert (Hd : Zdigits2 (Zpos p) <= 53) by (apply Zdigits2_lt_pow; lia).
  set (d := Zdigits2 (Zpos p)) in *.
  assert (Hf : fexp d = d - 53) by (rewrite fexp_eq; lia).
  destruct (of_Z_rnd_at (d - 53) p ltac:(fold d; lia)) as [Hpre E].
  replace (- (d - 53)) with (53 - d) in * by lia.
  set (N := Zpos p * 2 ^ (53 - d)) in *.
  assert (HN : 2 ^ 52 <= N < 2 ^ 53).
  { unfold N.
    assert (A : 2 ^ 52 = 2 ^ (d - 1) * 2 ^ (53 - d))
      by (rewrite <- pow2_split by lia; f_equal; lia).
    assert (B : 2 ^ 53 = 2 ^ d * 2 ^ (53 - d))
      by (rewrite <- pow2_split by lia; f_equal; lia).
    rewrite A, B.
    pose proof (pow2_pos (53 - d) ltac:(lia)). split; nia. }
  assert (HdN : Zdigits2 N = 53) by (apply Zdigits2_unique; [lia|exact HN]).
  assert (∃ q, rnd N 1 (d - 53) = S754_finite false q (d - 53)) as [q Hq].
  { rewrite rnd_norm_pack by (try assumption; lia).
    rewrite Z.div_1_r, HdN.
    replace (53 + (d - 53)) with d by lia. rewrite Hf.
    replace (d - 53 - (d - 53)) with 0 by lia.
    change (2 ^ 0 * 1) with 1.
    rewrite rne_exact by apply Z.mod_1_r. rewrite Z.div_1_r.
    unfold norm_pack.
    destruct (Z.eqb_spec N (2 ^ 53)) as [E53|_]; [lia|].
    unfold pack.
    destruct N as [|q|q]; try lia.
    destruct (Z.leb_spec (d - 53) (F64.emax - F64.prec)) as [_|Hbad];
      [|unfold F64.emax, F64.prec in Hbad; lia].
    now exists q. }
  rewrite E, Hq.
  apply (rnd_positive_finite N 1 (d - 53) false q (d - 53)); [lia|lia|exact Hpre|exact Hq].
Qed.

(** ** Ints that have a double *)

Lemma binary_round_aux_opp (s : bool) (m e : Z) (l : location) :
  binary_round_aux F64.prec F64.emax (negb s) m e l
  = SFopp (binary_round_aux F64.prec F64.emax s m e l).
Proof.
  unfold binary_round_aux.
  destruct (shr_fexp F64.prec F64.emax m e l) as [mrs' e'].
  destruct (shr_fexp F64.prec F64.emax _ e' loc_Exact) as [mrs'' e''].
  destruct (shr_m mrs''); try reflexivity.
  destruct (e'' <=? F64.emax - F64.prec); reflexivity.
Qed.

Lemma binary_round_opp (p : positive) (e : Z) :
  binary_round F64.prec F64.emax true p e = SFopp (binary_round F64.prec F64.emax false p e).
Proof.
  unfold binary_round. destruct (shl_align p e _) as [mz ez].
  exact (binary_round_aux_opp false (Zpos mz) ez loc_Exact).
Qed.

Lemma fits_double_opp (n : Z) : fits_double (- n) = fits_double n.
Proof.
  unfold fits_double, F64.of_Z.
  destruct n as [|p|p]; [reflexivity| |].
  - change (- Z.pos p) with (Z.neg p). unfold binary_normalize.
    rewrite binary_round_opp. destruct (binary_round _ _ false p 0) as [| | |]; reflexivity.
  - change (- Z.neg p) with (Z.pos p). unfold binary_normalize.
    rewrite binary_round_opp. destruct (binary_round _ _ false p 0) as [| | |]; reflexivity.
Qed.

Lemma double_limit_pos : 2 ^ 53 < double_limit.
Proof. vm_compute. reflexivity. Qed.

(** The largest double is the nearest one to [double_limit - 1], and
    [double_limit] itself rounds to infinity. *)
Lemma double_limit_rounds :
  F64.of_Z (double_limit - 1) = S754_finite false 9007199254740991 971
  ∧ F64.of_Z double_limit = S754_infinity false.
Proof. split; vm_compute; reflexivity. Qed.

Lemma fits_double_nonneg (n : Z) : 0 <= n → fits_double n = true ↔ n < double_limit.
Proof.
  intros Hn.
  destruct double_limit_rounds as [Emax Einf].
  pose proof double_limit_pos as Hpos.
  pose proof (of_Z_nonnegative n Hn) as Nn.
  unfold fits_double. split.
  - intros Hf. destruct (Z.lt_ge_cases n double_limit) as [|Hge]; [assumption|].
    pose proof (of_Z_mono double_limit n ltac:(lia)) as Hle.
    rewrite Einf in Hle.
    destruct (F64.of_Z n) as [[]|[]| |[] m e]; discriminate.
  - intros Hlt. pose proof (of_Z_mono n (double_limit - 1) ltac:(lia)) as Hle.
    rewrite Emax in Hle.
    destruct (F64.of_Z n) as [[]|[]| |[] m e]; try discriminate; reflexivity.
Qed.

(** An int has a double exactly when it is below [2^1024 - 2^970] in
    absolute value. *)
Lemma fits_double_iff (n : Z) : fits_double n = true ↔ Z.abs n < double_limit.
Proof.
  destruct (Z.le_gt_cases 0 n) as [Hn|Hn].
  - rewrite Z.abs_eq by lia. now apply fits_double_nonneg.
  - rewrite <- fits_double_opp, Z.abs_neq by lia. apply fits_double_nonneg. lia.
Qed.

Lemma fits_double_small (n : Z) : Z.abs n < 2 ^ 53 → fits_double n = true.
Proof.
  intros Hn. apply fits_double_iff. pose proof double_limit_pos. lia.
Qed.

Lemma py_float_fits (n : Z) : fits_double n = true → py_float n = Ok (F64.of_Z n).
Proof. unfold py_float. now intros ->. Qed.

Lemma py_float_raises (n : Z) : fits_double n = false → py_float n = Raise OverflowError.
Proof. unfold py_float. now intros ->. Qed.

Lemma py_float_small (n : Z) : Z.abs n < 2 ^ 53 → py_float n = Ok (F64.of_Z n).
Proof. intros Hn. apply py_float_fits, fits_double_small, Hn. Qed.

(** ** Calorie estimate: the handler *)

Lemma predict_calories_eq
    (duration : Z) (intensity : string) (weight age : Z) (gender workout_type : string) :
  predict_calories duration intensity weight age gender workout_type
  = if fits_double weight && fits_double duration
    then Ok (Spec.base_calories (F64.of_Z duration) intensity (F64.of_Z weight)
             * Spec.gender_factor gender * Spec.type_factor workout_type)%f64
    else Raise OverflowError.
Proof.
  unfold predict_calories, py_float.
  destruct (fits_double weight); [|reflexivity].
  destruct (fits_double duration); [|reflexivity].
  cbn [mbind result_bind andb].
  now rewrite calories_burned_base, gender_factor_eq, workout_factors_get.
Qed.

(** C1: for every duration, intensity string, weight and age the helper
    returns [round((MET * 3.5 * weight / 200) * duration, 2)], with MET
    read from the four-entry table and [6.0] for any other intensity;
    the button handler, which receives the duration and the weight as
    ints, returns that rounded base multiplied by the gender factor and
    then by the workout-type factor, [1.0] for a type outside the table.
    No lookup raises.  The one error of the handler is the
    [OverflowError] of converting an int that has no double, raised
    exactly when the weight or the duration reaches [2^1024 - 2^970] in
    absolute value. *)
Theorem calorie_estimate_formula
    (duration weight : float) (intensity : string) (age : Z)
    (slider_duration slider_weight : Z) (gender workout_type : string) :
  calculate_calories_burned duration intensity weight age
  = F64.round2 ((Spec.met intensity * F64.of_dec 35 1 * weight / F64.of_Z 200) * duration)%f64
  ∧ predict_calories slider_duration intensity slider_weight age gender workout_type
    = (if fits_double slider_weight && fits_double slider_duration
       then Ok (F64.round2 ((Spec.met intensity * F64.of_dec 35 1 * F64.of_Z slider_weight
                             / F64.of_Z 200) * F64.of_Z slider_duration)
                * Spec.gender_factor gender * Spec.type_factor workout_type)%f64
       else Raise OverflowError)
  ∧ (fits_double slider_weight && fits_double slider_duration = true
     ↔ Z.abs slider_weight < double_limit ∧ Z.abs slider_duration < double_limit).
Proof.
  split; [apply calories_burned_base|]. split; [apply predict_calories_eq|].
  rewrite andb_true_iff, !fits_double_iff. reflexivity.
Qed.

(** An int without a double: the handler raises at a weight of [10^400]. *)
Lemma predict_calories_overflow :
  predict_calories 45 "Medium" (10 ^ 400) 30 "Male" "Cardio" = Raise OverflowError.
Proof. vm_compute. reflexivity. Qed.

(** ** Weight projection: the handler *)

Lemma deficit_converts (goal : string) :
  goal ∈ ["Weight Loss"; "Maintenance"; "Muscle Gain"] →
  py_float (Spec.diet_delta goal * 7) = Ok (F64.of_Z (Spec.diet_delta goal * 7)).
Proof.
  rewrite !elem_of_cons, elem_of_nil.
  intros [->|[->|[->|[]]]]; vm_compute; reflexivity.
Qed.

(** The result of the projection for a goal of the table: the four
    quantities, or the error of an int without a double. *)
Lemma project_weight_eq (cw ww dur : Z) (goal : string) (weeks : Z) :
  goal ∈ ["Weight Loss"; "Maintenance"; "Muscle Gain"] →
  project_weight cw ww dur goal weeks
  = if fits_double cw && fits_double dur && fits_double ww && fits_double weeks
    then
      let burn :=
        (calculate_calories_burned (F64.of_Z dur) "Medium" (F64.of_Z cw) 30 * F64.of_Z ww)%f64 in
      let net := (burn + F64.of_Z (Spec.diet_delta goal * 7))%f64 in
      let change := (net / F64.of_Z 7700)%f64 in
      Ok {| weekly_cal_burn := burn;
            net_weekly := net;
            weight_change_per_week := change;
            projected_weight := (F64.of_Z cw + change * F64.of_Z weeks)%f64 |}
    else Raise OverflowError.
Proof.
  intros Hg. unfold project_weight.
  rewrite (py_index_Some _ _ _ (weekly_deficits_lookup _ Hg)).
  cbn [mbind result_bind]. rewrite (deficit_converts _ Hg).
  unfold py_float.
  destruct (fits_double cw); [|reflexivity].
  destruct (fits_double dur); [|reflexivity].
  destruct (fits_double ww); [|reflexivity].
  destruct (fits_double weeks); reflexivity.
Qed.

(** C3: for a diet goal of the table and ints that have a double (below
    [2^1024 - 2^970] in absolute value) the projection succeeds and its
    four quantities are: the weekly burn, the calorie estimate at intensity
    ["Medium"] and age [30] times the weekly workouts; the net weekly
    balance, the burn plus seven times the goal's daily delta; the weekly
    weight change, the balance over 7700; the final weight, the current
    weight plus the weekly change times the weeks. *)
Theorem project_weight_formula
    (current_weight weekly_workouts avg_duration : Z) (diet_goal : string) (weeks : Z) :
  diet_goal ∈ ["Weight Loss"; "Maintenance"; "Muscle Gain"] →
  Z.abs current_weight < double_limit → Z.abs weekly_workouts < double_limit →
  Z.abs avg_duration < double_limit → Z.abs weeks < double_limit →
  ∃ p,
    project_weight current_weight weekly_workouts avg_duration diet_goal weeks = Ok p
    ∧ weekly_cal_burn p
      = (calculate_calories_burned (F64.of_Z avg_duration) "Medium"
           (F64.of_Z current_weight) 30 * F64.of_Z weekly_workouts)%f64
    ∧ net_weekly p = (weekly_cal_burn p + F64.of_Z (Spec.diet_delta diet_goal * 7))%f64
    ∧ weight_change_per_week p = (net_weekly p / F64.of_Z 7700)%f64
    ∧ projected_weight p
      = (F64.of_Z current_weight + weight_change_per_week p * F64.of_Z weeks)%f64.
Proof.
  intros Hg Hcw Hww Hdur Hweeks. rewrite (project_weight_eq _ _ _ _ _ Hg).
  apply fits_double_iff in Hcw, Hww, Hdur, Hweeks.
  rewrite Hcw, Hww, Hdur, Hweeks. cbn [andb].
  eexists. split; [reflexivity|].
  cbn [weekly_cal_burn net_weekly weight_change_per_week projected_weight].
  repeat split.
Qed.

(** The specification's example [projectWeight(75, 4, 45, "Weight Loss", 12)]. *)
Lemma project_weight_formula_witness :
  ∃ p,
    project_weight 75 4 45 "Weight Loss" 12 = Ok p
    ∧ weekly_cal_burn p
      = (calculate_calories_burned (F64.of_Z 45) "Medium" (F64.of_Z 75) 30 * F64.of_Z 4)%f64
    ∧ net_weekly p = (weekly_cal_burn p + F64.of_Z (Spec.diet_delta "Weight Loss" * 7))%f64
    ∧ weight_change_per_week p = (net_weekly p / F64.of_Z 7700)%f64
    ∧ projected_weight p
      = (F64.of_Z 75 + weight_change_per_week p * F64.of_Z 12)%f64.
Proof.
  apply (project_weight_formula 75 4 45 "Weight Loss" 12);
    [constructor|vm_compute; reflexivity..].
Defined.

(** An int without a double: the projection raises at a weight of
    [10^400]. *)
Lemma project_weight_overflow :
  project_weight (10 ^ 400) 4 45 "Weight Loss" 12 = Raise OverflowError.
Proof. vm_compute. reflexivity. Qed.

(** ** Body mass index: the widget inputs *)

Lemma F64_ltb_trans (x y z : float) :
  F64.ltb x y = true → F64.ltb y z = true → F64.ltb x z = true.
Proof.
  unfold F64.ltb, SFltb, SFcompare.
  destruct x as [sx|sx| |sx mx ex], y as [sy|sy| |sy my ey], z as [sz|sz| |sz mz ez];
    repeat match goal with s : bool |- _ => destruct s end;
    try discriminate; try reflexivity;
    change (Pos.compare_cont Eq) with Pos.compare;
    destruct (Z.compare_spec ex ey), (Z.compare_spec ey ez), (Z.compare_spec ex ez);
    try lia; try discriminate; try reflexivity; subst;
    destruct (Pos.compare_spec mx my), (Pos.compare_spec my mz), (Pos.compare_spec mx mz);
    cbn; try lia; try discriminate; try reflexivity.
Qed.

Lemma ascending_spec (f : nat → float) (n : nat) :
  Bmi.ascending f n = true →
  ∀ i j : nat, (i < j <= n)%nat → F64.ltb (f i) (f j) = true.
Proof.
  induction n as [|n IH]; intros Hasc i j Hij; [lia|].
  cbn [Bmi.ascending] in Hasc. apply andb_true_iff in Hasc as [Hasc Hlast].
  destruct (decide (j = S n)) as [->|Hj]; [|apply IH; [assumption|lia]].
  destruct (decide (i = n)) as [->|Hi]; [assumption|].
  apply F64_ltb_trans with (f n); [apply IH; [assumption|lia]|assumption].
Qed.

Lemma descending_spec (f : nat → float) (n : nat) :
  Bmi.descending f n = true →
  ∀ i j : nat, (i < j <= n)%nat → F64.ltb (f j) (f i) = true.
Proof.
  induction n as [|n IH]; intros Hdesc i j Hij; [lia|].
  cbn [Bmi.descending] in Hdesc. apply andb_true_iff in Hdesc as [Hdesc Hlast].
  destruct (decide (j = S n)) as [->|Hj]; [|apply IH; [assumption|lia]].
  destruct (decide (i = n)) as [->|Hi]; [assumption|].
  apply F64_ltb_trans with (f n); [assumption|apply IH; [assumption|lia]].
Qed.

(** The call on a height of the grid kind, for a library that rounds
    its square correctly: the int or float weight is converted and
    divided by the rounded square. *)
Lemma calculate_bmi_regular `{Libm} (w : number) (h : float) :
  Bmi.square_is_regular h = true → pow_two h = (h * h)%f64 →
  calculate_bmi w h = (x ← as_float w; Ok (x / (h * h))%f64).
Proof.
  unfold Bmi.square_is_regular, calculate_bmi, py_square, libm_square.
  destruct h as [| | |[] m e]; try discriminate.
  destruct (S754_finite false m e * S754_finite false m e)%f64 as [| | |s' m' e'] eqn:E;
    try discriminate.
  intros Hne Hpow. apply andb_true_iff in Hne as [Hne _].
  apply andb_true_iff in Hne as [Hne _]. apply negb_true_iff in Hne. rewrite Hne, Hpow.
  cbn [mbind result_bind]. unfold py_truediv.
  destruct (as_float w); reflexivity.
Qed.

(** The whole table, checked by evaluation: 81 heights by 161 weights. *)
Lemma grid_checked :
  forallb (fun i : nat => Bmi.square_is_regular (Bmi.height_m (140 + Z.of_nat i)))
    (seq 0 81) = true
  ∧ forallb (fun i : nat => Bmi.ascending (fun j => Bmi.entry Bmi.table i j) 160)
      (seq 0 81) = true
  ∧ forallb (fun j : nat => Bmi.descending (fun i => Bmi.entry Bmi.table i j) 80)
      (seq 0 161) = true.
Proof. vm_compute. repeat split. Qed.

Lemma nth_map_seq {A : Type} (f : nat → A) (d : A) (n i : nat) :
  (i < n)%nat → nth i (map f (seq 0 n)) d = f i.
Proof.
  intros Hi. rewrite (nth_indep _ d (f O)) by (now rewrite length_map, length_seq).
  now rewrite map_nth, seq_nth.
Qed.

Lemma table_entry (i j : nat) :
  (i < 81)%nat → (j < 161)%nat →
  Bmi.entry Bmi.table i j
  = (Bmi.weight_kg (40 + Z.of_nat j) / Bmi.square i)%f64.
Proof.
  intros Hi Hj. unfold Bmi.entry, Bmi.table, Bmi.squares, Bmi.weights.
  rewrite map_map, nth_map_seq by assumption.
  rewrite map_map. now rewrite nth_map_seq.
Qed.

Lemma grid_facts :
  (∀ i : nat, (i < 81)%nat →
     Bmi.square_is_regular (Bmi.height_m (140 + Z.of_nat i)) = true)
  ∧ (∀ i : nat, (i < 81)%nat → Bmi.ascending (fun j => Bmi.entry Bmi.table i j) 160 = true)
  ∧ (∀ j : nat, (j < 161)%nat → Bmi.descending (fun i => Bmi.entry Bmi.table i j) 80 = true).
Proof.
  destruct grid_checked as (H1 & H2 & H3).
  pose proof (proj1 (forallb_forall _ _) H1) as R1.
  pose proof (proj1 (forallb_forall _ _) H2) as R2.
  pose proof (proj1 (forallb_forall _ _) H3) as R3.
  repeat split; intros i Hi; [apply R1|apply R2|apply R3]; apply in_seq; lia.
Qed.

(** On the widget inputs the quotients are strictly ordered. *)
Lemma grid_weight_order (w w' cm : Z) :
  40 <= w → w < w' → w' <= 200 → 140 <= cm <= 220 →
  let h := Bmi.height_m cm in
  F64.ltb (Bmi.weight_kg w / (h * h))%f64 (Bmi.weight_kg w' / (h * h))%f64 = true.
Proof.
  intros Hw Hlt Hw' Hcm h.
  destruct grid_facts as (_ & Hasc & _).
  pose proof (ascending_spec _ _ (Hasc (Z.to_nat (cm - 140)) ltac:(lia))
                (Z.to_nat (w - 40)) (Z.to_nat (w' - 40)) ltac:(lia)) as H.
  cbv beta in H. rewrite !table_entry in H by lia. unfold Bmi.square in H. cbv zeta in H.
  replace (140 + Z.of_nat (Z.to_nat (cm - 140))) with cm in H by lia.
  replace (40 + Z.of_nat (Z.to_nat (w - 40))) with w in H by lia.
  replace (40 + Z.of_nat (Z.to_nat (w' - 40))) with w' in H by lia.
  exact H.
Qed.

Lemma grid_height_order (w cm cm' : Z) :
  40 <= w <= 200 → 140 <= cm → cm < cm' → cm' <= 220 →
  let h := Bmi.height_m cm in
  let h' := Bmi.height_m cm' in
  F64.ltb (Bmi.weight_kg w / (h' * h'))%f64 (Bmi.weight_kg w / (h * h))%f64 = true.
Proof.
  intros Hw Hcm Hlt Hcm' h h'.
  destruct grid_facts as (_ & _ & Hdesc).
  pose proof (descending_spec _ _ (Hdesc (Z.to_nat (w - 40)) ltac:(lia))
                (Z.to_nat (cm - 140)) (Z.to_nat (cm' - 140)) ltac:(lia)) as H.
  cbv beta in H. rewrite !table_entry in H by lia. unfold Bmi.square in H. cbv zeta in H.
  replace (140 + Z.of_nat (Z.to_nat (cm - 140))) with cm in H by lia.
  replace (140 + Z.of_nat (Z.to_nat (cm' - 140))) with cm' in H by lia.
  replace (40 + Z.of_nat (Z.to_nat (w - 40))) with w in H by lia.
  exact H.
Qed.

Lemma grid_regular (cm : Z) :
  140 <= cm <= 220 → Bmi.square_is_regular (Bmi.height_m cm) = true.
Proof.
  intros Hcm. destruct grid_facts as (Hreg & _ & _).
  specialize (Hreg (Z.to_nat (cm - 140)) ltac:(lia)).
  now replace (140 + Z.of_nat (Z.to_nat (cm - 140))) with cm in Hreg by lia.
Qed.

Lemma grid_squares_positive `{Libm} : Bmi.grid_squares → Bmi.grid_positive.
Proof.
  intros Hgrid cm Hcm. rewrite (Hgrid cm Hcm).
  pose proof (grid_regular cm Hcm) as Hreg. unfold Bmi.square_is_regular in Hreg.
  destruct (Bmi.height_m cm) as [| | |[] m e]; try discriminate.
  destruct (S754_finite false m e * S754_finite false m e)%f64 as [| | |s' m' e'];
    try discriminate.
  now apply andb_true_iff in Hreg as [_ Hreg].
Qed.

Lemma rounding_libm_grid_positive : @Bmi.grid_positive rounding_libm.
Proof. apply grid_squares_positive. intros cm _. reflexivity. Qed.

(** The call on an int weight and a height of the grid. *)
Lemma calculate_bmi_grid `{Libm} (w cm : Z) :
  Bmi.grid_squares → Z.abs w < 2 ^ 53 → 140 <= cm <= 220 →
  let h := Bmi.height_m cm in
  calculate_bmi (Int w) h = Ok (Bmi.weight_kg w / (h * h))%f64.
Proof.
  intros Hgrid Hw Hcm h.
  rewrite (calculate_bmi_regular _ h (grid_regular cm Hcm) (Hgrid cm Hcm)).
  cbn [as_float]. now rewrite py_float_small.
Qed.

(** ** Body mass index: the claim and its amendment *)

(** At a height of [1.0] CPython answers the square itself. *)
Lemma calculate_bmi_at_one `{Libm} (w : number) :
  calculate_bmi w F64.one = (x ← as_float w; Ok (x / F64.one)%f64).
Proof.
  unfold calculate_bmi, py_truediv. destruct (as_float w); reflexivity.
Qed.

(** At an infinite height the square is infinite. *)
Lemma calculate_bmi_at_infinity `{Libm} (w : number) :
  calculate_bmi w F64.pinf = (x ← as_float w; Ok (x / F64.pinf)%f64).
Proof.
  unfold calculate_bmi, py_truediv. destruct (as_float w); reflexivity.
Qed.

(** The result when the library's square of a positive finite height is
    known. *)
Lemma calculate_bmi_cases `{Libm} (w : number) (h : float) :
  F64.positive_finite h = true →
  calculate_bmi w h
  = match libm_square h with
    | S754_infinity _ => Raise OverflowError
    | s => x ← as_float w;
           if F64.is_zero s then Raise ZeroDivisionError else Ok (x / s)%f64
    end.
Proof.
  destruct h as [| | |[] m e]; try discriminate. intros _.
  unfold calculate_bmi, py_square.
  destruct (libm_square (S754_finite false m e)); reflexivity.
Qed.

Lemma calculate_bmi_ok `{Libm} (w : number) (h b : float) :
  F64.positive_finite h = true →
  F64.positive_finite (libm_square h) = true →
  calculate_bmi w h = Ok b →
  ∃ x, as_float w = Ok x ∧ b = (x / libm_square h)%f64.
Proof.
  intros Ph Ps. rewrite (calculate_bmi_cases w h Ph).
  destruct (libm_square h) as [| | |[] ms es]; try discriminate.
  destruct (as_float w) as [x|]; [|discriminate].
  cbn [mbind result_bind F64.is_zero]. intros E. injection E as <-. now exists x.
Qed.

(** C8, refuted in each part, whatever the C library.  A weight of
    [10^400] has no double and the division raises [OverflowError]; the
    weights [2^53] and [2^53 + 1] convert to the same double and give the
    same BMI at height [1.0]; an infinite weight gives an infinite BMI
    at height [1.0] and NaN at an infinite height, which is not below
    it.  With a library whose square of [1e-200] underflows to zero the
    call raises [ZeroDivisionError]; with one whose square of [1e200]
    overflows it raises [OverflowError]; with one that squares [1.8] to
    the nearest double the weights [60.0] and [60.00000000000001] give
    the same BMI; and with one that squares [1.8000000000000003] and
    [1.8000000000000005] to the nearest doubles these two heights give
    the same BMI at weight [70]. *)
Lemma bmi_refuted :
  (∀ L : Libm, ¬ @Bmi.returns_quotient L)
  ∧ (∀ L : Libm, ¬ @Bmi.strictly_increasing_in_weight L)
  ∧ (∀ L : Libm, ¬ @Bmi.strictly_decreasing_in_height L)
  ∧ (∀ L : Libm, ¬ @Bmi.as_stated L)
  ∧ (∀ L : Libm, @calculate_bmi L (Int (10 ^ 400)) F64.one = Raise OverflowError)
  ∧ (∀ L : Libm,
       @pow_two L (F64.of_dec 1 200) = S754_zero false →
       @calculate_bmi L (Int 70) (F64.of_dec 1 200) = Raise ZeroDivisionError)
  ∧ (∀ L : Libm,
       @pow_two L (F64.of_Z (10 ^ 200)) = S754_infinity false →
       @calculate_bmi L (Int 70) (F64.of_Z (10 ^ 200)) = Raise OverflowError)
  ∧ (∀ L : Libm,
       @pow_two L (F64.of_dec 18 1) = (F64.of_dec 18 1 * F64.of_dec 18 1)%f64 →
       @calculate_bmi L (Float (F64.of_Z 60)) (F64.of_dec 18 1)
       = Ok (S754_finite false 5212499568715852 (-48))
       ∧ @calculate_bmi L (Float (S754_finite false 8444249301319681 (-47))) (F64.of_dec 18 1)
         = Ok (S754_finite false 5212499568715852 (-48)))
  ∧ (∀ L : Libm,
       let h1 := S754_finite false 8106479329266894 (-52) in
       let h2 := S754_finite false 8106479329266895 (-52) in
       @pow_two L h1 = (h1 * h1)%f64 → @pow_two L h2 = (h2 * h2)%f64 →
       @calculate_bmi L (Int 70) h1 = Ok (S754_finite false 6081249496835158 (-48))
       ∧ @calculate_bmi L (Int 70) h2 = Ok (S754_finite false 6081249496835158 (-48))).
Proof.
  assert (H1 : ∀ L : Libm, ¬ @Bmi.returns_quotient L).
  { intros L H.
    destruct (H (Int (10 ^ 400)) F64.one) as (x & s & E & _);
      [vm_compute; reflexivity..|].
    vm_compute in E. discriminate E. }
  assert (H2 : ∀ L : Libm, ¬ @Bmi.strictly_increasing_in_weight L).
  { intros L H.
    specialize (H (Int (2 ^ 53)) (Int (2 ^ 53 + 1)) F64.one
                  (F64.of_Z (2 ^ 53)) (F64.of_Z (2 ^ 53))).
    rewrite !calculate_bmi_at_one in H.
    assert (E : F64.ltb (F64.of_Z (2 ^ 53)) (F64.of_Z (2 ^ 53)) = false)
      by (vm_compute; reflexivity).
    rewrite H in E; [discriminate E|vm_compute; reflexivity..]. }
  assert (H3 : ∀ L : Libm, ¬ @Bmi.strictly_decreasing_in_height L).
  { intros L H.
    specialize (H (Float F64.pinf) F64.one F64.pinf F64.pinf F64.nan).
    rewrite calculate_bmi_at_one, calculate_bmi_at_infinity in H.
    assert (E : F64.ltb F64.nan F64.pinf = false) by (vm_compute; reflexivity).
    rewrite H in E; [discriminate E|vm_compute; reflexivity..]. }
  split; [exact H1|]. split; [exact H2|]. split; [exact H3|].
  split; [intros L (H & _); exact (H1 L H)|].
  split; [intros L; rewrite calculate_bmi_at_one; vm_compute; reflexivity|].
  split; [|split; [|split]].
  - intros L E. rewrite calculate_bmi_cases by (vm_compute; reflexivity).
    unfold libm_square.
    change (F64.eqb (F64.of_dec 1 200) F64.one) with false. cbv iota.
    rewrite E. vm_compute. reflexivity.
  - intros L E. rewrite calculate_bmi_cases by (vm_compute; reflexivity).
    unfold libm_square.
    change (F64.eqb (F64.of_Z (10 ^ 200)) F64.one) with false. cbv iota.
    rewrite E. reflexivity.
  - intros L E.
    rewrite !(calculate_bmi_regular _ (F64.of_dec 18 1)) by (first [exact E|vm_compute; reflexivity]).
    split; vm_compute; reflexivity.
  - intros L h1 h2 E1 E2.
    rewrite (calculate_bmi_regular _ h1) by (first [exact E1|vm_compute; reflexivity]).
    rewrite (calculate_bmi_regular _ h2) by (first [exact E2|vm_compute; reflexivity]).
    split; vm_compute; reflexivity.
Qed.

(** On the widget inputs, with a library that rounds the 81 squares
    correctly, the call succeeds and is strictly monotone. *)
Lemma bmi_on_widget_inputs `{Libm} (w cm : Z) :
  Bmi.grid_squares → 40 <= w <= 200 → 140 <= cm <= 220 →
  let h := Bmi.height_m cm in
  calculate_bmi (Int w) h = Ok (Bmi.weight_kg w / (h * h))%f64
  ∧ (∀ w' b b', w < w' <= 200 →
       calculate_bmi (Int w) h = Ok b →
       calculate_bmi (Int w') h = Ok b' →
       F64.ltb b b' = true)
  ∧ (∀ cm' b b', cm < cm' <= 220 →
       calculate_bmi (Int w) h = Ok b →
       calculate_bmi (Int w) (Bmi.height_m cm') = Ok b' →
       F64.ltb b' b = true).
Proof.
  intros Hgrid Hw Hcm h.
  pose proof (calculate_bmi_grid w cm Hgrid ltac:(lia) Hcm) as Hb.
  split; [exact Hb|]. split.
  - intros w' b b' Hw' E E'.
    unfold h in E, E'. rewrite Hb in E.
    rewrite (calculate_bmi_grid w' cm Hgrid ltac:(lia) Hcm) in E'.
    injection E as <-. injection E' as <-.
    apply (grid_weight_order w w' cm); lia.
  - intros cm' b b' Hcm' E E'.
    unfold h in E. rewrite Hb in E.
    rewrite (calculate_bmi_grid w cm' Hgrid ltac:(lia) ltac:(lia)) in E'.
    injection E as <-. injection E' as <-.
    apply (grid_height_order w cm cm'); lia.
Qed.

(** C8, amended.  For a positive finite height the result is fixed by
    [s], the C library's square of the height: [OverflowError] when [s]
    is infinite; otherwise the weight is converted, with [OverflowError]
    for an int without a double, and the call raises
    [ZeroDivisionError] when [s] is zero and returns the IEEE quotient of
    the weight by [s] when it is not.  Where [s] is a positive finite
    double the result is non-decreasing in the weight, on non-negative
    floats and on positive ints, and between two heights whose squares
    the library orders it is non-increasing in the height.  With a
    library that rounds correctly the squares of the 81 heights that the
    widget supplies, 1.40 to 2.20 metres in whole centimetres, a weight
    of 40 to 200 whole kilograms raises nothing, the result is the
    quotient by the rounded square, strictly increasing in the weight and
    strictly decreasing in the height. *)
Theorem bmi_monotone `{Libm} :
  (∀ (w : number) (h : float), F64.positive_finite h = true →
     calculate_bmi w h
     = match libm_square h with
       | S754_infinity _ => Raise OverflowError
       | s => x ← as_float w;
              if F64.is_zero s then Raise ZeroDivisionError else Ok (x / s)%f64
       end)
  ∧ (∀ w1 w2 h b1 b2 : float,
       nonnegative w1 = true → nonnegative w2 = true →
       F64.positive_finite h = true → F64.positive_finite (libm_square h) = true →
       F64.leb w1 w2 = true →
       calculate_bmi (Float w1) h = Ok b1 → calculate_bmi (Float w2) h = Ok b2 →
       F64.leb b1 b2 = true)
  ∧ (∀ (n1 n2 : Z) (h b1 b2 : float),
       0 < n1 <= n2 →
       F64.positive_finite h = true → F64.positive_finite (libm_square h) = true →
       calculate_bmi (Int n1) h = Ok b1 → calculate_bmi (Int n2) h = Ok b2 →
       F64.leb b1 b2 = true)
  ∧ (∀ (w : number) (x h1 h2 b1 b2 : float),
       as_float w = Ok x → F64.positive_finite x = true →
       F64.positive_finite h1 = true → F64.positive_finite h2 = true →
       F64.positive_finite (libm_square h1) = true →
       F64.positive_finite (libm_square h2) = true →
       F64.leb (libm_square h1) (libm_square h2) = true →
       calculate_bmi w h1 = Ok b1 → calculate_bmi w h2 = Ok b2 →
       F64.leb b2 b1 = true)
  ∧ (Bmi.grid_squares →
     ∀ w cm : Z, 40 <= w <= 200 → 140 <= cm <= 220 →
       let h := Bmi.height_m cm in
       calculate_bmi (Int w) h = Ok (Bmi.weight_kg w / (h * h))%f64
       ∧ (∀ w' b b', w < w' <= 200 →
            calculate_bmi (Int w) h = Ok b →
            calculate_bmi (Int w') h = Ok b' →
            F64.ltb b b' = true)
       ∧ (∀ cm' b b', cm < cm' <= 220 →
            calculate_bmi (Int w) h = Ok b →
            calculate_bmi (Int w) (Bmi.height_m cm') = Ok b' →
            F64.ltb b' b = true)).
Proof.
  split; [exact calculate_bmi_cases|]. split; [|split; [|split]].
  - intros w1 w2 h b1 b2 N1 N2 Ph Ps Hle E1 E2.
    destruct (calculate_bmi_ok _ _ _ Ph Ps E1) as (x1 & X1 & ->).
    destruct (calculate_bmi_ok _ _ _ Ph Ps E2) as (x2 & X2 & ->).
    cbn [as_float] in X1, X2. injection X1 as <-. injection X2 as <-.
    apply F64_div_nonnegative_mono; assumption.
  - intros n1 n2 h b1 b2 Hn Ph Ps E1 E2.
    destruct (calculate_bmi_ok _ _ _ Ph Ps E1) as (x1 & X1 & ->).
    destruct (calculate_bmi_ok _ _ _ Ph Ps E2) as (x2 & X2 & ->).
    cbn [as_float] in X1, X2. unfold py_float in X1, X2.
    destruct (fits_double n1); [|discriminate]. destruct (fits_double n2); [|discriminate].
    injection X1 as <-. injection X2 as <-.
    apply F64_div_nonnegative_mono; try assumption;
      [apply of_Z_nonnegative; lia|apply of_Z_nonnegative; lia|apply of_Z_mono; lia].
  - intros w x h1 h2 b1 b2 X Px P1 P2 S1 S2 Hle E1 E2.
    destruct (calculate_bmi_ok _ _ _ P1 S1 E1) as (x1 & X1 & ->).
    destruct (calculate_bmi_ok _ _ _ P2 S2 E2) as (x2 & X2 & ->).
    rewrite X in X1, X2. injection X1 as <-. injection X2 as <-.
    apply F64_div_mono_r; assumption.
  - intros Hgrid w cm Hw Hcm. exact (bmi_on_widget_inputs w cm Hgrid Hw Hcm).
Qed.

(** With correctly rounded squares, at 1.75 m the weights of 70 kg and
    71 kg give [22.857142857142858 < 23.183673469387756]. *)
Lemma bmi_monotone_witness :
  F64.ltb (F64.of_dec 22857142857142858 15) (F64.of_dec 23183673469387756 15) = true.
Proof.
  refine (proj1 (proj2 (proj2 (proj2 (proj2 (proj2 (@bmi_monotone rounding_libm))))
             (fun cm _ => eq_refl) 70 175 _ _)) 71 _ _ _ _ _).
  - lia.
  - lia.
  - lia.
  - vm_compute. reflexivity.
  - vm_compute. reflexivity.
Defined.

(** The value at the defaults, [22.857142857142858]. *)
Lemma bmi_default_value `{Libm} :
  Bmi.grid_squares →
  calculate_bmi (Int 70) (Bmi.height_m 175) = Ok (F64.of_dec 22857142857142858 15).
Proof.
  intros Hgrid. rewrite (calculate_bmi_grid 70 175 Hgrid) by lia.
  vm_compute. reflexivity.
Qed.

(** * Further properties of the code *)

(** ** Archetype profiles *)

Lemma profiles_lookup_outside (cluster_id : Z) :
  ¬ (0 <= cluster_id <= 4) → profiles !! cluster_id = None.
Proof.
  intros Hc. unfold profiles, py_dict. cbn [foldl fst snd].
  repeat (rewrite lookup_insert; case_decide; [lia|]).
  apply lookup_empty.
Qed.

Lemma profiles_lookup_inside (cluster_id : Z) :
  0 <= cluster_id <= 4 → is_Some (profiles !! cluster_id).
Proof.
  intros Hc.
  assert (cluster_id = 0 ∨ cluster_id = 1 ∨ cluster_id = 2 ∨ cluster_id = 3 ∨ cluster_id = 4)
    as [->|[->|[->|[->| ->]]]] by lia;
    unfold profiles, py_dict; cbn [foldl fst snd];
    repeat (rewrite lookup_insert;
            case_decide; [try (exfalso; discriminate) | try (exfalso; congruence)]);
    eexists; reflexivity.
Qed.

Lemma get_fitness_cluster_profile_eq (cluster_id : Z) :
  ∃ enthusiasts,
    profiles !! 2 = Some enthusiasts
    ∧ get_fitness_cluster_profile cluster_id = Ok (py_get profiles cluster_id enthusiasts).
Proof.
  destruct (profiles_lookup_inside 2 ltac:(lia)) as [p Hp].
  exists p. split; [exact Hp|].
  unfold get_fitness_cluster_profile. now rewrite (py_index_Some _ _ _ Hp).
Qed.

(** X1: [get_fitness_cluster_profile] never raises: for an id from 0 to 4 it
    returns that id's entry of the table, and for every other id the entry
    of cluster 2, Fitness Enthusiasts. *)
Theorem cluster_profile_fallback (cluster_id : Z) :
  ∃ p, get_fitness_cluster_profile cluster_id = Ok p
       ∧ ((0 <= cluster_id <= 4 ∧ profiles !! cluster_id = Some p)
          ∨ (¬ (0 <= cluster_id <= 4) ∧ profiles !! 2 = Some p
             ∧ name p = "🎯 Fitness Enthusiasts")).
Proof.
  destruct (get_fitness_cluster_profile_eq cluster_id) as (dflt & Hd & ->).
  destruct (decide (0 <= cluster_id <= 4)) as [Hc|Hc].
  - destruct (profiles_lookup_inside _ Hc) as [p Hp].
    exists p. rewrite (py_get_Some _ _ _ _ Hp). split; [reflexivity|]. left. now split.
  - exists dflt. unfold py_get. rewrite (profiles_lookup_outside _ Hc). cbn [default].
    split; [reflexivity|]. right. split; [exact Hc|]. split; [exact Hd|].
    revert Hd. unfold profiles, py_dict; cbn [foldl fst snd].
    repeat (rewrite lookup_insert;
            case_decide; [try (exfalso; discriminate) | try (exfalso; congruence)]).
    now intros [= <-].
Qed.

(** ** The profile page *)

Lemma assign_cluster_range
    (bmi : float) (bpm : Z) (experience : string)
    (duration frequency : Z) (intensity : string) :
  0 <= assign_cluster bmi bpm experience duration frequency intensity <= 4.
Proof.
  unfold assign_cluster.
  repeat case_bool_decide; try lia.
  destruct (F64.ltb _ _); lia.
Qed.

Lemma cluster_scores_lookup (cluster : Z) :
  0 <= cluster <= 4 →
  ∃ scores, cluster_scores !! cluster = Some scores
            ∧ length scores = length attributes
            ∧ Forall (fun s => 0 <= s <= 100) scores.
Proof.
  intros Hc.
  assert (cluster = 0 ∨ cluster = 1 ∨ cluster = 2 ∨ cluster = 3 ∨ cluster = 4)
    as [->|[->|[->|[->| ->]]]] by lia;
    (eexists; split; [reflexivity|]; split; [reflexivity|]);
    repeat constructor; lia.
Qed.

(** Once the BMI is there, the page finds a profile and five scores. *)
Lemma fitness_profile_page_ok `{Libm}
    (user_weight : Z) (user_height : float) (user_bpm : Z) (user_experience : string)
    (user_duration user_frequency : Z) (user_intensity : string) (bmi : float) :
  calculate_bmi (Int user_weight) user_height = Ok bmi →
  ∃ profile scores,
    fitness_profile_page user_weight user_height user_bpm user_experience
      user_duration user_frequency user_intensity
    = Ok (assign_cluster bmi user_bpm user_experience user_duration user_frequency
            user_intensity, profile, scores)
    ∧ profiles !! assign_cluster bmi user_bpm user_experience user_duration user_frequency
                    user_intensity = Some profile
    ∧ cluster_scores !! assign_cluster bmi user_bpm user_experience user_duration
                          user_frequency user_intensity = Some scores
    ∧ length scores = length attributes
    ∧ Forall (fun s => 0 <= s <= 100) scores.
Proof.
  intros Hbmi. unfold fitness_profile_page, find_fitness_profile. rewrite Hbmi.
  cbn [mbind result_bind].
  pose proof (assign_cluster_range bmi user_bpm user_experience user_duration
                user_frequency user_intensity) as Hc.
  set (cluster := assign_cluster _ _ _ _ _ _) in *. clearbody cluster.
  destruct (profiles_lookup_inside _ Hc) as [p Hp].
  destruct (cluster_scores_lookup _ Hc) as (s & Hs & Hlen & Hall).
  exists p, s.
  destruct (get_fitness_cluster_profile_eq cluster) as (dflt & _ & ->).
  cbn [mbind result_bind].
  rewrite (py_get_Some _ _ _ _ Hp), (py_index_Some _ _ _ Hs). cbn [mbind result_bind].
  repeat (split; [first [reflexivity|assumption]|]). assumption.
Qed.

(** X2: the profile page fails only where the BMI does.  When
    [calculate_bmi] raises, the page raises the same exception; otherwise
    it shows the cluster chosen by the rules, that cluster's own profile
    (the fallback of the lookup is never used) and its radar scores, one
    per attribute, each between 0 and 100. *)
Theorem fitness_profile_page_total `{Libm}
    (user_weight : Z) (user_height : float) (user_bpm : Z) (user_experience : string)
    (user_duration user_frequency : Z) (user_intensity : string) :
  match calculate_bmi (Int user_weight) user_height with
  | Raise e =>
      fitness_profile_page user_weight user_height user_bpm user_experience
        user_duration user_frequency user_intensity = Raise e
  | Ok bmi =>
      let cluster :=
        assign_cluster bmi user_bpm user_experience user_duration user_frequency
          user_intensity in
      ∃ profile scores,
        fitness_profile_page user_weight user_height user_bpm user_experience
          user_duration user_frequency user_intensity = Ok (cluster, profile, scores)
        ∧ profiles !! cluster = Some profile
        ∧ cluster_scores !! cluster = Some scores
        ∧ length scores = length attributes
        ∧ Forall (fun s => 0 <= s <= 100) scores
  end.
Proof.
  destruct (calculate_bmi (Int user_weight) user_height) as [bmi|e] eqn:Hbmi.
  - cbv zeta. now apply fitness_profile_page_ok.
  - unfold fitness_profile_page, find_fitness_profile. now rewrite Hbmi.
Qed.

(** X3: what the experience level decides.  A Beginner is always placed in
    cluster 3 and an Intermediate in cluster 2 or 3 by the weekly
    frequency alone, so for them neither the BMI nor the heart rate
    matters; cluster 0 needs an Elite above 175 BPM and 60 minutes;
    cluster 1 an Advanced or Elite at High or Very High intensity; cluster
    4 is reached only with a BMI above 30, at least three workouts a week,
    an experience that is neither Beginner nor Intermediate, and rule 2
    failing. *)
Theorem cluster_by_experience
    (bmi : float) (bpm : Z) (experience : string)
    (duration frequency : Z) (intensity : string) :
  let cluster := assign_cluster bmi bpm experience duration frequency intensity in
  (experience = "Beginner" → cluster = 3)
  ∧ (experience = "Intermediate" → cluster = if 3 <=? frequency then 2 else 3)
  ∧ (cluster = 0 → experience = "Elite" ∧ 175 < bpm ∧ 60 < duration)
  ∧ (cluster = 1 → experience ∈ ["Advanced"; "Elite"] ∧ intensity ∈ ["High"; "Very High"])
  ∧ (cluster = 4 →
     experience ≠ "Beginner" ∧ experience ≠ "Intermediate" ∧ 3 <= frequency
     ∧ F64.ltb (F64.of_Z 30) bmi = true
     ∧ ¬ (experience ∈ ["Advanced"; "Elite"] ∧ intensity ∈ ["High"; "Very High"])).
Proof.
  intros cluster.
  pose proof (assign_cluster_cases bmi bpm experience duration frequency intensity) as H.
  cbv zeta in H. fold cluster in H. clearbody cluster.
  unfold Spec.rule1, Spec.rule2, Spec.rule3, Spec.rule4 in H.
  rewrite !elem_of_cons, !elem_of_nil.
  destruct (Z.leb_spec 3 frequency);
    repeat split; intros; subst;
    intuition (first [discriminate | congruence | lia]).
Qed.

(** ** Body composition *)

Lemma F64_ltb_leb (x y : float) : F64.ltb x y = true → F64.leb x y = true.
Proof.
  unfold F64.ltb, F64.leb, SFltb, SFleb.
  destruct (SFcompare x y) as [[| |]|]; congruence.
Qed.

Lemma clamp_cases (estimate : float) :
  (F64.ltb estimate (F64.of_Z 50) = false ∧ clamp_body_fat estimate = Int 50)
  ∨ (F64.ltb estimate (F64.of_Z 50) = true ∧ F64.ltb (F64.of_Z 5) estimate = true
     ∧ clamp_body_fat estimate = Float estimate)
  ∨ (F64.ltb estimate (F64.of_Z 50) = true ∧ F64.ltb (F64.of_Z 5) estimate = false
     ∧ clamp_body_fat estimate = Int 5).
Proof.
  unfold clamp_body_fat, py_min, py_max. cbn [num_ltb to_float].
  destruct (F64.ltb estimate (F64.of_Z 50)) eqn:E50; [|left; split; reflexivity].
  right. cbn [num_ltb to_float].
  destruct (F64.ltb (F64.of_Z 5) estimate) eqn:E5; [left|right]; repeat split.
Qed.

Lemma clamp_range (estimate : float) :
  F64.leb (F64.of_Z 5) (to_float (clamp_body_fat estimate)) = true
  ∧ F64.leb (to_float (clamp_body_fat estimate)) (F64.of_Z 50) = true.
Proof.
  destruct (clamp_cases estimate) as [(_ & ->)|[(E50 & E5 & ->)|(_ & _ & ->)]];
    cbn [to_float]; split; auto using F64_ltb_leb; vm_compute; reflexivity.
Qed.

(** X4: the body-fat value shown always lies between 5 and 50.  The clamp
    returns the estimate itself exactly when it is strictly between the
    two, the int 50 when the estimate is not below 50 (a NaN included),
    and the int 5 when it is below 50 but not above 5. *)
Theorem body_fat_clamped (estimate : float) :
  let shown := clamp_body_fat estimate in
  F64.leb (F64.of_Z 5) (to_float shown) = true
  ∧ F64.leb (to_float shown) (F64.of_Z 50) = true
  ∧ (shown = Float estimate
     ↔ F64.ltb (F64.of_Z 5) estimate = true ∧ F64.ltb estimate (F64.of_Z 50) = true)
  ∧ (F64.ltb estimate (F64.of_Z 50) = false → shown = Int 50)
  ∧ (estimate = F64.nan → shown = Int 50)
  ∧ (F64.ltb estimate (F64.of_Z 50) = true → F64.ltb (F64.of_Z 5) estimate = false →
     shown = Int 5).
Proof.
  intros shown. subst shown.
  destruct (clamp_range estimate) as [H5 H50].
  split; [exact H5|]. split; [exact H50|].
  destruct (clamp_cases estimate) as [(E50 & ->)|[(E50 & E5 & ->)|(E50 & E5 & ->)]];
    repeat split; try discriminate; try assumption; try congruence;
    try (intros [? ?]; congruence); try (intros ->; discriminate E50).
Qed.

(** The place of a category on the ladder. *)
Lemma bmi_category_cases (bmi : float) :
  (F64.ltb bmi (F64.of_dec 185 1) = true ∧ bmi_category bmi = ("Underweight", "blue"))
  ∨ (F64.ltb bmi (F64.of_dec 185 1) = false ∧ F64.ltb bmi (F64.of_Z 25) = true
     ∧ bmi_category bmi = ("Normal Weight", "green"))
  ∨ (F64.ltb bmi (F64.of_Z 25) = false ∧ F64.ltb bmi (F64.of_Z 30) = true
     ∧ bmi_category bmi = ("Overweight", "orange"))
  ∨ (F64.ltb bmi (F64.of_Z 30) = false ∧ bmi_category bmi = ("Obese", "red")).
Proof.
  unfold bmi_category.
  destruct (F64.ltb bmi (F64.of_dec 185 1)) eqn:E1; [tauto|].
  destruct (F64.ltb bmi (F64.of_Z 25)) eqn:E2; [tauto|].
  destruct (F64.ltb bmi (F64.of_Z 30)) eqn:E3; tauto.
Qed.

Lemma F64_leb_ltb_trans (x y z : float) :
  F64.leb x y = true → F64.ltb y z = true → F64.ltb x z = true.
Proof.
  unfold F64.ltb, F64.leb, SFltb, SFleb, SFcompare.
  destruct x as [sx|sx| |sx mx ex], y as [sy|sy| |sy my ey], z as [sz|sz| |sz mz ez];
    repeat match goal with s : bool |- _ => destruct s end;
    try discriminate; try reflexivity;
    change (Pos.compare_cont Eq) with Pos.compare;
    destruct (Z.compare_spec ex ey), (Z.compare_spec ey ez), (Z.compare_spec ex ez);
    try lia; try discriminate; try reflexivity; subst;
    destruct (Pos.compare_spec mx my), (Pos.compare_spec my mz), (Pos.compare_spec mx mz);
    cbn; try lia; try discriminate; try reflexivity.
Qed.

(** X5: the category never moves down as the BMI grows; the lower bound of
    each band belongs to the band above (18.5 is Normal Weight, 25
    Overweight, 30 Obese); and a NaN is labelled Obese. *)
Theorem bmi_category_ladder :
  (∀ b1 b2 : float,
     F64.leb b1 b2 = true →
     category_rank (bmi_category b1).1 <= category_rank (bmi_category b2).1)
  ∧ bmi_category (F64.of_dec 185 1) = ("Normal Weight", "green")
  ∧ bmi_category (F64.of_Z 25) = ("Overweight", "orange")
  ∧ bmi_category (F64.of_Z 30) = ("Obese", "red")
  ∧ bmi_category F64.nan = ("Obese", "red").
Proof.
  split; [|repeat split; vm_compute; reflexivity].
  intros b1 b2 Hle.
  pose proof (fun z => F64_leb_ltb_trans b1 b2 z Hle) as Hlt.
  assert (T1 : ∀ b, F64.ltb b (F64.of_dec 185 1) = true → F64.ltb b (F64.of_Z 25) = true)
    by (intros b Hb; apply (F64_ltb_trans _ _ _ Hb); vm_compute; reflexivity).
  assert (T2 : ∀ b, F64.ltb b (F64.of_Z 25) = true → F64.ltb b (F64.of_Z 30) = true)
    by (intros b Hb; apply (F64_ltb_trans _ _ _ Hb); vm_compute; reflexivity).
  destruct (bmi_category_cases b1) as [(A1 & ->)|[(A1 & A2 & ->)|[(A2 & A3 & ->)|(A3 & ->)]]];
    destruct (bmi_category_cases b2) as [(B1 & ->)|[(B1 & B2 & ->)|[(B2 & B3 & ->)|(B3 & ->)]]];
    try (vm_compute; intros E; discriminate E);
    exfalso;
    repeat match goal with
      | B : F64.ltb b2 ?t = true |- _ => apply Hlt in B
      end;
    first [congruence
          | match goal with B : F64.ltb b1 _ = true |- _ => apply T1 in B end; congruence
          | match goal with B : F64.ltb b1 _ = true |- _ => apply T2 in B end; congruence
          | match goal with B : F64.ltb b1 _ = true |- _ => apply T1, T2 in B end; congruence].
Qed.

(** ** The diet planner *)

(** X6: the diet planner's cluster is 0, 1, 2 or 4, never 3.  Its three
    rules exclude one another, so each result has one cause: 0 exactly for
    the goal Endurance, 1 exactly for Muscle Gain with a BMI below 22, 4
    exactly for Weight Loss with a BMI above 28; Maintenance always gives
    2. *)
Theorem diet_cluster_rules (bmi : float) (diet_goal : string) :
  let cluster := diet_cluster bmi diet_goal in
  cluster ∈ [0; 1; 2; 4]
  ∧ (cluster = 0 ↔ diet_goal = "Endurance")
  ∧ (cluster = 1 ↔ F64.ltb bmi (F64.of_Z 22) = true ∧ diet_goal = "Muscle Gain")
  ∧ (cluster = 4 ↔ F64.ltb (F64.of_Z 28) bmi = true ∧ diet_goal = "Weight Loss")
  ∧ (diet_goal = "Maintenance" → cluster = 2).
Proof.
  intros cluster. subst cluster. unfold diet_cluster.
  destruct (F64.ltb bmi (F64.of_Z 22)), (F64.ltb (F64.of_Z 28) bmi);
    destruct (String.eqb_spec diet_goal "Muscle Gain") as [Hm|Hm];
    destruct (String.eqb_spec diet_goal "Endurance") as [He|He];
    destruct (String.eqb_spec diet_goal "Weight Loss") as [Hw|Hw];
    cbn [andb]; try congruence;
    (split; [repeat constructor|]);
    repeat split; try discriminate; try congruence;
    try (intros [? ?]; first [discriminate | congruence]).
Qed.

(** X7: the diet plan handler passes on any exception of [calculate_bmi],
    and otherwise returns the plan that [get_diet_plan] gives for the goal
    under any cluster id: weight and height decide only whether the
    handler fails. *)
Theorem diet_plan_handler `{Libm} (diet_weight : Z) (diet_height : float) (diet_goal : string) :
  match calculate_bmi (Int diet_weight) diet_height with
  | Raise e => generate_diet_plan diet_weight diet_height diet_goal = Raise e
  | Ok bmi =>
      ∀ cluster_id : Z,
        generate_diet_plan diet_weight diet_height diet_goal
        = get_diet_plan cluster_id diet_goal
  end.
Proof.
  unfold generate_diet_plan.
  destruct (calculate_bmi (Int diet_weight) diet_height) as [bmi|e]; [|reflexivity].
  intros c. cbn [mbind result_bind]. now rewrite !get_diet_plan_eq.
Qed.

(** ** Slices and the weekly schedule for any number of days *)

(** The number of days in [days[:n]]. *)
Lemma py_slice_partition {A : Type} (l : list A) (n : Z) :
  (py_slice_to l n ++ py_slice_from l n)%list = l.
Proof. apply take_drop. Qed.

Lemma days_slices (workout_days : Z) :
  ∃ k : nat,
    (k <= 7)%nat
    ∧ py_slice_to days workout_days = take k days
    ∧ py_slice_from days workout_days = drop k days
    ∧ (0 <= workout_days <= 7 → k = Z.to_nat workout_days).
Proof.
  exists (Nat.min (slice_bound days workout_days) 7).
  split; [lia|]. unfold py_slice_to, py_slice_from.
  destruct (Nat.min_spec (slice_bound days workout_days) 7) as [[Hlt ->]|[Hge ->]].
  - repeat split; try reflexivity. intros Hd. unfold slice_bound.
    destruct (Z.ltb_spec workout_days 0); [lia|reflexivity].
  - split; [|split].
    + rewrite take_ge by exact Hge. reflexivity.
    + rewrite drop_ge by exact Hge. reflexivity.
    + intros Hd. unfold slice_bound in Hge.
      destruct (Z.ltb_spec workout_days 0); [lia|]. lia.
Qed.

Section Week.

Variable pick : Z → string.

Lemma filled_week_any (workout_days : Z) :
  ∃ k : nat,
    (k <= 7)%nat
    ∧ length (py_slice_to days workout_days) = k
    ∧ (0 <= workout_days <= 7 → k = Z.to_nat workout_days)
    ∧ map fst (filled_week pick workout_days) = days
    ∧ ∀ (i : nat) (day : string),
        days !! i = Some day →
        dict_lookup (filled_week pick workout_days) day
        = Some (if (i <? k)%nat then pick (Z.of_nat i) else rest_day).
Proof.
  destruct (days_slices workout_days) as (k & Hk & Hto & Hfrom & Hin).
  exists k. unfold filled_week. rewrite Hto, Hfrom. clear Hto Hfrom.
  split; [exact Hk|]. split; [rewrite length_take; cbn; lia|]. split; [exact Hin|]. clear Hin.
  do 8 (destruct k as [|k]; [split; [reflexivity|];
        intros i day Hday;
        do 7 (destruct i as [|i]; [injection Hday as <-; reflexivity|]);
        discriminate Hday|]).
  lia.
Qed.

End Week.

(** ** The workout plan *)

(** The three lists of a cluster, whatever the difficulty asked for. *)
Lemma recommendations_lists (cluster_id : Z) :
  0 <= cluster_id <= 4 →
  ∃ high medium low,
    high ≠ [] ∧ medium ≠ [] ∧ low ≠ []
    ∧ ∀ difficulty,
        get_workout_recommendations cluster_id difficulty
        = Ok (if decide (difficulty = "High") then high
              else if decide (difficulty = "Medium") then medium
              else if decide (difficulty = "Low") then low
              else medium).
Proof.
  intros Hc.
  destruct workouts_fallback as [enthusiast Hfb].
  destruct (workouts_lookup_inside _ Hc) as (high & medium & low & Hown & Hh & Hm & Hl).
  exists high, medium, low. repeat (split; [assumption|]).
  intros difficulty.
  assert (Hmed : py_dict [("High", high); ("Medium", medium); ("Low", low)] !! "Medium"
                 = Some medium) by dict_lookup.
  unfold get_workout_recommendations.
  rewrite (py_index_Some _ _ _ Hfb). cbn [mbind result_bind].
  rewrite (py_index_Some _ _ _ Hown). cbn [mbind result_bind].
  rewrite (py_index_Some _ _ _ Hmed). cbn [mbind result_bind].
  now rewrite (py_get_Some _ _ _ _ Hown), difficulty_get.
Qed.

(** No entry of the workout table contains the word that marks a rest
    day. *)
Lemma table_has_no_rest :
  forallb (fun c =>
    forallb (fun d =>
      match get_workout_recommendations c d with
      | Ok ws => forallb (fun w => negb (py_in_str "Rest" w)) ws
      | Raise _ => false
      end) ["High"; "Medium"; "Low"]) [0; 1; 2; 3; 4] = true.
Proof. vm_compute. reflexivity. Qed.

Lemma recommendations_plain (cluster_id : Z) (difficulty : string) :
  0 <= cluster_id <= 4 →
  ∃ ws, get_workout_recommendations cluster_id difficulty = Ok ws
        ∧ ws ≠ []
        ∧ Forall (fun w => py_in_str "Rest" w = false) ws.
Proof.
  intros Hc.
  destruct (recommendations_lists _ Hc) as (high & medium & low & Hh & Hm & Hl & Hget).
  assert (Hin : In cluster_id [0; 1; 2; 3; 4]) by (cbn; lia).
  pose proof (proj1 (forallb_forall _ _) table_has_no_rest _ Hin) as Hrow.
  cbv beta in Hrow.
  assert (Hd : ∀ d ws, In d ["High"; "Medium"; "Low"] →
               get_workout_recommendations cluster_id d = Ok ws →
               Forall (fun w => py_in_str "Rest" w = false) ws).
  { intros d ws Hd E.
    pose proof (proj1 (forallb_forall _ _) Hrow _ Hd) as H. cbv beta in H.
    rewrite E in H. apply Forall_forall. intros w Hw.
    apply list_elem_of_In in Hw.
    apply (proj1 (forallb_forall _ _) H) in Hw. now apply negb_true_iff in Hw. }
  rewrite Hget. eexists. split; [reflexivity|].
  repeat case_decide; subst;
    (split; [assumption|]);
    first [ apply (Hd "High"); [cbn; tauto|rewrite Hget; reflexivity]
          | apply (Hd "Medium"); [cbn; tauto|rewrite Hget; reflexivity]
          | apply (Hd "Low"); [cbn; tauto|rewrite Hget; reflexivity] ].
Qed.

Lemma exp_to_cluster_lookup (experience : string) :
  exp_to_cluster !! experience =
  if decide (experience = "Elite") then Some 0
  else if decide (experience = "Advanced") then Some 1
  else if decide (experience = "Intermediate") then Some 2
  else if decide (experience = "Beginner") then Some 3
  else None.
Proof. unfold exp_to_cluster. dict_lookup; reflexivity. Qed.

(** The counts of the display loop on a filled week. *)
Lemma filled_week_counts (pick : Z → string) (workout_days : Z) :
  (∀ i, py_in_str "Rest" (pick i) = false) →
  workout_days_of (filled_week pick workout_days)
  = length (py_slice_to days workout_days)
  ∧ rest_days_of (filled_week pick workout_days)
    = length (py_slice_from days workout_days).
Proof.
  intros Hplain.
  assert (Hrest : py_in_str "Rest" rest_day = true) by (vm_compute; reflexivity).
  destruct (days_slices workout_days) as (k & Hk & Hto & Hfrom & _).
  unfold filled_week, workout_days_of, rest_days_of. rewrite Hto, Hfrom.
  do 8 (destruct k as [|k]; [
    cbn [take drop days fill assign_rest foldl dict_set String.eqb Ascii.eqb Bool.eqb];
    split;
    repeat first
      [ rewrite filter_cons_True by (cbn [snd]; first [apply Hplain|exact Hrest])
      | rewrite filter_cons_False
          by (cbn [snd]; first [rewrite Hplain|rewrite Hrest]; discriminate) ];
    reflexivity|]).
  lia.
Qed.

Lemma choice_plain (ws : list string) :
  ws ≠ [] →
  Forall (fun w => py_in_str "Rest" w = false) ws →
  ∀ i, py_in_str "Rest" (default "" (Spec.choice ws i)) = false.
Proof.
  intros Hne Hall i.
  destruct (Spec.choice ws i) as [w|] eqn:E; [|reflexivity].
  cbn [default]. unfold Spec.choice in E.
  rewrite Forall_forall in Hall. apply Hall.
  destruct (Z.even i); eapply list_elem_of_lookup_2; exact E.
Qed.

(** X8: for each experience the widget offers, any difficulty string and
    any integer number of days, the workout handler returns a schedule of
    the seven days in calendar order.  No table entry contains the word
    Rest, so the display loop counts as workout days exactly the days of
    [days[:workout_days]] and as rest days the others: [workout_days] and
    [7 - workout_days] of them for 0 to 7 days. *)
Theorem workout_plan_total (workout_experience difficulty_pref : string) (workout_days : Z) :
  workout_experience ∈ experiences →
  ∃ schedule,
    generate_workout_plan workout_experience difficulty_pref workout_days = Ok schedule
    ∧ map fst schedule = days
    ∧ workout_days_of schedule = length (py_slice_to days workout_days)
    ∧ rest_days_of schedule = length (py_slice_from days workout_days)
    ∧ (0 <= workout_days <= 7 →
       workout_days_of schedule = Z.to_nat workout_days
       ∧ rest_days_of schedule = Z.to_nat (7 - workout_days)).
Proof.
  intros Hexp.
  assert (∃ c, exp_to_cluster !! workout_experience = Some c ∧ 0 <= c <= 4) as (c & Hc & Hr).
  { rewrite exp_to_cluster_lookup. unfold experiences in Hexp.
    rewrite !elem_of_cons, elem_of_nil in Hexp.
    repeat case_decide; try (eexists; split; [reflexivity|lia]). tauto. }
  destruct (recommendations_plain c difficulty_pref Hr) as (ws & Hws & Hne & Hall).
  unfold generate_workout_plan.
  rewrite (py_index_Some _ _ _ Hc). cbn [mbind result_bind].
  rewrite Hws. cbn [mbind result_bind].
  rewrite (weekly_schedule_filled ws workout_days Hne).
  set (pick := fun i => default "" (Spec.choice ws i)).
  destruct (filled_week_any pick workout_days) as (k & Hk & Hlen & Hin & Hdays & _).
  destruct (filled_week_counts pick workout_days (choice_plain ws Hne Hall)) as [Hw Hrest].
  eexists. split; [reflexivity|]. split; [exact Hdays|].
  split; [exact Hw|]. split; [exact Hrest|].
  intros Hd. rewrite Hw, Hrest. specialize (Hin Hd).
  pose proof (f_equal (@length string) (py_slice_partition days workout_days)) as Hsum.
  rewrite length_app in Hsum. change (length days) with 7%nat in Hsum. lia.
Qed.

Lemma workout_plan_total_witness :
  ∃ schedule,
    generate_workout_plan "Advanced" "Low" 6 = Ok schedule
    ∧ map fst schedule = days
    ∧ workout_days_of schedule = length (py_slice_to days 6)
    ∧ rest_days_of schedule = length (py_slice_from days 6)
    ∧ (0 <= 6 <= 7 →
       workout_days_of schedule = Z.to_nat 6
       ∧ rest_days_of schedule = Z.to_nat (7 - 6)).
Proof.
  apply (workout_plan_total "Advanced" "Low" 6).
  unfold experiences. repeat constructor.
Defined.

(** X9: an experience outside the four of the widget makes the workout
    handler raise [KeyError], at the subscript of [exp_to_cluster]. *)
Theorem workout_plan_unknown_experience
    (workout_experience difficulty_pref : string) (workout_days : Z) :
  workout_experience ∉ experiences →
  generate_workout_plan workout_experience difficulty_pref workout_days = Raise KeyError.
Proof.
  intros Hexp. unfold generate_workout_plan.
  rewrite py_index_None; [reflexivity|].
  rewrite exp_to_cluster_lookup. unfold experiences in Hexp.
  rewrite !elem_of_cons, elem_of_nil in Hexp.
  repeat case_decide; try reflexivity; tauto.
Qed.

Lemma workout_plan_unknown_experience_witness :
  generate_workout_plan "Expert" "High" 4 = Raise KeyError.
Proof.
  apply (workout_plan_unknown_experience "Expert" "High" 4).
  unfold experiences. intros H.
  repeat (apply elem_of_cons in H as [H|H]; [discriminate H|]).
  now apply elem_of_nil in H.
Defined.

(** ** Which entries of a list are scheduled *)

Lemma dict_lookup_key (d : list (string * string)) (k v : string) :
  dict_lookup d k = Some v → k ∈ map fst d.
Proof.
  induction d as [|[k' v'] d IH]; [discriminate|].
  cbn [dict_lookup map fst]. destruct (String.eqb_spec k' k) as [->|Hne].
  - intros _. apply list_elem_of_here.
  - intros H. apply list_elem_of_further. now apply IH.
Qed.

Lemma even_mod_even (n len : Z) :
  Z.even n = true → Z.even len = true → Z.even (n mod len) = true.
Proof.
  intros Hn Hl.
  destruct (Z.eq_dec len 0) as [->|Hz]; [now rewrite Z.mod_0_r|].
  rewrite Z.mod_eq by exact Hz.
  rewrite Z.even_sub, Z.even_mul, Hn, Hl. reflexivity.
Qed.

Lemma choice_even_position (ws : list string) (i : Z) (w : string) :
  Z.even (Z.of_nat (length ws)) = true →
  Spec.choice ws i = Some w →
  ∃ j, Z.even j = true ∧ ws !! Z.to_nat j = Some w.
Proof.
  intros Hlen. unfold Spec.choice.
  destruct (Z.even i) eqn:Ei; intros Hw; eexists; (split; [|exact Hw]);
    apply even_mod_even; try assumption.
  rewrite Z.even_add, Ei. reflexivity.
Qed.

(** X10: with a workout list of even length only the entries at even
    positions are ever scheduled, whatever the number of training days:
    the index is [i % len] on an even day and [(i + 1) % len] on an odd
    one, an even number in both cases.  (In the table this is the Elite
    list for High, whose second and fourth entries never appear.) *)
Theorem schedule_skips_odd_positions (ws : list string) (workout_days : Z) :
  ws ≠ [] →
  Z.even (Z.of_nat (length ws)) = true →
  ∃ schedule,
    weekly_schedule ws workout_days = Ok schedule
    ∧ ∀ day w : string,
        dict_lookup schedule day = Some w →
        w = rest_day ∨ ∃ j, Z.even j = true ∧ ws !! Z.to_nat j = Some w.
Proof.
  intros Hne Hlen.
  rewrite (weekly_schedule_filled ws workout_days Hne).
  set (pick := fun i => default "" (Spec.choice ws i)).
  destruct (filled_week_any pick workout_days) as (k & _ & _ & _ & Hdays & Hlook).
  eexists. split; [reflexivity|].
  intros day w Hw.
  pose proof (dict_lookup_key _ _ _ Hw) as Hin. rewrite Hdays in Hin.
  apply list_elem_of_lookup_1 in Hin as [i Hi].
  rewrite (Hlook i day Hi) in Hw. injection Hw as <-.
  destruct (i <? k)%nat; [right|now left].
  unfold pick.
  destruct (choice_defined ws (Z.of_nat i) Hne ltac:(lia)) as [w Hw].
  rewrite Hw. cbn [default]. exact (choice_even_position ws _ w Hlen Hw).
Qed.

Lemma schedule_skips_odd_positions_witness :
  ∃ schedule,
    weekly_schedule ["HIIT Training (45 min)"; "Marathon Running (90 min)";
                     "CrossFit WOD (60 min)"; "Olympic Lifting (75 min)"] 7 = Ok schedule
    ∧ ∀ day w : string,
        dict_lookup schedule day = Some w →
        w = rest_day
        ∨ ∃ j, Z.even j = true
               ∧ ["HIIT Training (45 min)"; "Marathon Running (90 min)";
                  "CrossFit WOD (60 min)"; "Olympic Lifting (75 min)"] !! Z.to_nat j = Some w.
Proof.
  apply (schedule_skips_odd_positions
           ["HIIT Training (45 min)"; "Marathon Running (90 min)";
            "CrossFit WOD (60 min)"; "Olympic Lifting (75 min)"] 7);
    [discriminate|reflexivity].
Defined.

(** X11: for up to seven training days, Tuesday and Wednesday get the same
    workout when both are training days, and so do Thursday and Friday,
    and Saturday and Sunday: a full week shows at most four different
    workouts. *)
Theorem schedule_repeats (ws : list string) (workout_days : Z) :
  ws ≠ [] →
  0 <= workout_days <= 7 →
  ∃ schedule,
    weekly_schedule ws workout_days = Ok schedule
    ∧ (3 <= workout_days →
       dict_lookup schedule "Tuesday" = dict_lookup schedule "Wednesday")
    ∧ (5 <= workout_days →
       dict_lookup schedule "Thursday" = dict_lookup schedule "Friday")
    ∧ (workout_days = 7 →
       dict_lookup schedule "Saturday" = dict_lookup schedule "Sunday").
Proof.
  intros Hne Hd.
  rewrite (weekly_schedule_filled ws workout_days Hne).
  set (pick := fun i => default "" (Spec.choice ws i)).
  destruct (filled_week_any pick workout_days) as (k & _ & _ & Hk & _ & Hlook).
  specialize (Hk Hd). subst k.
  eexists. split; [reflexivity|].
  assert (Hpair : ∀ i day day',
            days !! i = Some day → days !! S i = Some day' →
            Nat.odd i = true → (S i < Z.to_nat workout_days)%nat →
            dict_lookup (filled_week pick workout_days) day
            = dict_lookup (filled_week pick workout_days) day').
  { intros i day day' Hi Hi' Ho Hlt.
    rewrite (Hlook i day Hi), (Hlook (S i) day' Hi').
    destruct (Nat.ltb_spec i (Z.to_nat workout_days)); [|lia].
    destruct (Nat.ltb_spec (S i) (Z.to_nat workout_days)); [|lia].
    unfold pick. rewrite (odd_day_repeats ws (Z.of_nat i)).
    - do 3 f_equal. lia.
    - destruct i as [|[|[|[|[|[|i]]]]]]; try discriminate Ho; try reflexivity;
        discriminate Hi'. }
  split; [|split]; intros H.
  - apply (Hpair 1%nat); try reflexivity. lia.
  - apply (Hpair 3%nat); try reflexivity. lia.
  - apply (Hpair 5%nat); try reflexivity. lia.
Qed.

Lemma schedule_repeats_witness :
  ∃ schedule,
    weekly_schedule ["Jogging (35 min)"; "Bodyweight Exercises (30 min)"; "Pilates (40 min)"] 7
    = Ok schedule
    ∧ (3 <= 7 → dict_lookup schedule "Tuesday" = dict_lookup schedule "Wednesday")
    ∧ (5 <= 7 → dict_lookup schedule "Thursday" = dict_lookup schedule "Friday")
    ∧ (7 = 7 → dict_lookup schedule "Saturday" = dict_lookup schedule "Sunday").
Proof.
  apply (schedule_repeats
           ["Jogging (35 min)"; "Bodyweight Exercises (30 min)"; "Pilates (40 min)"] 7);
    [discriminate|lia].
Defined.

(** ** The calorie estimate is monotone *)

Lemma met_positive_finite (intensity : string) :
  F64.positive_finite (py_get met_values intensity (F64.of_dec 60 1)) = true.
Proof.
  rewrite met_values_get. unfold Spec.met.
  repeat case_decide; vm_compute; reflexivity.
Qed.

(** The arithmetic of the estimate, step by step. *)
Lemma calories_chain (m1 m2 w1 w2 d1 d2 : float) :
  F64.positive_finite m1 = true → F64.positive_finite m2 = true →
  F64.positive_finite w1 = true → F64.positive_finite w2 = true →
  F64.positive_finite d1 = true → F64.positive_finite d2 = true →
  F64.leb m1 m2 = true → F64.leb w1 w2 = true → F64.leb d1 d2 = true →
  nonnegative (F64.round2 ((m1 * F64.of_dec 35 1 * w1 / F64.of_Z 200) * d1)%f64) = true
  ∧ F64.leb (F64.round2 ((m1 * F64.of_dec 35 1 * w1 / F64.of_Z 200) * d1)%f64)
            (F64.round2 ((m2 * F64.of_dec 35 1 * w2 / F64.of_Z 200) * d2)%f64) = true.
Proof.
  intros Pm1 Pm2 Pw1 Pw2 Pd1 Pd2 Hm Hw Hd.
  assert (P35 : F64.positive_finite (F64.of_dec 35 1) = true) by (vm_compute; reflexivity).
  assert (P200 : F64.positive_finite (F64.of_Z 200) = true) by (vm_compute; reflexivity).
  set (c35 := F64.of_dec 35 1) in *. set (c200 := F64.of_Z 200) in *.
  clearbody c35 c200.
  assert (NA1 : nonnegative (m1 * c35)%f64 = true)
    by (apply F64_mul_nonnegative; auto using positive_finite_nonnegative).
  assert (NA2 : nonnegative (m2 * c35)%f64 = true)
    by (apply F64_mul_nonnegative; auto using positive_finite_nonnegative).
  assert (HA : F64.leb (m1 * c35)%f64 (m2 * c35)%f64 = true) by (now apply F64_mul_mono_l).
  assert (NB1 : nonnegative (m1 * c35 * w1)%f64 = true) by (now apply F64_mul_nonnegative).
  assert (NB2 : nonnegative (m2 * c35 * w2)%f64 = true) by (now apply F64_mul_nonnegative).
  assert (HB : F64.leb (m1 * c35 * w1)%f64 (m2 * c35 * w2)%f64 = true).
  { apply F64_leb_trans with (m2 * c35 * w1)%f64.
    - now apply F64_mul_nonnegative_mono.
    - now apply F64_mul_nonnegative_mono_r. }
  assert (NC1 : nonnegative (m1 * c35 * w1 / c200)%f64 = true) by (now apply F64_div_nonnegative).
  assert (NC2 : nonnegative (m2 * c35 * w2 / c200)%f64 = true) by (now apply F64_div_nonnegative).
  assert (HC : F64.leb (m1 * c35 * w1 / c200)%f64 (m2 * c35 * w2 / c200)%f64 = true)
    by (now apply F64_div_nonnegative_mono).
  assert (ND1 : nonnegative (m1 * c35 * w1 / c200 * d1)%f64 = true)
    by (now apply F64_mul_nonnegative).
  assert (ND2 : nonnegative (m2 * c35 * w2 / c200 * d2)%f64 = true)
    by (now apply F64_mul_nonnegative).
  assert (HD : F64.leb (m1 * c35 * w1 / c200 * d1)%f64 (m2 * c35 * w2 / c200 * d2)%f64 = true).
  { apply F64_leb_trans with (m2 * c35 * w2 / c200 * d1)%f64.
    - now apply F64_mul_nonnegative_mono.
    - now apply F64_mul_nonnegative_mono_r. }
  split; [now apply round2_nonnegative|now apply round2_mono].
Qed.

(** X12: on positive finite durations and weights the calorie estimate is
    never negative and never NaN, and it does not decrease when the
    duration or the weight grows (the ages are free). *)
Theorem calories_monotone (d1 d2 w1 w2 : float) (intensity : string) (a1 a2 : Z) :
  F64.positive_finite d1 = true → F64.positive_finite d2 = true →
  F64.positive_finite w1 = true → F64.positive_finite w2 = true →
  F64.leb d1 d2 = true → F64.leb w1 w2 = true →
  nonnegative (calculate_calories_burned d1 intensity w1 a1) = true
  ∧ F64.leb (calculate_calories_burned d1 intensity w1 a1)
            (calculate_calories_burned d2 intensity w2 a2) = true.
Proof.
  intros Pd1 Pd2 Pw1 Pw2 Hd Hw. unfold calculate_calories_burned.
  pose proof (met_positive_finite intensity) as Pm.
  apply calories_chain; try assumption.
  apply F64_leb_refl. now apply positive_finite_nonnegative.
Qed.

Lemma calories_monotone_witness :
  nonnegative (calculate_calories_burned (F64.of_Z 30) "High" (F64.of_Z 70) 30) = true
  ∧ F64.leb (calculate_calories_burned (F64.of_Z 30) "High" (F64.of_Z 70) 30)
            (calculate_calories_burned (F64.of_Z 45) "High" (F64.of_Z 82) 55) = true.
Proof.
  apply (calories_monotone (F64.of_Z 30) (F64.of_Z 45) (F64.of_Z 70) (F64.of_Z 82) "High" 30 55);
    vm_compute; reflexivity.
Defined.

(** X13: for a positive finite duration and weight the estimate is ordered
    by intensity: Low, Medium, High, Very High. *)
Theorem calories_by_intensity (duration weight : float) (age : Z) :
  F64.positive_finite duration = true → F64.positive_finite weight = true →
  F64.leb (calculate_calories_burned duration "Low" weight age)
          (calculate_calories_burned duration "Medium" weight age) = true
  ∧ F64.leb (calculate_calories_burned duration "Medium" weight age)
            (calculate_calories_burned duration "High" weight age) = true
  ∧ F64.leb (calculate_calories_burned duration "High" weight age)
            (calculate_calories_burned duration "Very High" weight age) = true.
Proof.
  intros Pd Pw. unfold calculate_calories_burned.
  assert (Hd : F64.leb duration duration = true)
    by (now apply F64_leb_refl, positive_finite_nonnegative).
  assert (Hw : F64.leb weight weight = true)
    by (now apply F64_leb_refl, positive_finite_nonnegative).
  repeat split; apply calories_chain; try assumption;
    try apply met_positive_finite; vm_compute; reflexivity.
Qed.

Lemma calories_by_intensity_witness :
  F64.leb (calculate_calories_burned (F64.of_Z 45) "Low" (F64.of_Z 70) 30)
          (calculate_calories_burned (F64.of_Z 45) "Medium" (F64.of_Z 70) 30) = true
  ∧ F64.leb (calculate_calories_burned (F64.of_Z 45) "Medium" (F64.of_Z 70) 30)
            (calculate_calories_burned (F64.of_Z 45) "High" (F64.of_Z 70) 30) = true
  ∧ F64.leb (calculate_calories_burned (F64.of_Z 45) "High" (F64.of_Z 70) 30)
            (calculate_calories_burned (F64.of_Z 45) "Very High" (F64.of_Z 70) 30) = true.
Proof.
  apply (calories_by_intensity (F64.of_Z 45) (F64.of_Z 70) 30); vm_compute; reflexivity.
Defined.

(** ** The value shown by the calorie handler *)

Lemma type_factor_positive_finite (workout_type : string) :
  F64.positive_finite (py_get workout_factors workout_type (F64.of_dec 10 1)) = true.
Proof.
  rewrite workout_factors_get. unfold Spec.type_factor.
  repeat case_decide; vm_compute; reflexivity.
Qed.

Lemma gender_factor_positive_finite (gender : string) :
  F64.positive_finite
    (if String.eqb gender "Male" then F64.of_dec 11 1 else F64.of_dec 10 1) = true.
Proof. destruct (String.eqb gender "Male"); vm_compute; reflexivity. Qed.

(** X14: the value shown by the calorie handler, for whole minutes and
    kilograms below [2^53]: the handler raises nothing, the value is
    non-negative, it does not decrease when the duration or the weight
    grows, and for no gender string is it larger than for Male. *)
Theorem predicted_calories_monotone
    (d1 d2 w1 w2 : Z) (intensity : string) (a1 a2 : Z) (gender workout_type : string) :
  0 < d1 <= d2 → d2 < 2 ^ 53 →
  0 < w1 <= w2 → w2 < 2 ^ 53 →
  ∃ shown1 shown2 shown_male : float,
    predict_calories d1 intensity w1 a1 gender workout_type = Ok shown1
    ∧ predict_calories d2 intensity w2 a2 gender workout_type = Ok shown2
    ∧ predict_calories d1 intensity w1 a1 "Male" workout_type = Ok shown_male
    ∧ nonnegative shown1 = true
    ∧ F64.leb shown1 shown2 = true
    ∧ F64.leb shown1 shown_male = true.
Proof.
  intros Hd Hd2 Hw Hw2. unfold predict_calories.
  rewrite !py_float_small by lia. cbn [mbind result_bind].
  do 3 eexists. do 3 (split; [reflexivity|]).
  pose proof (of_Z_positive_finite d1 ltac:(lia)) as Pd1.
  pose proof (of_Z_positive_finite d2 ltac:(lia)) as Pd2.
  pose proof (of_Z_positive_finite w1 ltac:(lia)) as Pw1.
  pose proof (of_Z_positive_finite w2 ltac:(lia)) as Pw2.
  pose proof (of_Z_mono d1 d2 ltac:(lia)) as Ld.
  pose proof (of_Z_mono w1 w2 ltac:(lia)) as Lw.
  destruct (calories_monotone _ _ _ _ intensity a1 a2 Pd1 Pd2 Pw1 Pw2 Ld Lw) as [N1 L12].
  destruct (calories_monotone _ _ _ _ intensity a2 a2 Pd2 Pd2 Pw2 Pw2
              (F64_leb_refl _ (positive_finite_nonnegative _ Pd2))
              (F64_leb_refl _ (positive_finite_nonnegative _ Pw2))) as [N2 _].
  set (c1 := calculate_calories_burned (F64.of_Z d1) intensity (F64.of_Z w1) a1) in *.
  set (c2 := calculate_calories_burned (F64.of_Z d2) intensity (F64.of_Z w2) a2) in *.
  clearbody c1 c2.
  pose proof (gender_factor_positive_finite gender) as Pg.
  pose proof (type_factor_positive_finite workout_type) as Pt.
  set (g := if String.eqb gender "Male" then F64.of_dec 11 1 else F64.of_dec 10 1) in *.
  set (t := py_get workout_factors workout_type (F64.of_dec 10 1)) in *.
  assert (Ng1 : nonnegative (c1 * g)%f64 = true) by (now apply F64_mul_nonnegative).
  assert (Ng2 : nonnegative (c2 * g)%f64 = true) by (now apply F64_mul_nonnegative).
  split; [now apply F64_mul_nonnegative|]. split.
  - apply F64_mul_nonnegative_mono; try assumption.
    now apply F64_mul_nonnegative_mono.
  - change (String.eqb "Male" "Male") with true. cbv iota.
    apply F64_mul_nonnegative_mono; try assumption.
    + apply F64_mul_nonnegative; [assumption|vm_compute; reflexivity].
    + apply F64_mul_nonnegative_mono_r; try assumption; [vm_compute; reflexivity|].
      unfold g. destruct (String.eqb gender "Male"); vm_compute; reflexivity.
Qed.

Lemma predicted_calories_monotone_witness :
  ∃ shown1 shown2 shown_male : float,
    predict_calories 30 "Medium" 60 25 "Female" "Yoga" = Ok shown1
    ∧ predict_calories 90 "Medium" 95 70 "Female" "Yoga" = Ok shown2
    ∧ predict_calories 30 "Medium" 60 25 "Male" "Yoga" = Ok shown_male
    ∧ nonnegative shown1 = true
    ∧ F64.leb shown1 shown2 = true
    ∧ F64.leb shown1 shown_male = true.
Proof.
  apply (predicted_calories_monotone 30 90 60 95 "Medium" 25 70 "Female" "Yoga"); lia.
Defined.

(** X15: the value shown by the calorie handler, for whole minutes and
    kilograms below [2^53], is ordered by workout type: Yoga, Strength,
    Cardio, Sports, HIIT; the handler raises nothing. *)
Theorem predicted_calories_by_type
    (duration : Z) (intensity : string) (weight age : Z) (gender : string) :
  0 < duration < 2 ^ 53 → 0 < weight < 2 ^ 53 →
  ∃ yoga strength cardio sports hiit : float,
    predict_calories duration intensity weight age gender "Yoga" = Ok yoga
    ∧ predict_calories duration intensity weight age gender "Strength" = Ok strength
    ∧ predict_calories duration intensity weight age gender "Cardio" = Ok cardio
    ∧ predict_calories duration intensity weight age gender "Sports" = Ok sports
    ∧ predict_calories duration intensity weight age gender "HIIT" = Ok hiit
    ∧ F64.leb yoga strength = true
    ∧ F64.leb strength cardio = true
    ∧ F64.leb cardio sports = true
    ∧ F64.leb sports hiit = true.
Proof.
  intros Hd Hw. unfold predict_calories.
  rewrite !py_float_small by lia. cbn [mbind result_bind].
  do 5 eexists. do 5 (split; [reflexivity|]).
  pose proof (of_Z_positive_finite duration Hd) as Pd.
  pose proof (of_Z_positive_finite weight Hw) as Pw.
  destruct (calories_monotone _ _ _ _ intensity age age Pd Pd Pw Pw
              (F64_leb_refl _ (positive_finite_nonnegative _ Pd))
              (F64_leb_refl _ (positive_finite_nonnegative _ Pw))) as [Nc _].
  set (c := calculate_calories_burned (F64.of_Z duration) intensity (F64.of_Z weight) age) in *.
  clearbody c.
  pose proof (gender_factor_positive_finite gender) as Pg.
  set (g := if String.eqb gender "Male" then F64.of_dec 11 1 else F64.of_dec 10 1) in *.
  assert (Ng : nonnegative (c * g)%f64 = true) by (now apply F64_mul_nonnegative).
  repeat split; apply F64_mul_nonnegative_mono_r; try assumption;
    try apply type_factor_positive_finite; vm_compute; reflexivity.
Qed.

Lemma predicted_calories_by_type_witness :
  ∃ yoga strength cardio sports hiit : float,
    predict_calories 45 "High" 70 30 "Male" "Yoga" = Ok yoga
    ∧ predict_calories 45 "High" 70 30 "Male" "Strength" = Ok strength
    ∧ predict_calories 45 "High" 70 30 "Male" "Cardio" = Ok cardio
    ∧ predict_calories 45 "High" 70 30 "Male" "Sports" = Ok sports
    ∧ predict_calories 45 "High" 70 30 "Male" "HIIT" = Ok hiit
    ∧ F64.leb yoga strength = true
    ∧ F64.leb strength cardio = true
    ∧ F64.leb cardio sports = true
    ∧ F64.leb sports hiit = true.
Proof.
  apply (predicted_calories_by_type 45 "High" 70 30 "Male"); lia.
Defined.

(** ** The progress chart *)

Lemma timeline_last (weeks : Z) :
  0 <= weeks →
  last (timeline weeks) = Some (weeks - weeks mod Z.max 1 (weeks / 10)).
Proof.
  intros Hw. pose proof (timeline_step_pos weeks) as Hs.
  assert (Hq : 0 <= weeks / Z.max 1 (weeks / 10)) by (apply Z.div_pos; lia).
  pose proof (Z.div_mod weeks (Z.max 1 (weeks / 10)) ltac:(lia)) as Hdm.
  rewrite (timeline_eq weeks Hw), seq_S, map_app, last_app. cbn [map last plus].
  f_equal. rewrite Z2Nat.id by lia. lia.
Qed.

Lemma timeline_head (weeks : Z) : 0 <= weeks → head (timeline weeks) = Some 0.
Proof. intros Hw. now rewrite (timeline_eq weeks Hw). Qed.

Lemma last_map {A B : Type} (f : A → B) (l : list A) :
  last (map f l) = option_map f (last l).
Proof.
  induction l as [|a [|b l] IH]; [reflexivity|reflexivity|].
  change (last (map f (a :: b :: l))) with (last (map f (b :: l))).
  now rewrite IH.
Qed.

Lemma head_map {A B : Type} (f : A → B) (l : list A) :
  head (map f l) = option_map f (head l).
Proof. now destruct l. Qed.

(** Adding a zero to a positive finite double changes nothing. *)
Lemma F64_add_zero_r (x : float) (s : bool) :
  F64.positive_finite x = true → F64.add x (S754_zero s) = x.
Proof. destruct x as [| | |[] m e]; try discriminate. reflexivity. Qed.

Lemma F64_mul_zero_r (x : float) :
  F64.is_finite x = true → F64.is_zero (F64.mul x (F64.of_Z 0)) = true.
Proof. destruct x as [[]|[]| |[] m e]; try discriminate; reflexivity. Qed.

Lemma mapM_Ok {A B : Type} (f : A → result B) (g : A → B) (l : list A) :
  Forall (fun a => f a = Ok (g a)) l → mapM f l = Ok (map g l).
Proof.
  induction 1 as [|a l Ha _ IH]; [reflexivity|].
  change (mapM f (a :: l)) with (y ← f a; k ← mapM f l; mret (y :: k)).
  rewrite Ha, IH. reflexivity.
Qed.

Lemma timeline_range (weeks : Z) :
  0 <= weeks → Forall (fun w => 0 <= w <= weeks) (timeline weeks).
Proof.
  intros Hw. rewrite (timeline_eq weeks Hw).
  apply List.Forall_map, Forall_forall. intros i Hi. apply elem_of_seq in Hi.
  pose proof (timeline_step_pos weeks) as Hs.
  set (step := Z.max 1 (weeks / 10)) in *.
  pose proof (Z.mul_div_le weeks step Hs) as Hq.
  assert (H0 : 0 <= weeks / step) by (apply Z.div_pos; lia).
  set (q := weeks / step) in *. clearbody q.
  assert (Hi' : Z.of_nat i <= q) by lia.
  cbv beta. split; [lia|].
  apply Z.le_trans with (step * q); [|exact Hq].
  rewrite (Z.mul_comm step). apply Z.mul_le_mono_nonneg_r; lia.
Qed.

(** The chart when the weight and the weeks have doubles: no point
    raises. *)
Lemma chart_weights_ok (current_weight : Z) (change : float) (weeks : Z) :
  fits_double current_weight = true → 0 <= weeks < double_limit →
  chart_weights current_weight change weeks
  = Ok (map (fun w => (F64.of_Z current_weight + change * F64.of_Z w)%f64) (timeline weeks)).
Proof.
  intros Fcw Hweeks. unfold chart_weights. apply mapM_Ok.
  eapply Forall_impl; [apply timeline_range; lia|].
  intros w Hw. cbv beta in Hw. unfold chart_point.
  rewrite (py_float_fits w) by (apply fits_double_iff; lia).
  rewrite (py_float_fits current_weight Fcw). reflexivity.
Qed.

(** X16: for a goal of the table, a current weight below [2^53] and
    workouts, duration and weeks that have doubles, the projection and
    the progress chart raise nothing and the chart has one point per
    entry of the timeline.  Its last point is the weight projected for
    the last week of the timeline, which is the projected weight itself
    when the step divides the number of weeks (at 25 weeks the chart
    stops at week 24); its first point is the current weight whenever
    the weekly change is finite. *)
Theorem chart_follows_projection
    (current_weight weekly_workouts workout_duration_avg : Z) (diet_goal : string) (weeks : Z) :
  diet_goal ∈ ["Weight Loss"; "Maintenance"; "Muscle Gain"] →
  0 < current_weight < 2 ^ 53 →
  Z.abs weekly_workouts < double_limit →
  Z.abs workout_duration_avg < double_limit →
  0 <= weeks < double_limit →
  ∃ p weights,
    project_weight current_weight weekly_workouts workout_duration_avg diet_goal weeks = Ok p
    ∧ chart_weights current_weight (weight_change_per_week p) weeks = Ok weights
    ∧ length weights = length (timeline weeks)
    ∧ (F64.is_finite (weight_change_per_week p) = true →
       head weights = Some (F64.of_Z current_weight))
    ∧ last weights
      = Some (F64.of_Z current_weight
              + weight_change_per_week p
                * F64.of_Z (weeks - weeks mod Z.max 1 (weeks / 10)))%f64
    ∧ (weeks mod Z.max 1 (weeks / 10) = 0 → last weights = Some (projected_weight p)).
Proof.
  intros Hg Hcw Hww Hdur Hweeks.
  assert (Fcw : fits_double current_weight = true) by (apply fits_double_small; lia).
  assert (Fww : fits_double weekly_workouts = true) by (now apply fits_double_iff).
  assert (Fdur : fits_double workout_duration_avg = true) by (now apply fits_double_iff).
  assert (Fweeks : fits_double weeks = true) by (apply fits_double_iff; lia).
  rewrite (project_weight_eq _ _ _ _ _ Hg), Fcw, Fww, Fdur, Fweeks.
  cbn [andb]. cbv zeta. eexists. eexists. split; [reflexivity|].
  cbn [weight_change_per_week projected_weight].
  split; [apply (chart_weights_ok _ _ _ Fcw Hweeks)|].
  set (change := (_ / F64.of_Z 7700)%f64). clearbody change.
  split; [now rewrite length_map|].
  assert (Hlast : last (map (fun w => (F64.of_Z current_weight + change * F64.of_Z w)%f64)
                          (timeline weeks))
                  = Some (F64.of_Z current_weight
                          + change * F64.of_Z (weeks - weeks mod Z.max 1 (weeks / 10)))%f64).
  { now rewrite last_map, (timeline_last weeks ltac:(lia)). }
  split; [|split; [exact Hlast|]].
  - intros Hfin. rewrite head_map, (timeline_head weeks ltac:(lia)). cbn [option_map].
    f_equal. pose proof (F64_mul_zero_r change Hfin) as Hz.
    destruct (change * F64.of_Z 0)%f64 as [s| | |]; try discriminate Hz.
    apply F64_add_zero_r, of_Z_positive_finite. exact Hcw.
  - intros Hdiv. rewrite Hlast, Hdiv, Z.sub_0_r. reflexivity.
Qed.

Lemma chart_follows_projection_witness :
  ∃ p weights,
    project_weight 75 4 45 "Weight Loss" 25 = Ok p
    ∧ chart_weights 75 (weight_change_per_week p) 25 = Ok weights
    ∧ length weights = length (timeline 25)
    ∧ (F64.is_finite (weight_change_per_week p) = true →
       head weights = Some (F64.of_Z 75))
    ∧ last weights
      = Some (F64.of_Z 75
              + weight_change_per_week p
                * F64.of_Z (25 - 25 mod Z.max 1 (25 / 10)))%f64
    ∧ (25 mod Z.max 1 (25 / 10) = 0 → last weights = Some (projected_weight p)).
Proof.
  apply (chart_follows_projection 75 4 45 "Weight Loss" 25);
    [constructor|lia|vm_compute; reflexivity|vm_compute; reflexivity|].
  split; [lia|vm_compute; reflexivity].
Defined.

(** An int without a double: the chart raises at the first point. *)
Lemma chart_weights_overflow (change : float) :
  chart_weights (10 ^ 400) change 12 = Raise OverflowError.
Proof. reflexivity. Qed.

(** ** The goals and the numbers of the projection *)

(** X17: the projection has three outcomes.  On a goal outside its
    three-entry table it raises [KeyError], whatever the numbers; on a
    goal of the table it raises [OverflowError] when the weight, the
    workouts, the duration or the weeks reach [2^1024 - 2^970] in
    absolute value, an int without a double, and returns a result
    otherwise. *)
Theorem project_weight_goals
    (current_weight weekly_workouts workout_duration_avg : Z) (diet_goal : string) (weeks : Z) :
  (diet_goal ∈ ["Weight Loss"; "Maintenance"; "Muscle Gain"]
   ∧ (Z.abs current_weight < double_limit ∧ Z.abs weekly_workouts < double_limit
      ∧ Z.abs workout_duration_avg < double_limit ∧ Z.abs weeks < double_limit)
   ∧ (∃ p, project_weight current_weight weekly_workouts workout_duration_avg diet_goal weeks
           = Ok p))
  ∨ (diet_goal ∈ ["Weight Loss"; "Maintenance"; "Muscle Gain"]
     ∧ (double_limit <= Z.abs current_weight ∨ double_limit <= Z.abs weekly_workouts
        ∨ double_limit <= Z.abs workout_duration_avg ∨ double_limit <= Z.abs weeks)
     ∧ (project_weight current_weight weekly_workouts workout_duration_avg diet_goal weeks
        = Raise OverflowError))
  ∨ ((diet_goal ∉ ["Weight Loss"; "Maintenance"; "Muscle Gain"])
     ∧ (project_weight current_weight weekly_workouts workout_duration_avg diet_goal weeks
        = Raise KeyError)).
Proof.
  destruct (decide (diet_goal ∈ ["Weight Loss"; "Maintenance"; "Muscle Gain"])) as [Hg|Hg];
    [|right; right; split; [exact Hg|now apply project_weight_unknown_goal]].
  rewrite (project_weight_eq _ _ _ _ _ Hg).
  pose proof (fits_double_iff current_weight) as Icw.
  pose proof (fits_double_iff weekly_workouts) as Iww.
  pose proof (fits_double_iff workout_duration_avg) as Idur.
  pose proof (fits_double_iff weeks) as Iweeks.
  destruct (fits_double current_weight);
    [|right; left; split; [exact Hg|]; split; [left|reflexivity];
      destruct (Z.lt_ge_cases (Z.abs current_weight) double_limit) as [Hlt|Hge];
      [apply Icw in Hlt; discriminate Hlt|lia]].
  destruct (fits_double workout_duration_avg);
    [|right; left; split; [exact Hg|]; split; [right; right; left|reflexivity];
      destruct (Z.lt_ge_cases (Z.abs workout_duration_avg) double_limit) as [Hlt|Hge];
      [apply Idur in Hlt; discriminate Hlt|lia]].
  destruct (fits_double weekly_workouts);
    [|right; left; split; [exact Hg|]; split; [right; left|reflexivity];
      destruct (Z.lt_ge_cases (Z.abs weekly_workouts) double_limit) as [Hlt|Hge];
      [apply Iww in Hlt; discriminate Hlt|lia]].
  destruct (fits_double weeks);
    [|right; left; split; [exact Hg|]; split; [right; right; right|reflexivity];
      destruct (Z.lt_ge_cases (Z.abs weeks) double_limit) as [Hlt|Hge];
      [apply Iweeks in Hlt; discriminate Hlt|lia]].
  left. split; [exact Hg|]. split.
  - repeat split; [apply Icw|apply Iww|apply Idur|apply Iweeks]; reflexivity.
  - cbn [andb]. cbv zeta. eexists. reflexivity.
Qed.

(** ** The handlers on the inputs of the widgets *)

(** With a library whose squares of the 81 heights are positive finite
    doubles, the BMI of a widget input is the quotient by that square. *)
Lemma bmi_on_widgets `{Libm} (w cm : Z) :
  Bmi.grid_positive → 40 <= w <= 200 → 140 <= cm <= 220 →
  calculate_bmi (Int w) (Bmi.height_m cm)
  = Ok (F64.of_Z w / pow_two (Bmi.height_m cm))%f64.
Proof.
  intros Hgrid Hw Hcm. pose proof (grid_regular cm Hcm) as Hreg.
  pose proof (Hgrid cm Hcm) as Ps.
  unfold Bmi.square_is_regular in Hreg.
  destruct (Bmi.height_m cm) as [| | |[] m e] eqn:Eh; try discriminate.
  destruct (S754_finite false m e * S754_finite false m e)%f64 as [| | |s' m' e'];
    try discriminate.
  apply andb_true_iff in Hreg as [Hreg _].
  apply andb_true_iff in Hreg as [Hreg _]. apply negb_true_iff in Hreg.
  unfold calculate_bmi, py_square, libm_square. rewrite Hreg.
  destruct (pow_two (S754_finite false m e)) as [| | |[] ms es]; try discriminate.
  cbn [mbind result_bind]. unfold py_truediv. cbn [as_float].
  rewrite py_float_small by lia. reflexivity.
Qed.

(** X18: on every input the widgets allow (a weight of 40 to 200 kg, a
    height of 1.40 to 2.20 m in centimetre steps), and with a C library
    whose squares of these 81 heights are positive finite doubles, the
    three handlers that start with the BMI raise nothing for an age that
    has a double.  The profile page returns a result for every choice of
    the other fields, the body composition analysis returns a body fat
    between 5 and 50 with the category of the BMI it shows, and the diet
    planner returns the plan of the goal (the Maintenance plan for an
    unknown goal).  For an age without a double, [2^1024 - 2^970] or
    more in absolute value, the body composition analysis raises
    [OverflowError]. *)
Theorem handlers_total_on_widget_inputs `{Libm} (w cm : Z) :
  Bmi.grid_positive → 40 <= w <= 200 → 140 <= cm <= 220 →
  (∀ (bpm : Z) (experience : string) (duration frequency : Z) (intensity : string),
     ∃ r, fitness_profile_page w (Bmi.height_m cm) bpm experience duration frequency intensity
          = Ok r)
  ∧ (∀ (age : Z) (gender : string), Z.abs age < double_limit →
       ∃ r, analyze_body_composition w (Bmi.height_m cm) age gender = Ok r
            ∧ F64.leb (F64.of_Z 5) (to_float (body_fat r)) = true
            ∧ F64.leb (to_float (body_fat r)) (F64.of_Z 50) = true
            ∧ (category r, color r) = bmi_category (bmi_shown r))
  ∧ (∀ (age : Z) (gender : string), double_limit <= Z.abs age →
       analyze_body_composition w (Bmi.height_m cm) age gender = Raise OverflowError)
  ∧ (∀ goal : string,
       generate_diet_plan w (Bmi.height_m cm) goal = Ok (py_get diets goal diet_maintenance)).
Proof.
  intros Hgrid Hw Hcm. pose proof (bmi_on_widgets w cm Hgrid Hw Hcm) as Hbmi.
  set (bmi := (F64.of_Z w / pow_two (Bmi.height_m cm))%f64) in *. clearbody bmi.
  split; [|split; [|split]].
  - intros bpm experience duration frequency intensity.
    destruct (fitness_profile_page_ok w _ bpm experience duration frequency intensity bmi Hbmi)
      as (p & s & E & _). eexists. exact E.
  - intros age gender Hage. apply fits_double_iff in Hage.
    unfold analyze_body_composition. rewrite Hbmi. cbn [mbind result_bind].
    unfold body_fat_formula. rewrite (py_float_fits age Hage).
    destruct (String.eqb gender "Male"); cbn [mbind result_bind];
      (eexists; split; [reflexivity|]);
      cbn [body_fat category color bmi_shown];
      match goal with |- context [clamp_body_fat ?x] =>
        pose proof (clamp_range x) as [H5 H50] end;
      (split; [exact H5|]); (split; [exact H50|]); now destruct (bmi_category bmi).
  - intros age gender Hage.
    assert (Fage : fits_double age = false).
    { destruct (fits_double age) eqn:E; [|reflexivity].
      apply fits_double_iff in E. lia. }
    unfold analyze_body_composition. rewrite Hbmi. cbn [mbind result_bind].
    unfold body_fat_formula. rewrite (py_float_raises age Fage).
    destruct (String.eqb gender "Male"); reflexivity.
  - intros goal. unfold generate_diet_plan. rewrite Hbmi. cbn [mbind result_bind].
    apply get_diet_plan_eq.
Qed.

(** With correctly rounded squares, at the defaults of the widgets. *)
Lemma handlers_total_on_widget_inputs_witness :
  (∀ (bpm : Z) (experience : string) (duration frequency : Z) (intensity : string),
     ∃ r, @fitness_profile_page rounding_libm 70 (Bmi.height_m 175) bpm experience
            duration frequency intensity
          = Ok r)
  ∧ (∀ (age : Z) (gender : string), Z.abs age < double_limit →
       ∃ r, @analyze_body_composition rounding_libm 70 (Bmi.height_m 175) age gender = Ok r
            ∧ F64.leb (F64.of_Z 5) (to_float (body_fat r)) = true
            ∧ F64.leb (to_float (body_fat r)) (F64.of_Z 50) = true
            ∧ (category r, color r) = bmi_category (bmi_shown r))
  ∧ (∀ (age : Z) (gender : string), double_limit <= Z.abs age →
       @analyze_body_composition rounding_libm 70 (Bmi.height_m 175) age gender
       = Raise OverflowError)
  ∧ (∀ goal : string,
       @generate_diet_plan rounding_libm 70 (Bmi.height_m 175) goal
       = Ok (py_get diets goal diet_maintenance)).
Proof.
  apply (@handlers_total_on_widget_inputs rounding_libm 70 175);
    [exact rounding_libm_grid_positive|lia|lia].
Defined.
